(** * dxh-task: the menu pipeline (scraper, cache, orchestrator)

    A shallow embedding of [src/services/scraper.ts], [src/services/cache.ts]
    and [src/services/menuService.ts], and the properties of the
    content-acquisition and caching pipeline proved about it.

    JavaScript strings are sequences of UTF-16 code units.  What the
    program takes from its platform (the URL and Date parsers, Unicode
    lower-casing, the HTML query engine) is a field of [Platform]; what it
    takes from the outside world (HTTP answers, the headless browser, the
    language model, the clock) is a field of [Env].

    An asynchronous function is modelled by what awaiting it gives: a
    value or a thrown error, and the calls it made, in order.  A
    statement handed to SQLite with [db.run] is in flight when the call
    returns: SQLite executes the statements in flight one at a time, in
    an order of its own, and only a lookup waits for its statement.
    Console output is left out. *)

From Stdlib Require Import ZArith NArith List String Ascii Bool Lia.
From Stdlib Require Import Floats.SpecFloat DecimalString.
Import ListNotations.

Set Implicit Arguments.
Set Warnings "-register-all".

(* ================================================================== *)
(** * JavaScript strings                                               *)
(* ================================================================== *)

Module JS.

(** A string is its list of UTF-16 code units. *)
Definition jsstring := list N.

(** Reads a literal of this file (UTF-8 bytes) as code units. *)
Fixpoint utf16_of_utf8 (bs : list N) : jsstring :=
  match bs with
  | [] => []
  | b0 :: r0 =>
    if (b0 <? 128)%N then b0 :: utf16_of_utf8 r0
    else match r0 with
    | [] => [b0]
    | b1 :: r1 =>
      if (b0 <? 224)%N then ((b0 - 192) * 64 + (b1 - 128))%N :: utf16_of_utf8 r1
      else match r1 with
      | [] => [b0; b1]
      | b2 :: r2 =>
        if (b0 <? 240)%N
        then ((b0 - 224) * 4096 + (b1 - 128) * 64 + (b2 - 128))%N :: utf16_of_utf8 r2
        else match r2 with
        | [] => [b0; b1; b2]
        | b3 :: r3 =>
          let cp := ((b0 - 240) * 262144 + (b1 - 128) * 4096
                     + (b2 - 128) * 64 + (b3 - 128))%N in
          let v := (cp - 65536)%N in
          (55296 + v / 1024)%N :: (56320 + v mod 1024)%N :: utf16_of_utf8 r3
        end
      end
    end
  end.

Definition js (s : string) : jsstring :=
  utf16_of_utf8 (map N_of_ascii (list_ascii_of_string s)).

Fixpoint eqb (a b : jsstring) : bool :=
  match a, b with
  | [], [] => true
  | x :: a', y :: b' => (x =? y)%N && eqb a' b'
  | _, _ => false
  end.

(** [s.startsWith(p)] *)
Fixpoint startsWith (p s : jsstring) : bool :=
  match p, s with
  | [], _ => true
  | x :: p', y :: s' => (x =? y)%N && startsWith p' s'
  | _ :: _, [] => false
  end.

(** [s.includes(p)] *)
Fixpoint includes (s p : jsstring) : bool :=
  startsWith p s || match s with [] => false | _ :: s' => includes s' p end.

(** [s.split(c)[0]] for a one-character separator: what comes before the
    first [c], the whole string when there is none. *)
Fixpoint split_head (c : N) (s : jsstring) : jsstring :=
  match s with
  | [] => []
  | x :: s' => if (x =? c)%N then [] else x :: split_head c s'
  end.

(** The class [\s] of regular expressions, which is also what [trim]
    removes: WhiteSpace and LineTerminator code points. *)
Definition isWhiteSpace (c : N) : bool :=
  ((9 <=? c) && (c <=? 13) || (c =? 32) || (c =? 160) || (c =? 5760)
   || (8192 <=? c) && (c <=? 8202) || (c =? 8232) || (c =? 8233)
   || (c =? 8239) || (c =? 8287) || (c =? 12288) || (c =? 65279))%N.

(** The class [\d]. *)
Definition isDigit (c : N) : bool := ((48 <=? c) && (c <=? 57))%N.

Fixpoint skip (p : N -> bool) (s : jsstring) : jsstring :=
  match s with
  | [] => []
  | c :: s' => if p c then skip p s' else s
  end.

Definition trimStart (s : jsstring) : jsstring := skip isWhiteSpace s.
Definition trim (s : jsstring) : jsstring := rev (trimStart (rev (trimStart s))).

(** [s.replace(/\s+/g, ' ')] *)
Fixpoint collapse_whitespace (s : jsstring) : jsstring :=
  match s with
  | [] => []
  | c :: s' =>
    if isWhiteSpace c
    then match s' with
         | [] => [32%N]
         | d :: _ => if isWhiteSpace d then collapse_whitespace s'
                     else 32%N :: collapse_whitespace s'
         end
    else c :: collapse_whitespace s'
  end.

(** The UTF-8 encoding of a code point. *)
Definition utf8_encode (cp : N) : list N :=
  if (cp <? 128)%N then [cp]
  else if (cp <? 2048)%N then [(192 + cp / 64)%N; (128 + cp mod 64)%N]
  else if (cp <? 65536)%N
  then [(224 + cp / 4096)%N; (128 + (cp / 64) mod 64)%N; (128 + cp mod 64)%N]
  else [(240 + cp / 262144)%N; (128 + (cp / 4096) mod 64)%N;
        (128 + (cp / 64) mod 64)%N; (128 + cp mod 64)%N].

Definition isHighSurrogate (c : N) : bool := ((55296 <=? c) && (c <=? 56319))%N.
Definition isLowSurrogate (c : N) : bool := ((56320 <=? c) && (c <=? 57343))%N.

(** The UTF-8 bytes a native binding receives for a string: a surrogate
    pair is one code point, and a surrogate code unit outside a pair is
    written as U+FFFD, the replacement character. *)
Fixpoint utf8_of_utf16 (s : jsstring) : list N :=
  match s with
  | [] => []
  | c :: s' =>
    if isHighSurrogate c
    then match s' with
         | d :: s'' =>
           if isLowSurrogate d
           then utf8_encode (65536 + (c - 55296) * 1024 + (d - 56320))%N
                ++ utf8_of_utf16 s''
           else utf8_encode 65533 ++ utf8_of_utf16 s'
         | [] => utf8_encode 65533
         end
    else if isLowSurrogate c then utf8_encode 65533 ++ utf8_of_utf16 s'
    else utf8_encode c ++ utf8_of_utf16 s'
  end.


(** Decimal digits of a non-negative number, least significant first,
    [n] of them. *)
Fixpoint digits_rev (n : nat) (z : Z) : jsstring :=
  match n with
  | O => []
  | S n' => Z.to_N (48 + z mod 10) :: digits_rev n' (z / 10)
  end.

(** [String(z).padStart(n, '0')] for [0 <= z < 10^n]. *)
Definition pad (n : nat) (z : Z) : jsstring := rev (digits_rev n z).

End JS.

Import JS.

(* ================================================================== *)
(** * The platform                                                     *)
(* ================================================================== *)

(** A parsed URL, as the WHATWG URL record of the [URL] class, and its
    serializer ([toString], [href]). *)
Record URL := mkURL {
  scheme : jsstring;
  authority : option jsstring;   (* userinfo, host and port *)
  path : jsstring;
  query : option jsstring;
  fragment : option jsstring
}.

Definition URL_toString (u : URL) : jsstring :=
  scheme u ++ js ":"
  ++ match authority u with Some a => js "//" ++ a | None => [] end
  ++ path u
  ++ match query u with Some q => js "?" ++ q | None => [] end
  ++ match fragment u with Some f => js "#" ++ f | None => [] end.

(** [urlObj.hash = ''] *)
Definition URL_clear_hash (u : URL) : URL :=
  mkURL (scheme u) (authority u) (path u) (query u) None.

(** An [<img>] element as [$(elem).attr(...)] sees it. *)
Record img := mkImg {
  attr_src : option jsstring;
  attr_data_src : option jsstring;
  attr_alt : option jsstring;
  attr_title : option jsstring
}.

(** What the program calls and does not define. *)
Record Platform := mkPlatform {
  (** [String.prototype.toLowerCase] *)
  toLowerCase : jsstring -> jsstring;
  (** [new URL(s)]; [None] when it throws *)
  URL_parse : jsstring -> option URL;
  (** [new URL(src, base).href]; [None] when it throws *)
  URL_resolve : jsstring -> jsstring -> option jsstring;
  (** the time value of [new Date(s)]; [None] is NaN (Invalid Date) *)
  Date_parse : jsstring -> option Z;
  (** ECMAScript's LocalTZA(t, isUTC): the offset of local time, in ms *)
  LocalTZA : Z -> bool -> Z;
  (** cheerio: [$(selector)] on the document loaded from the markup with
      its script, style and noscript elements removed: the number of
      matched elements and their [.text()] *)
  cheerio_select : jsstring -> jsstring -> nat * jsstring;
  (** cheerio: the [img] elements of the markup, in document order *)
  cheerio_imgs : jsstring -> list img
}.

(* ================================================================== *)
(** * Dates (ECMAScript time values, in ms since the epoch)            *)
(* ================================================================== *)

Module JSDate.

Local Open Scope Z_scope.

Definition msPerDay : Z := 86400000.

Definition Day (t : Z) : Z := t / msPerDay.
Definition TimeWithinDay (t : Z) : Z := t mod msPerDay.

(** Year, month (1..12) and day of the month of a day number. *)
Definition civil_from_days (z0 : Z) : Z * Z * Z :=
  let z := z0 + 719468 in
  let era := z / 146097 in
  let doe := z - era * 146097 in
  let yoe := (doe - doe / 1460 + doe / 36524 - doe / 146096) / 365 in
  let y := yoe + era * 400 in
  let doy := doe - (365 * yoe + yoe / 4 - yoe / 100) in
  let mp := (5 * doy + 2) / 153 in
  let d := doy - (153 * mp + 2) / 5 + 1 in
  let m := if mp <? 10 then mp + 3 else mp - 9 in
  (if m <=? 2 then y + 1 else y, m, d).

(** The day number of a year, month (1..12) and day of the month. *)
Definition days_from_civil (y0 m d : Z) : Z :=
  let y := if m <=? 2 then y0 - 1 else y0 in
  let era := y / 400 in
  let yoe := y - era * 400 in
  let doy := (153 * (if 2 <? m then m - 3 else m + 9) + 2) / 5 + d - 1 in
  let doe := yoe * 365 + yoe / 4 - yoe / 100 + doy in
  era * 146097 + doe - 719468.

Definition YearFromTime (t : Z) : Z := fst (fst (civil_from_days (Day t))).
Definition MonthFromTime (t : Z) : Z := snd (fst (civil_from_days (Day t))) - 1.
Definition DateFromTime (t : Z) : Z := snd (civil_from_days (Day t)).
Definition WeekDay (t : Z) : Z := (Day t + 4) mod 7.

Definition MakeDay (year month date : Z) : Z :=
  days_from_civil (year + month / 12) (month mod 12 + 1) 1 + date - 1.
Definition MakeDate (day time : Z) : Z := day * msPerDay + time.
Definition TimeClip (t : Z) : option Z :=
  if 8640000000000000 <? Z.abs t then None else Some t.

(** [Date.prototype.toISOString], on a time value in range. *)
Definition toISOString (t : Z) : jsstring :=
  let y := YearFromTime t in
  let w := TimeWithinDay t in
  (if (0 <=? y) && (y <=? 9999) then pad 4 y
   else (if y <? 0 then js "-" else js "+") ++ pad 6 (Z.abs y))
  ++ js "-" ++ pad 2 (MonthFromTime t + 1)
  ++ js "-" ++ pad 2 (DateFromTime t)
  ++ js "T" ++ pad 2 (w / 3600000)
  ++ js ":" ++ pad 2 (w / 60000 mod 60)
  ++ js ":" ++ pad 2 (w / 1000 mod 60)
  ++ js "." ++ pad 3 (w mod 1000)
  ++ js "Z".

Section Local.
Variable P : Platform.

Definition LocalTime (t : Z) : Z := t + LocalTZA P t true.
Definition UTC (t : Z) : Z := t - LocalTZA P t false.

(** [getDate()], [getDay()]: [None] is NaN. *)
Definition getDate (tv : option Z) : option Z :=
  match tv with Some t => Some (DateFromTime (LocalTime t)) | None => None end.
Definition getDay (tv : option Z) : option Z :=
  match tv with Some t => Some (WeekDay (LocalTime t)) | None => None end.

(** [setDate(dt)]: the new time value. *)
Definition setDate (tv : option Z) (dt : option Z) : option Z :=
  match tv, dt with
  | Some t0, Some d =>
    let t := LocalTime t0 in
    TimeClip (UTC (MakeDate (MakeDay (YearFromTime t) (MonthFromTime t) d)
                            (TimeWithinDay t)))
  | _, _ => None
  end.

End Local.

End JSDate.

(* ================================================================== *)
(** * JavaScript values, JSON and the menu types                       *)
(* ================================================================== *)

(** The values the cache stores and returns.  Numbers are IEEE 754
    doubles.  A property whose value is [undefined] is modelled as an
    absent property: [JSON.stringify] omits the one like the other. *)
Inductive jsvalue :=
| VNull
| VBool (b : bool)
| VNumber (x : spec_float)
| VString (s : jsstring)
| VArray (l : list jsvalue)
| VObject (l : list (jsstring * jsvalue)).

(** [if (v)] *)
Definition truthy (v : jsvalue) : bool :=
  match v with
  | VNull => false
  | VBool b => b
  | VNumber (S754_zero _) | VNumber S754_nan => false
  | VNumber _ => true
  | VString s => match s with [] => false | _ => true end
  | VArray _ | VObject _ => true
  end.

(** types/menu.ts *)
Record MenuItem := mkMenuItem {
  category : jsstring;
  name : jsstring;
  price : spec_float;
  allergens : option (list jsstring);
  weight : option jsstring;
  description : option jsstring
}.

Record MenuSummary := mkMenuSummary {
  restaurant_name : jsstring;
  date : jsstring;
  (* [undefined] when the orchestrator computed it from an invalid date *)
  day_of_week : option jsstring;
  menu_items : list MenuItem;
  daily_menu : bool;
  source_url : jsstring
}.

Definition opt_prop (k : string) (f : option jsvalue) : list (jsstring * jsvalue) :=
  match f with Some v => [(js k, v)] | None => [] end.

(** The object a [MenuItem] is. *)
Definition MenuItem_value (i : MenuItem) : jsvalue :=
  VObject ([(js "category", VString (category i));
            (js "name", VString (name i));
            (js "price", VNumber (price i))]
           ++ opt_prop "allergens"
                (option_map (fun l => VArray (map VString l)) (allergens i))
           ++ opt_prop "weight" (option_map VString (weight i))
           ++ opt_prop "description" (option_map VString (description i))).

(** The object a [MenuSummary] is. *)
Definition MenuSummary_value (m : MenuSummary) : jsvalue :=
  VObject ([(js "restaurant_name", VString (restaurant_name m));
            (js "date", VString (date m))]
           ++ opt_prop "day_of_week" (option_map VString (day_of_week m))
           ++ [(js "menu_items", VArray (map MenuItem_value (menu_items m)));
               (js "daily_menu", VBool (daily_menu m));
               (js "source_url", VString (source_url m))]).

Module JSON.

(** A JSON text is modelled by what [JSON.parse] makes of it: the value
    it denotes, or nothing (a SyntaxError). *)
Inductive text :=
| Denotes (v : jsvalue)
| Malformed (s : jsstring).

(** What [JSON.stringify] writes for a number: [null] for NaN and the
    infinities, [0] for negative zero. *)
Definition number (x : spec_float) : jsvalue :=
  match x with
  | S754_nan | S754_infinity _ => VNull
  | S754_zero _ => VNumber (S754_zero false)
  | S754_finite _ _ _ => VNumber x
  end.


(** The value denoted by the text [JSON.stringify] writes for [v]. *)
Fixpoint written (v : jsvalue) : jsvalue :=
  match v with
  | VNull => VNull
  | VBool b => VBool b
  | VNumber x => number x
  | VString s => VString s
  | VArray l => VArray (map written l)
  | VObject l => VObject (map (fun kv => (fst kv, written (snd kv))) l)
  end.

Definition stringify (v : jsvalue) : text := Denotes (written v).

(** [JSON.parse]; [None] when it throws. *)
Definition parse (t : text) : option jsvalue :=
  match t with
  | Denotes v => Some v
  | Malformed _ => None
  end.

End JSON.

(* ================================================================== *)
(** * services/cache.ts                                                *)
(* ================================================================== *)

Module CacheService.

Local Open Scope Z_scope.

(** TEXT as SQLite holds and compares it: UTF-8 bytes.  A JS string
    bound to a parameter reaches SQLite as its UTF-8 encoding, in which
    every surrogate code unit that is not part of a pair has become
    U+FFFD. *)
Definition sqltext : Type := list N.
Definition sql_text (s : jsstring) : sqltext := utf8_of_utf16 s.

(** A row of the table [menu_cache].  ([data] is kept as what
    [JSON.parse] makes of it; the text [JSON.stringify] writes has no
    unpaired surrogate, so that SQLite hands it back as it was.) *)
Record row := mkRow {
  row_id : Z;
  row_url : sqltext;
  row_date : sqltext;
  row_data : JSON.text;
  row_created_at : Z;
  row_expires_at : Z
}.

(** What SQLite holds: the rows of [menu_cache] (the table is taken to
    exist; a statement executed before CREATE TABLE is one that meets
    an error), the AUTOINCREMENT counter, and the errors SQLite is going
    to report, one entry per statement in the order of their execution
    ([None]: the statement is executed; an empty schedule: every
    statement is executed). *)
Record store := mkStore {
  rows : list row;
  seq : Z;
  faults : list (option jsstring)
}.

(** A statement handed to [db.run], with the values bound to it. *)
Inductive statement :=
| CREATE_IF_NOT_EXISTS
| INSERT_OR_REPLACE (url date : jsstring) (data : JSON.text)
                    (created_at : Z) (expires_at : option Z)
| DELETE (url date : jsstring)
| DELETE_EXPIRED (now : Z).

(** The handle [this.db].  It is never put in serialized mode:
    [db.run] hands its statement over and returns, and the statements
    in flight are executed by SQLite one at a time in an order of its
    own.  The service waits for none of its writes. *)
Record db := mkDb {
  store_of : store;
  inflight : list statement   (* oldest first *)
}.
#[local] Coercion store_of : db >-> store.

(** The error, if any, that the next statement executed meets. *)
Definition next_fault (t : store) : option jsstring * store :=
  match faults t with
  | [] => (None, t)
  | f :: fs => (f, mkStore (rows t) (seq t) fs)
  end.

(** Two TEXT values are equal under the BINARY collation when their
    bytes are. *)
Definition bytes_eqb (a b : sqltext) : bool := JS.eqb a b.

(** [WHERE url = ? AND date = ?] with [url] and [date] bound. *)
Definition same_key (url date : jsstring) (r : row) : bool :=
  bytes_eqb (row_url r) (sql_text url) && bytes_eqb (row_date r) (sql_text date).

(** SELECT data, expires_at FROM menu_cache WHERE url = ? AND date = ? *)
Definition sql_select (url date : jsstring) (t : store)
  : (jsstring + option row) * store :=
  match next_fault t with
  | (Some err, t') => (inl err, t')
  | (None, t') => (inr (find (same_key url date) (rows t')), t')
  end.

(** INSERT OR REPLACE INTO menu_cache (url, date, data, created_at,
    expires_at) VALUES (?, ?, ?, ?, ?), under UNIQUE(url, date) and
    NOT NULL: a NaN bound to [expires_at] is stored as NULL and violates
    NOT NULL, which aborts the statement. *)
Definition sql_insert_or_replace (url date : jsstring) (data : JSON.text)
    (created_at : Z) (expires_at : option Z) (t : store) : option jsstring * store :=
  match next_fault t with
  | (Some err, t') => (Some err, t')
  | (None, t') =>
    match expires_at with
    | None => (Some (js "SQLITE_CONSTRAINT: NOT NULL constraint failed: menu_cache.expires_at"), t')
    | Some e =>
      (None,
       mkStore (filter (fun r => negb (same_key url date r)) (rows t')
                ++ [mkRow (seq t' + 1) (sql_text url) (sql_text date) data created_at e])
               (seq t' + 1) (faults t'))
    end
  end.

(** DELETE FROM menu_cache WHERE url = ? AND date = ? *)
Definition sql_delete (url date : jsstring) (t : store) : option jsstring * store :=
  match next_fault t with
  | (Some err, t') => (Some err, t')
  | (None, t') =>
    (None, mkStore (filter (fun r => negb (same_key url date r)) (rows t'))
                   (seq t') (faults t'))
  end.

(** DELETE FROM menu_cache WHERE expires_at < ? *)
Definition sql_delete_expired (now : Z) (t : store) : option jsstring * store :=
  match next_fault t with
  | (Some err, t') => (Some err, t')
  | (None, t') =>
    (None, mkStore (filter (fun r => negb (row_expires_at r <? now)) (rows t'))
                   (seq t') (faults t'))
  end.

(** CREATE TABLE / CREATE INDEX ... IF NOT EXISTS *)
Definition sql_create_if_not_exists (t : store) : option jsstring * store :=
  next_fault t.

(** SQLite executes a statement that was handed to [db.run]; the
    callbacks of the service only log the error. *)
Definition execute (s : statement) (t : store) : store :=
  match s with
  | CREATE_IF_NOT_EXISTS => snd (sql_create_if_not_exists t)
  | INSERT_OR_REPLACE url date data created_at expires_at =>
    snd (sql_insert_or_replace url date data created_at expires_at t)
  | DELETE url date => snd (sql_delete url date t)
  | DELETE_EXPIRED now => snd (sql_delete_expired now t)
  end.

Fixpoint remove_nth {A} (i : nat) (l : list A) {struct l} : list A :=
  match l, i with
  | [], _ => []
  | _ :: l', O => l'
  | x :: l', S i' => x :: remove_nth i' l'
  end.

(** SQLite executes the statement in flight at position [i] (0 is the
    oldest); nothing happens when there is none. *)
Definition run_nth (i : nat) (d : db) : db :=
  match nth_error (inflight d) i with
  | Some s => mkDb (execute s d) (remove_nth i (inflight d))
  | None => d
  end.

(** SQLite executes statements in flight, picked one after the other
    by their positions [k]: any of them, in any order. *)
Definition sqlite_runs (k : list nat) (d : db) : db :=
  fold_left (fun d i => run_nth i d) k d.

(** [this.db.run(sql, params, callback)]: the statement is in flight
    when the call returns. *)
Definition db_run (s : statement) (d : db) : db :=
  mkDb d (inflight d ++ [s]).

Section WithPlatform.
Variable P : Platform.

(** The three schema statements; their errors go to [console.error]. *)
Definition initializeDatabase (d : db) : db :=
  db_run CREATE_IF_NOT_EXISTS
    (db_run CREATE_IF_NOT_EXISTS
       (db_run CREATE_IF_NOT_EXISTS d)).

(** Midnight of the next day; [None] is NaN. *)
Definition getExpirationTimestamp (dateString : jsstring) : option Z :=
  let date := Date_parse P (dateString ++ js "T00:00:00") in
  let date' :=
    JSDate.setDate P date (option_map (fun n => n + 1) (JSDate.getDate P date)) in
  date'.

(** [delete(url, date)]: the DELETE is handed over; an error is logged,
    nothing is thrown. *)
Definition delete (url date : jsstring) (d : db) : db :=
  db_run (DELETE url date) d.

(** [get(url, date)].  The promise resolves when SQLite has executed
    the SELECT, which it does after the statements in flight that it
    picks, [k]; [now] is what [Date.now()] answers in the callback.  The
    result is the value the promise resolves to ([VNull] is [null]) and
    the database then. *)
Definition get (k : list nat) (now : Z) (url date : jsstring) (d : db) : jsvalue * db :=
  let d0 := sqlite_runs k d in
  match sql_select url date d0 with
  | (inl err, t1) => (VNull, mkDb t1 (inflight d0))
  | (inr None, t1) => (VNull, mkDb t1 (inflight d0))
  | (inr (Some r), t1) =>
    if now >=? row_expires_at r
    then (VNull, delete url date (mkDb t1 (inflight d0)))
    else match JSON.parse (row_data r) with
         | Some menu => (menu, mkDb t1 (inflight d0))
         | None => (VNull, mkDb t1 (inflight d0))
         end
  end.

(** [set(url, date, data)], with [now] what [Date.now()] answers: the
    INSERT is handed over and [set] returns. *)
Definition set (now : Z) (url date : jsstring) (data : MenuSummary) (d : db) : db :=
  let expiresAt := getExpirationTimestamp date in
  let dataString := JSON.stringify (MenuSummary_value data) in
  db_run (INSERT_OR_REPLACE url date dataString now expiresAt) d.

(** [cleanupExpiredEntries()] *)
Definition cleanupExpiredEntries (now : Z) (d : db) : db :=
  db_run (DELETE_EXPIRED now) d.

(** [new CacheService(dbPath)] on the database found at [dbPath]. *)
Definition constructor (now : Z) (file : db) : db :=
  cleanupExpiredEntries now (initializeDatabase file).

End WithPlatform.


(** SQLite executes the next [n] statements without error. *)
Definition healthy (n : nat) (t : store) : Prop :=
  Forall (fun f => f = None) (firstn n (faults t)).

(** A database file that does not exist yet. *)
Definition empty : db := mkDb (mkStore [] 0 []) [].

(** The rows stored under a key. *)
Definition rows_for (url date : jsstring) (t : store) : list row :=
  filter (same_key url date) (rows t).

(** UNIQUE(url, date) *)
Definition unique_keys (t : store) : Prop :=
  NoDup (map (fun r => (row_url r, row_date r)) (rows t)).

End CacheService.

(** A handle stands for what SQLite holds wherever the rows, the
    counter or the errors to come are asked for. *)
Coercion CacheService.store_of : CacheService.db >-> CacheService.store.

(* ================================================================== *)
(** * The outside world                                                *)
(* ================================================================== *)

(** What a [catch] clause can receive. *)
Inductive thrown :=
| AxiosError (code : option jsstring) (response : option (Z * jsstring))
             (request : bool) (message : jsstring)
| Error (message : jsstring)
| NotAnError.

(** [error instanceof Error ? error.message : 'Unknown error'] *)
Definition message_of (e : thrown) : jsstring :=
  match e with
  | AxiosError _ _ _ m => m
  | Error m => m
  | NotAnError => js "Unknown error"
  end.

(** What the language model answers, once validated and normalized
    (services/llm.ts, [extractMenu], before the summary is assembled). *)
Record llm_reply := mkReply {
  reply_restaurant_name : jsstring;
  reply_menu_items : list MenuItem;
  reply_daily_menu : bool
}.

(** The calls that leave the process or reach the cache. *)
Inductive event :=
| AxiosGet (url : jsstring)
| Puppeteer (url : jsstring)
| LLMExtract (pageContent url currentDate : jsstring)
             (dayOfWeek : option jsstring) (menuImages : option (list jsstring))
| CacheGet (url date : jsstring)
| CacheSet (url date : jsstring) (data : MenuSummary).

(** The answers of the world; each may depend on all that happened
    before. *)
Record Env := mkEnv {
  (** [axios.get(url, ...)]: a rejection, or the status and the body *)
  axios_get : list event -> jsstring -> thrown + (Z * jsstring);
  (** one headless-browser session on [url], from [puppeteer.launch] to
      [page.content()]: what was thrown, or the rendered markup *)
  puppeteer_session : list event -> jsstring -> thrown + jsstring;
  (** the chat completion behind [extractMenu], for its arguments:
      what [extractMenu] throws, or the validated answer *)
  openai : list event -> jsstring -> jsstring -> jsstring -> option jsstring ->
           option (list jsstring) -> thrown + llm_reply;
  (** [Date.now()] *)
  clock : list event -> Z;
  (** the statements in flight that SQLite executes before the SELECT of
      a lookup, by their positions, one after the other *)
  sqlite_order : list event -> list nat
}.

Record world := mkWorld {
  trace : list event;
  cache : CacheService.db
}.

(** Computations that act on the world and may throw; what they did
    before throwing stays done. *)
Definition M (A : Type) : Type := world -> (thrown + A) * world.

Definition ret {A} (a : A) : M A := fun w => (inr a, w).
Definition throw {A} (e : thrown) : M A := fun w => (inl e, w).
Definition bind {A B} (m : M A) (k : A -> M B) : M B :=
  fun w => match m w with
           | (inr a, w') => k a w'
           | (inl e, w') => (inl e, w')
           end.
(** [try { m } catch (error) { h error }] *)
Definition try_catch {A} (m : M A) (h : thrown -> M A) : M A :=
  fun w => match m w with
           | (inr a, w') => (inr a, w')
           | (inl e, w') => h e w'
           end.
Definition lift {A} (r : thrown + A) : M A := fun w => (r, w).

Declare Scope js_scope.
Delimit Scope js_scope with js.
Notation "x <- m ;; k" := (bind m (fun x => k))
  (at level 61, m at next level, right associativity) : js_scope.
Notation "' p <- m ;; k" := (bind m (fun x => let p := x in k))
  (at level 61, p pattern, m at next level, right associativity) : js_scope.

(** Asks the world and records the call. *)
Definition call {A} (ev : event) (answer : list event -> thrown + A) : M A :=
  fun w => (answer (trace w), mkWorld (trace w ++ [ev]) (cache w)).

(** How many browser sessions a trace holds. *)
Fixpoint puppeteer_calls (t : list event) : nat :=
  match t with
  | [] => O
  | Puppeteer _ :: t' => S (puppeteer_calls t')
  | _ :: t' => puppeteer_calls t'
  end.

(* ================================================================== *)
(** * services/scraper.ts                                              *)
(* ================================================================== *)

Module ScraperService.

Local Open Scope js_scope.

(** [String(n)] for an integer. *)
Definition number_to_string (z : Z) : jsstring :=
  js (DecimalString.NilZero.string_of_int (Z.to_int z)).

(** A selector [[a*="v"]]. *)
Definition attr_contains (a v : string) : jsstring :=
  js "[" ++ js a ++ js "*=" ++ [34%N] ++ js v ++ [34%N] ++ js "]".

Definition menuSelectors : list jsstring :=
  [attr_contains "id" "menu"; attr_contains "class" "menu";
   attr_contains "id" "denni"; attr_contains "class" "denni";
   attr_contains "id" "denní"; attr_contains "class" "denní";
   js "section"; js "article"; js ".content"; js "#content"].

(** In a run of whitespace, what follows its last line feed. *)
Fixpoint after_last_newline (s : jsstring) : option jsstring :=
  match s with
  | [] => None
  | c :: r =>
    if isWhiteSpace c
    then match after_last_newline r with
         | Some rest => Some rest
         | None => if (c =? 10)%N then Some r else None
         end
    else None
  end.

Fixpoint replace_blank_lines_fuel (fuel : nat) (s : jsstring) : jsstring :=
  match fuel, s with
  | O, _ => s
  | _, [] => []
  | S fuel', c :: r =>
    if (c =? 10)%N
    then match after_last_newline r with
         | Some rest => 10%N :: replace_blank_lines_fuel fuel' rest
         | None => c :: replace_blank_lines_fuel fuel' r
         end
    else c :: replace_blank_lines_fuel fuel' r
  end.

(** [s.replace(/\n\s*\n/g, '\n')] *)
Definition replace_blank_lines (s : jsstring) : jsstring :=
  replace_blank_lines_fuel (List.length s) s.

(** The alternatives [(kč|kc|,-)] under the flag [i]. *)
Definition price_suffix (s : jsstring) : bool :=
  match s with
  | c1 :: c2 :: _ =>
    (((c1 =? 107) || (c1 =? 75)) && ((c2 =? 269) || (c2 =? 268))
     || ((c1 =? 107) || (c1 =? 75)) && ((c2 =? 99) || (c2 =? 67))
     || (c1 =? 44) && (c2 =? 45))%N
  | _ => false
  end.

(** [/\d+\s*(kč|kc|,-)/i] matching at the start of [s]. *)
Definition price_here (s : jsstring) : bool :=
  match s with
  | c :: r => isDigit c && price_suffix (skip isWhiteSpace (skip isDigit r))
  | [] => false
  end.

(** [text.match(/\d+\s*(kč|kc|,-)/i) !== null] *)
Fixpoint price_match (text : jsstring) : bool :=
  price_here text || match text with [] => false | _ :: r => price_match r end.

(** [a || b] on attribute values: the empty string is falsy. *)
Definition or_else (a b : option jsstring) : option jsstring :=
  match a with
  | Some (_ :: _) => a
  | _ => b
  end.

Section WithPlatform.
Variable P : Platform.

Definition removeHashFromUrl (url : jsstring) : jsstring :=
  match URL_parse P url with
  | Some urlObj => URL_toString (URL_clear_hash urlObj)
  | None => split_head 35 url
  end.

Definition extractTextContent (html : jsstring) : jsstring :=
  let menuText :=
    fold_left
      (fun menuText selector =>
         let (elements_length, text) := cheerio_select P html selector in
         if (0 <? elements_length)%nat
            && (100 <? N.of_nat (List.length text))%N
            && (N.of_nat (List.length text) <? 10000)%N
         then menuText ++ text ++ [10%N; 10%N]
         else menuText)
      menuSelectors [] in
  let bodyText := snd (cheerio_select P html (js "body")) in
  let combinedText := menuText ++ [10%N] ++ bodyText in
  trim (replace_blank_lines (collapse_whitespace combinedText)).

Definition menuKeywords : list jsstring :=
  [js "menu"; js "polední"; js "nabídka"; js "jídlo"; js "listek"; js "denní"].

(** The callback of [$('img').each]: the URL to push, if any. *)
Definition menu_image (baseUrl : jsstring) (elem : img) : thrown + option jsstring :=
  let src := or_else (attr_src elem) (attr_data_src elem) in
  let alt := match or_else (attr_alt elem) (Some []) with Some s => s | None => [] end in
  let title := match or_else (attr_title elem) (Some []) with Some s => s | None => [] end in
  match src with
  | None | Some [] => inr None
  | Some src =>
    let lowerAlt := toLowerCase P alt in
    let lowerTitle := toLowerCase P title in
    let lowerSrc := toLowerCase P src in
    let isMenuImage :=
      existsb (fun keyword => includes lowerAlt keyword
                              || includes lowerTitle keyword
                              || includes lowerSrc keyword) menuKeywords
      || includes lowerSrc (js "menu")
      || includes lowerSrc (js "poledni") in
    if isMenuImage
    then if startsWith (js "http") src then inr (Some src)
         else match URL_resolve P src baseUrl with
              | Some href => inr (Some href)
              | None => inl (Error (js "Invalid URL"))
              end
    else inr None
  end.

Fixpoint collect_menu_images (baseUrl : jsstring) (elems : list img)
  : thrown + list jsstring :=
  match elems with
  | [] => inr []
  | elem :: rest =>
    match menu_image baseUrl elem with
    | inl e => inl e
    | inr found =>
      match collect_menu_images baseUrl rest with
      | inl e => inl e
      | inr menuImages =>
        inr (match found with Some u => u :: menuImages | None => menuImages end)
      end
    end
  end.

Definition findMenuImages (html baseUrl : jsstring) : thrown + list jsstring :=
  collect_menu_images baseUrl (cheerio_imgs P html).

Definition hasMenuContent (text : jsstring) (images : list jsstring) : bool :=
  includes (toLowerCase P text) (js "polévka")
  || includes (toLowerCase P text) (js "soup")
  || includes (toLowerCase P text) (js "cena")
  || includes (toLowerCase P text) (js "kč")
  || price_match text
  || (0 <? List.length images)%nat.

Definition mentionsMenuButNoItems (text : jsstring) (images : list jsstring) : bool :=
  (includes (toLowerCase P text) (js "denní menu")
   || includes (toLowerCase P text) (js "polední nabídka")
   || includes (toLowerCase P text) (js "menu"))
  && negb (hasMenuContent text images).

Variable E : Env.

Definition fetchPageContent (url : jsstring) : M jsstring :=
  try_catch
    (let cleanUrl := removeHashFromUrl url in
     response <- call (AxiosGet cleanUrl) (fun t => axios_get E t cleanUrl) ;;
     if (fst response =? 200)%Z then ret (snd response)
     else throw (Error (js "Failed to fetch page: HTTP "
                        ++ number_to_string (fst response))))
    (fun error =>
       match error with
       | AxiosError code response request _ =>
         if match code with Some c => JS.eqb c (js "ECONNABORTED") | None => false end
         then throw (Error (js "Request timeout: The server took too long to respond"))
         else match response with
              | Some (status, statusText) =>
                throw (Error (js "HTTP " ++ number_to_string status
                              ++ js ": " ++ statusText))
              | None =>
                if request
                then throw (Error (js "Network error: Could not reach the server"))
                else throw (Error (js "Failed to fetch page: " ++ message_of error))
              end
       | _ => throw (Error (js "Failed to fetch page: " ++ message_of error))
       end).

Definition fetchPageContentWithPuppeteer (url : jsstring) : M jsstring :=
  try_catch
    (call (Puppeteer url) (fun t => puppeteer_session E t url))
    (fun error =>
       throw (Error (js "Failed to fetch page with Puppeteer: " ++ message_of error))).

Definition scrapeMenuPage (url : jsstring) : M jsstring :=
  html <- fetchPageContent url ;;
  ret (extractTextContent html).

(** The three lines the source repeats for the browser:
    fetch, extract the text, find the images. *)
Definition rendered_attempt (url : jsstring) : M (jsstring * list jsstring) :=
  html <- fetchPageContentWithPuppeteer url ;;
  let text := extractTextContent html in
  images <- lift (findMenuImages html url) ;;
  ret (text, images).

Definition scrapeMenuPageWithImages (url : jsstring) : M (jsstring * list jsstring) :=
  try_catch
    (html <- fetchPageContent url ;;
     let text := extractTextContent html in
     images <- lift (findMenuImages html url) ;;
     let hasMenuContent := hasMenuContent text images in
     let mentionsMenuButNoItems := mentionsMenuButNoItems text images in
     if hasMenuContent then ret (text, images)
     else if mentionsMenuButNoItems || negb hasMenuContent
          then rendered_attempt url
          else ret (text, images))
    (fun error =>
       try_catch
         (rendered_attempt url)
         (fun puppeteerError =>
            throw (Error (js "Failed to fetch page: " ++ message_of error)))).

(** The function the specification describes: no "mentions menu but
    has no items" value, the browser is tried exactly when
    [hasMenuContent] is false, and there is no third way out. *)
Definition scrapeMenuPageWithImages_simplified (url : jsstring)
  : M (jsstring * list jsstring) :=
  try_catch
    (html <- fetchPageContent url ;;
     let text := extractTextContent html in
     images <- lift (findMenuImages html url) ;;
     if negb (hasMenuContent text images) then rendered_attempt url
     else ret (text, images))
    (fun error =>
       try_catch
         (rendered_attempt url)
         (fun puppeteerError =>
            throw (Error (js "Failed to fetch page: " ++ message_of error)))).

End WithPlatform.

End ScraperService.

(* ================================================================== *)
(** * services/llm.ts and services/menuService.ts                      *)
(* ================================================================== *)

Module LLMService.

Local Open Scope js_scope.

Section WithEnv.
Variable E : Env.

(** [extractMenu]: the chat completion is the world's; the summary is
    assembled around its answer from the arguments.  What [openai]
    throws is what [extractMenu] throws. *)
Definition extractMenu (pageContent url currentDate : jsstring)
    (dayOfWeek : option jsstring) (menuImages : option (list jsstring))
  : M MenuSummary :=
  menuData <- call (LLMExtract pageContent url currentDate dayOfWeek menuImages)
                   (fun t => openai E t pageContent url currentDate dayOfWeek menuImages) ;;
  ret (mkMenuSummary (reply_restaurant_name menuData) currentDate dayOfWeek
                     (reply_menu_items menuData) (reply_daily_menu menuData) url).

End WithEnv.

End LLMService.

Module MenuService.

Local Open Scope js_scope.

Definition days : list jsstring :=
  [js "neděle"; js "pondělí"; js "úterý"; js "středa"; js "čtvrtek";
   js "pátek"; js "sobota"].

(** [now.toISOString().split('T')[0]] for [now = new Date()] *)
Definition getCurrentDate (now : Z) : jsstring :=
  split_head 84 (JSDate.toISOString now).

(** The value of [date || this.getCurrentDate()] when the clock reads
    [t]. *)
Definition targetDate (date : option jsstring) (t : Z) : jsstring :=
  match date with
  | Some (c :: d) => c :: d
  | _ => getCurrentDate t
  end.

Section WithPlatform.
Variable P : Platform.

(** [days[date.getDay()]]; [None] is [undefined]. *)
Definition getDayOfWeek (dateString : jsstring) : option jsstring :=
  let date := Date_parse P (dateString ++ js "T00:00:00") in
  match JSDate.getDay P date with
  | Some n => nth_error days (Z.to_nat n)
  | None => None
  end.

Variable E : Env.

(** [new Date()], [Date.now()] *)
Definition now : M Z := fun w => (inr (clock E (trace w)), w).

(** [this.cache.get(url, date)] *)
Definition cache_get (url date : jsstring) : M jsvalue :=
  fun w =>
    let (cached, d) := CacheService.get (sqlite_order E (trace w)) (clock E (trace w))
                                        url date (cache w) in
    (inr cached, mkWorld (trace w ++ [CacheGet url date]) d).

(** [this.cache.set(url, date, data)] *)
Definition cache_set (url date : jsstring) (data : MenuSummary) : M unit :=
  fun w =>
    (inr tt, mkWorld (trace w ++ [CacheSet url date data])
                     (CacheService.set P (clock E (trace w)) url date data (cache w))).

Definition summarizeMenu (url : jsstring) (date : option jsstring) : M jsvalue :=
  targetDate <- match date with
                | Some (c :: d) => ret (c :: d)
                | _ => t <- now ;; ret (getCurrentDate t)
                end ;;
  let dayOfWeek := getDayOfWeek targetDate in
  cached <- cache_get url targetDate ;;
  if truthy cached then ret cached
  else
    ' (pageContent, menuImages) <- ScraperService.scrapeMenuPageWithImages P E url ;;
    match trim pageContent with
    | [] => throw (Error (js "No content extracted from the page"))
    | _ :: _ =>
      menuSummary <- LLMService.extractMenu E pageContent url targetDate dayOfWeek
                       (match menuImages with [] => None | _ :: _ => Some menuImages end) ;;
      _ <- cache_set url targetDate menuSummary ;;
      ret (MenuSummary_value menuSummary)
    end.

End WithPlatform.

End MenuService.

(* ================================================================== *)
(** * routes/menuRoutes.ts                                             *)
(* ================================================================== *)

Module MenuRoutes.

Local Open Scope Z_scope.

(** What [res.status(...).json(...)] is given. *)
Record response := mkResponse {
  status : Z;
  body : jsvalue
}.

Definition quoted (s : string) : jsstring := [34%N] ++ js s ++ [34%N].

(** [{ error }] and [{ error, details }] *)
Definition error_only (error : jsstring) : jsvalue :=
  VObject [(js "error", VString error)].
Definition error_details (error details : jsstring) : jsvalue :=
  VObject [(js "error", VString error); (js "details", VString details)].

(** [/^\d{4}-\d{2}-\d{2}$/.test(date)] *)
Definition dateRegex_test (date : jsstring) : bool :=
  match date with
  | [y1; y2; y3; y4; 45%N; m1; m2; 45%N; d1; d2] =>
    isDigit y1 && isDigit y2 && isDigit y3 && isDigit y4
    && isDigit m1 && isDigit m2 && isDigit d1 && isDigit d2
  | _ => false
  end.

(** The [catch] of the handler: the response for what was thrown. *)
Definition error_response (error : thrown) : response :=
  match error with
  | NotAnError =>
    mkResponse 500 (error_details (js "Internal server error") (js "Unknown error"))
  | _ =>
    let message := message_of error in
    if includes message (js "timeout") || includes message (js "Network error")
    then mkResponse 504 (error_details
                           (js "Gateway timeout: Could not fetch the menu page") message)
    else if includes message (js "HTTP 404") || includes message (js "404")
    then mkResponse 404 (error_details
                           (js "Page not found: The menu URL could not be accessed") message)
    else if includes message (js "OpenAI API")
    then mkResponse 502 (error_details
                           (js "LLM service error: Failed to process menu content") message)
    else mkResponse 500 (error_details (js "Internal server error") message)
  end.

Section WithPlatform.
Variable P : Platform.
Variable E : Env.

(** The handler of POST /summarize, for a body whose [url] is any value
    or absent and whose [date] is a string or falsy ([None]: absent,
    [null], [false], [0]); [menuService] tells whether [setMenuService]
    has been called. *)
Definition post_summarize (menuService : bool) (url : option jsvalue)
    (date : option jsstring) (w : world) : response * world :=
  if negb menuService
  then (mkResponse 500 (error_only (js "Menu service not initialized")), w)
  else
    match url with
    | Some (VString (c :: r)) =>
      match URL_parse P (c :: r) with
      | None =>
        (mkResponse 400 (error_only (js "Invalid request: " ++ quoted "url"
                                     ++ js " must be a valid URL")), w)
      | Some _ =>
        if match date with
           | Some (d :: ate) => negb (dateRegex_test (d :: ate))
           | _ => false
           end
        then (mkResponse 400 (error_only (js "Invalid request: " ++ quoted "date"
                                          ++ js " must be in YYYY-MM-DD format")), w)
        else
          match MenuService.summarizeMenu P E (c :: r) date w with
          | (inr menuSummary, w') => (mkResponse 200 menuSummary, w')
          | (inl error, w') => (error_response error, w')
          end
      end
    | _ =>
      (mkResponse 400 (error_only (js "Invalid request: " ++ quoted "url"
                                   ++ js " is required and must be a string")), w)
    end.

End WithPlatform.

End MenuRoutes.

(* ================================================================== *)
(** * Predicates of the properties                                     *)
(* ================================================================== *)

(** Every white space of [s] is a space (U+0020) and no two spaces are
    adjacent. *)
Fixpoint single_spaced (s : jsstring) : bool :=
  match s with
  | [] => true
  | c :: r =>
    (negb (isWhiteSpace c) || (c =? 32)%N)
    && negb (isWhiteSpace c && match r with d :: _ => isWhiteSpace d | [] => false end)
    && single_spaced r
  end.

(** [s] neither starts nor ends with white space. *)
Definition trimmed (s : jsstring) : bool :=
  match s with
  | [] => true
  | c :: _ => negb (isWhiteSpace c) && negb (isWhiteSpace (last s c))
  end.

(** [f] holds of the [n] integers from [a] on. *)
Fixpoint all_from (f : Z -> bool) (a : Z) (n : nat) : bool :=
  match n with
  | O => true
  | S k => f a && all_from f (a + 1) k
  end.

(** The day [doe] of a 400-year era: the year of the era, the month and
    the day that [JSDate.civil_from_days] reads are in range and
    [JSDate.days_from_civil] maps them back to [doe]. *)
Definition era_day_round_trips (doe : Z) : bool :=
  (let yoe := (doe - doe / 1460 + doe / 36524 - doe / 146096) / 365 in
   let doy := doe - (365 * yoe + yoe / 4 - yoe / 100) in
   let mp := (5 * doy + 2) / 153 in
   let d := doy - (153 * mp + 2) / 5 + 1 in
   let m := if mp <? 10 then mp + 3 else mp - 9 in
   (0 <=? yoe) && (yoe <=? 399) && (1 <=? m) && (m <=? 12) && (1 <=? d) && (d <=? 31)
   && (yoe * 365 + yoe / 4 - yoe / 100
       + ((153 * (if 2 <? m then m - 3 else m + 9) + 2) / 5 + d - 1) =? doe))%Z.

(* ================================================================== *)
(** * What a run shows                                                 *)
(* ================================================================== *)

(** The keys the cache was asked for or written under, the URLs
    requested over HTTP, the URLs opened in the browser and the dates
    handed to the language model, in the order of the trace. *)
Fixpoint cache_keys (t : list event) : list (jsstring * jsstring) :=
  match t with
  | [] => []
  | CacheGet u d :: t' => (u, d) :: cache_keys t'
  | CacheSet u d _ :: t' => (u, d) :: cache_keys t'
  | _ :: t' => cache_keys t'
  end.

Fixpoint static_targets (t : list event) : list jsstring :=
  match t with
  | [] => []
  | AxiosGet u :: t' => u :: static_targets t'
  | _ :: t' => static_targets t'
  end.

Fixpoint rendered_targets (t : list event) : list jsstring :=
  match t with
  | [] => []
  | Puppeteer u :: t' => u :: rendered_targets t'
  | _ :: t' => rendered_targets t'
  end.

Fixpoint extraction_dates (t : list event) : list jsstring :=
  match t with
  | [] => []
  | LLMExtract _ _ d _ _ :: t' => d :: extraction_dates t'
  | _ :: t' => extraction_dates t'
  end.


(** The calendar date, [YYYY-MM-DD], of the instant [t] in the local
    time zone of the process. *)
Definition local_calendar_date (P : Platform) (t : Z) : jsstring :=
  split_head 84 (JSDate.toISOString (JSDate.LocalTime P t)).

(* ================================================================== *)
(** * A reference platform and reference worlds                        *)
(* ================================================================== *)

(** Concrete stand-ins for the platform and the world, to run the
    program on concrete inputs. *)
Module Reference.

Local Open Scope Z_scope.

(** Lower-cases the letters A to Z and nothing else. *)
Definition toLowerCase (s : jsstring) : jsstring :=
  map (fun c => if ((65 <=? c) && (c <=? 90))%N then (c + 32)%N else c) s.

(** What comes after the first [c], if there is one. *)
Fixpoint after (c : N) (s : jsstring) : option jsstring :=
  match s with
  | [] => None
  | x :: s' => if (x =? c)%N then Some s' else after c s'
  end.

Definition stops_authority (c : N) : bool := ((c =? 47) || (c =? 63) || (c =? 35))%N.
Definition stops_path (c : N) : bool := ((c =? 63) || (c =? 35))%N.

Fixpoint take_until (p : N -> bool) (s : jsstring) : jsstring :=
  match s with
  | [] => []
  | x :: s' => if p x then [] else x :: take_until p s'
  end.
Fixpoint drop_until (p : N -> bool) (s : jsstring) : jsstring :=
  match s with
  | [] => []
  | x :: s' => if p x then s else drop_until p s'
  end.

(** Parses [scheme://authority/path?query#fragment]; anything without
    [://] after a non-empty scheme is rejected. *)
Definition URL_parse (s : jsstring) : option URL :=
  let sch := split_head 58 s in
  match sch, after 58 s with
  | _ :: _, Some (47%N :: 47%N :: rest) =>
    let auth := take_until stops_authority rest in
    let rest1 := drop_until stops_authority rest in
    let pth := take_until stops_path rest1 in
    let rest2 := drop_until stops_path rest1 in
    match auth with
    | [] => None
    | _ :: _ =>
      Some (mkURL sch (Some auth)
              (match pth with [] => js "/" | _ :: _ => pth end)
              (match rest2 with
               | 63%N :: q => Some (split_head 35 q)
               | _ => None
               end)
              (after 35 rest2))
    end
  | _, _ => None
  end.

(** Resolves an absolute path against the origin of the base, and
    rejects everything else. *)
Definition URL_resolve (src base : jsstring) : option jsstring :=
  match URL_parse base, src with
  | Some b, 47%N :: 47%N :: _ => None
  | Some b, 47%N :: _ => Some (URL_toString (mkURL (scheme b) (authority b) src None None))
  | _, _ => None
  end.

Definition digit (c : N) : option Z :=
  if isDigit c then Some (Z.of_N c - 48) else None.

Fixpoint number (s : jsstring) (acc : Z) : option Z :=
  match s with
  | [] => Some acc
  | c :: s' => match digit c with
               | Some v => number s' (acc * 10 + v)
               | None => None
               end
  end.

(** Parses [YYYY-MM-DDTHH:mm:ss] as a local time, [offset] ms ahead of
    UTC. *)
Definition Date_parse (offset : Z) (s : jsstring) : option Z :=
  match s with
  | [y1; y2; y3; y4; 45%N; m1; m2; 45%N; d1; d2; 84%N; h1; h2; 58%N; n1; n2; 58%N; s1; s2] =>
    match number [y1; y2; y3; y4] 0, number [m1; m2] 0, number [d1; d2] 0,
          number [h1; h2] 0, number [n1; n2] 0, number [s1; s2] 0 with
    | Some y, Some m, Some d, Some h, Some n, Some sec =>
      if (1 <=? m) && (m <=? 12) && (1 <=? d)
         && (d <=? JSDate.MakeDay y m 1 - JSDate.MakeDay y (m - 1) 1)
         && (h <=? 23) && (n <=? 59) && (sec <=? 59)
      then Some (JSDate.MakeDate (JSDate.MakeDay y (m - 1) d)
                                 (h * 3600000 + n * 60000 + sec * 1000) - offset)
      else None
    | _, _, _, _, _, _ => None
    end
  | _ => None
  end.

(** Markup is read as plain text: it is the text of [body], no other
    selector matches, and there are no images. *)
Definition cheerio_select (html selector : jsstring) : nat * jsstring :=
  if JS.eqb selector (js "body") then (1%nat, html) else (0%nat, []).

(** The platform of a process whose local time is [offset] ms ahead of
    UTC the whole year. *)
Definition platform (offset : Z) : Platform :=
  mkPlatform toLowerCase URL_parse URL_resolve (Date_parse offset)
             (fun _ _ => offset) cheerio_select (fun _ => []).

(** Central European Summer Time. *)
Definition CEST : Z := 7200000.

(** A world with one answer for the static fetch, a list of answers for
    the successive browser sessions (the last one repeats; none: the
    browser fails to launch), one answer of the language model, a clock
    that stands still, and an SQLite that executes the oldest statement
    in flight, if there is one, before the SELECT of each lookup. *)
Definition env (static : thrown + (Z * jsstring)) (sessions : list (thrown + jsstring))
    (llm : thrown + llm_reply) (time : Z) : Env :=
  mkEnv (fun _ _ => static)
        (fun t _ => nth (puppeteer_calls t) sessions
                        (last sessions (inl (Error (js "Failed to launch the browser process")))))
        (fun _ _ _ _ _ _ => llm)
        (fun _ => time)
        (fun _ => [0%nat]).

Definition start : world := mkWorld [] CacheService.empty.

(** The data of the unit tests. *)
Definition url : jsstring := js "https://example.com/menu".
Definition day : jsstring := js "2025-10-22".

(** The number 45. *)
Definition forty_five : spec_float := S754_finite false 45 0.

Definition soup (price : spec_float) : MenuItem :=
  mkMenuItem (js "polévka") (js "Test Soup") price None None None.

Definition menu (price : spec_float) : MenuSummary :=
  mkMenuSummary (js "Test Restaurant") day (Some (js "středa")) [soup price] true url.

(** 2025-10-22 12:00:00 and 2025-10-23 00:00:01, local time (CEST). *)
Definition noon : Z := 1761127200000.
Definition next_day : Z := 1761170401000.

(** The row that [set] writes at noon for the menu of the day, which
    expires at 2025-10-23 00:00:00 local time, and the database that
    holds it alone, once SQLite has executed the INSERT. *)
Definition stored_row : CacheService.row :=
  CacheService.mkRow 1 (CacheService.sql_text url) (CacheService.sql_text day)
                     (JSON.stringify (MenuSummary_value (menu forty_five)))
                     noon 1761170400000.
Definition stored : CacheService.db :=
  CacheService.sqlite_runs [0%nat]
    (CacheService.set (platform CEST) noon url day (menu forty_five) CacheService.empty).

(** A database whose only row holds text that is not JSON, and one
    whose next statement fails. *)
Definition corrupted : CacheService.db :=
  CacheService.mkDb
    (CacheService.mkStore
       [CacheService.mkRow 1 (CacheService.sql_text url) (CacheService.sql_text day)
                           (JSON.Malformed (js "{restaurant_name:")) noon 1761170400000]
       1 [])
    [].
Definition failing : CacheService.db :=
  CacheService.mkDb
    (CacheService.mkStore (CacheService.rows stored) 1
                          [Some (js "SQLITE_IOERR: disk I/O error")])
    [].


(** A world in which nothing answers, at noon. *)
Definition quiet : Env := env (inl NotAnError) [] (inl NotAnError) noon.

Definition timeout : thrown :=
  Error (js "Navigation timeout of 20000 ms exceeded").
Definition answer : llm_reply := mkReply (js "Test Restaurant") [soup forty_five] true.


(** A page whose static markup has no menu and on which the browser
    times out. *)
Definition unrenderable : Env :=
  env (inr (200, js "Welcome to our restaurant")) [inl timeout] (inr answer) noon.

(** A page whose static markup has the menu. *)
Definition served : Env :=
  env (inr (200, js "Soup 45 Kc")) [inl timeout] (inr answer) noon.

(** A server that does not answer in time, in front of a page the
    browser renders. *)
Definition slow : Env :=
  env (inl (AxiosError (Some (js "ECONNABORTED")) None true
                       (js "timeout of 10000ms exceeded")))
      [inr (js "Soup 45 Kc")] (inr answer) noon.

(** The page with the menu, half an hour after local midnight on
    2025-10-23 (22:30 UTC on 2025-10-22). *)
Definition after_midnight : Z := 1761172200000.
Definition served_after_midnight : Env :=
  env (inr (200, js "Soup 45 Kc")) [] (inr answer) after_midnight.


(** A platform on which every page shows a logo and a photograph of
    the menu. *)
Definition logo : img := mkImg (Some (js "/img/logo.png")) None (Some (js "Logo")) None.
Definition menu_photo : img :=
  mkImg None (Some (js "/img/denni-listek.jpg")) (Some (js "Menu")) None.
Definition gallery : Platform :=
  mkPlatform toLowerCase URL_parse URL_resolve (Date_parse CEST)
             (fun _ _ => CEST) cheerio_select (fun _ => [logo; menu_photo]).

(** A page that is blank, served and rendered. *)
Definition blank : Env :=
  env (inr (200, js "   ")) [inr (js " ")] (inr answer) noon.

(** The page with the menu, and a language model that is rate-limited. *)
Definition rate_limited : Env :=
  env (inr (200, js "Soup 45 Kc")) []
      (inl (Error (js "OpenAI API error: 429 Too Many Requests"))) noon.

(** A server and a browser that both time out. *)
Definition unreachable : Env :=
  env (inl (AxiosError (Some (js "ECONNABORTED")) None true
                       (js "timeout of 10000ms exceeded")))
      [inl timeout] (inr answer) noon.

(** A server that answers 204 No Content. *)
Definition no_content : Env :=
  env (inr (204, [])) [inl timeout] (inr answer) noon.

(** The page with the menu, and an SQLite that executes none of the
    statements in flight before the SELECT of a lookup. *)
Definition racing : Env :=
  mkEnv (axios_get served) (puppeteer_session served) (openai served) (clock served)
        (fun _ => []).


End Reference.

(* ================================================================== *)
(** * Properties                                                       *)
(* ================================================================== *)

(** ** Strings and lists *)

Lemma eqb_eq (a b : jsstring) : JS.eqb a b = true <-> a = b.
Proof.
  revert b; induction a as [|x a IH]; intros [|y b]; simpl;
    try (split; [discriminate | intros H; discriminate H]);
    try (split; reflexivity).
  rewrite andb_true_iff, N.eqb_eq, IH. split.
  - intros [-> ->]; reflexivity.
  - intros H; injection H; auto.
Qed.

Lemma eqb_refl (a : jsstring) : JS.eqb a a = true.
Proof. apply eqb_eq; reflexivity. Qed.

Lemma eqb_neq (a b : jsstring) : JS.eqb a b = false <-> a <> b.
Proof.
  rewrite <- eqb_eq. destruct (JS.eqb a b); split; congruence.
Qed.

Lemma filter_absorb {A} (p q : A -> bool) (l : list A) :
  (forall x, p x = true -> q x = true) ->
  filter p (filter q l) = filter p l.
Proof.
  intros H; induction l as [|x l IH]; simpl; [reflexivity|].
  destruct (q x) eqn:Q; simpl.
  - destruct (p x); [rewrite IH|]; auto.
  - destruct (p x) eqn:Px; auto. apply H in Px; congruence.
Qed.

Lemma filter_none {A} (p q : A -> bool) (l : list A) :
  (forall x, p x = true -> q x = false) ->
  filter p (filter q l) = [].
Proof.
  intros H; induction l as [|x l IH]; simpl; [reflexivity|].
  destruct (q x) eqn:Q; simpl; auto.
  destruct (p x) eqn:Px; auto. apply H in Px; congruence.
Qed.

Lemma find_filter_none {A} (p : A -> bool) (l : list A) :
  find p (filter (fun x => negb (p x)) l) = None.
Proof.
  induction l as [|x l IH]; simpl; [reflexivity|].
  destruct (p x) eqn:Px; simpl; [|rewrite Px]; auto.
Qed.

Lemma find_app_none {A} (p : A -> bool) (l l' : list A) :
  find p l = None -> find p (l ++ l') = find p l'.
Proof.
  induction l as [|x l IH]; simpl; [reflexivity|].
  destruct (p x); [discriminate | auto].
Qed.

(** ** UTF-8 *)

Section Utf8.
Local Open Scope N_scope.








End Utf8.

(** ** The cache *)

Section CacheFacts.
Import CacheService.
Local Open Scope Z_scope.

Lemma same_key_spec (url date : jsstring) (r : row) :
  same_key url date r = true
  <-> row_url r = sql_text url /\ row_date r = sql_text date.
Proof.
  unfold same_key, bytes_eqb. rewrite andb_true_iff, !eqb_eq. reflexivity.
Qed.

Lemma same_key_other (url date url' date' : jsstring) (r : row) :
  (sql_text url', sql_text date') <> (sql_text url, sql_text date) ->
  same_key url' date' r = true -> negb (same_key url date r) = true.
Proof.
  intros Hne H. apply same_key_spec in H as [H1 H2].
  destruct (same_key url date r) eqn:K; [|reflexivity].
  apply same_key_spec in K as [K1 K2]. exfalso; apply Hne; congruence.
Qed.

(** Under UNIQUE(url, date) the SELECT of a key finds the row that has it. *)
Lemma unique_find (l : list row) (r : row) (url date : jsstring) :
  NoDup (map (fun r => (row_url r, row_date r)) l) -> In r l ->
  row_url r = sql_text url -> row_date r = sql_text date ->
  find (same_key url date) l = Some r.
Proof.
  intros Hnd Hin Hu Hd. induction l as [|a l IH]; simpl; [destruct Hin|].
  destruct Hin as [->|Hin].
  - replace (same_key url date r) with true; [reflexivity|].
    symmetry; apply same_key_spec; auto.
  - inversion Hnd as [|? ? Hnotin Hnd']; subst.
    destruct (same_key url date a) eqn:K.
    + apply same_key_spec in K as [K1 K2]. exfalso; apply Hnotin.
      rewrite K1, K2, <- Hu, <- Hd.
      apply (in_map (fun r => (row_url r, row_date r))) in Hin; exact Hin.
    + auto.
Qed.

Lemma rows_for_after_delete (url date : jsstring) (l : list row) :
  filter (same_key url date) (filter (fun r => negb (same_key url date r)) l) = [].
Proof.
  apply filter_none. intros x ->; reflexivity.
Qed.

Lemma rows_for_other_key (url date url' date' : jsstring) (l : list row) :
  (sql_text url', sql_text date') <> (sql_text url, sql_text date) ->
  filter (same_key url' date') (filter (fun r => negb (same_key url date r)) l)
  = filter (same_key url' date') l.
Proof.
  intros Hne. apply filter_absorb. intros x; apply same_key_other; exact Hne.
Qed.




(** UNIQUE(url, date) holds of a new database and is kept by every
    statement of the service, whenever SQLite executes it. *)
Lemma empty_unique : unique_keys empty.
Proof. constructor. Qed.

Lemma next_fault_rows (t : store) : rows (snd (next_fault t)) = rows t.
Proof. unfold next_fault; destruct (faults t); reflexivity. Qed.

Lemma next_fault_seq (t : store) : seq (snd (next_fault t)) = seq t.
Proof. unfold next_fault; destruct (faults t); reflexivity. Qed.





(** ** Statements in flight *)

(** With nothing in flight SQLite has nothing to execute. *)
Lemma sqlite_runs_nothing (k : list nat) (d : db) :
  inflight d = [] -> sqlite_runs k d = d.
Proof.
  intros H. induction k as [|i k IH]; simpl; [reflexivity|].
  unfold run_nth at 1. rewrite H. destruct i; simpl; exact IH.
Qed.

(** With one statement in flight, it has been executed or it has not. *)
Lemma sqlite_runs_one (k : list nat) (s : statement) (d : db) :
  inflight d = [] ->
  (In 0%nat k -> sqlite_runs k (db_run s d) = mkDb (execute s d) [])
  /\ (~ In 0%nat k -> sqlite_runs k (db_run s d) = db_run s d).
Proof.
  intros H. unfold db_run. rewrite H. simpl app.
  induction k as [|i k [IH1 IH2]]; simpl.
  - split; [intros []|reflexivity].
  - destruct i as [|i].
    + split; [|intros N; exfalso; apply N; auto].
      intros _. unfold run_nth at 1. simpl. apply sqlite_runs_nothing. reflexivity.
    + assert (R : run_nth (S i) (mkDb d [s]) = mkDb d [s]).
      { unfold run_nth. simpl. destruct i; reflexivity. }
      rewrite R. split.
      * intros [F|Hin]; [discriminate|auto].
      * intros N. apply IH2. intros Hin; apply N; auto.
Qed.

End CacheFacts.

Section CacheClaims.
Import CacheService.
Local Open Scope Z_scope.

Lemma healthy_cases (n : nat) (t : store) :
  healthy (S n) t ->
  faults t = [] \/ exists fs, faults t = None :: fs /\
                              healthy n (mkStore (rows t) (seq t) fs).
Proof.
  unfold healthy. destruct (faults t) as [|f fs]; simpl; auto.
  intros H; inversion H; subst. right; eauto.
Qed.

Lemma next_fault_healthy (n : nat) (t : store) :
  healthy (S n) t ->
  fst (next_fault t) = None
  /\ rows (snd (next_fault t)) = rows t
  /\ seq (snd (next_fault t)) = seq t
  /\ healthy n (snd (next_fault t)).
Proof.
  intros H. unfold next_fault.
  destruct (healthy_cases H) as [E|(fs & E & Hn)]; rewrite E; simpl; auto.
  repeat split. unfold healthy; rewrite E; destruct n; constructor.
Qed.

Lemma healthy_less (n : nat) (t : store) : healthy (S n) t -> healthy n t.
Proof.
  unfold healthy. revert n. induction (faults t) as [|f fs IH]; intros n H.
  - destruct n; constructor.
  - destruct n; [constructor|]. simpl in *. inversion H; subst.
    constructor; auto.
Qed.

(** What an INSERT, a DELETE and a sweep leave when SQLite executes them
    without error. *)
Lemma insert_healthy (n : nat) (url date : jsstring) (data : JSON.text)
    (created_at e : Z) (t : store) :
  healthy (S n) t ->
  rows (execute (INSERT_OR_REPLACE url date data created_at (Some e)) t)
  = filter (fun r => negb (same_key url date r)) (rows t)
    ++ [mkRow (seq t + 1) (sql_text url) (sql_text date) data created_at e]
  /\ seq (execute (INSERT_OR_REPLACE url date data created_at (Some e)) t) = seq t + 1
  /\ healthy n (execute (INSERT_OR_REPLACE url date data created_at (Some e)) t).
Proof.
  intros H. simpl. unfold sql_insert_or_replace.
  destruct (next_fault_healthy H) as (F & R & S & Hn).
  destruct (next_fault t) as [f t1]; simpl in *; subst f. simpl.
  rewrite R, S. auto.
Qed.

Lemma delete_healthy (n : nat) (url date : jsstring) (t : store) :
  healthy (S n) t ->
  rows (execute (DELETE url date) t)
  = filter (fun r => negb (same_key url date r)) (rows t)
  /\ seq (execute (DELETE url date) t) = seq t
  /\ healthy n (execute (DELETE url date) t).
Proof.
  intros H. simpl. unfold sql_delete.
  destruct (next_fault_healthy H) as (F & R & S & Hn).
  destruct (next_fault t) as [f t1]; simpl in *; subst f. simpl.
  rewrite R. auto.
Qed.

Lemma sweep_healthy (n : nat) (now : Z) (t : store) :
  healthy (S n) t ->
  rows (execute (DELETE_EXPIRED now) t)
  = filter (fun r => negb (row_expires_at r <? now)) (rows t)
  /\ seq (execute (DELETE_EXPIRED now) t) = seq t
  /\ healthy n (execute (DELETE_EXPIRED now) t).
Proof.
  intros H. simpl. unfold sql_delete_expired.
  destruct (next_fault_healthy H) as (F & R & S & Hn).
  destruct (next_fault t) as [f t1]; simpl in *; subst f. simpl.
  rewrite R. auto.
Qed.

Lemma create_healthy (n : nat) (t : store) :
  healthy (S n) t ->
  rows (execute CREATE_IF_NOT_EXISTS t) = rows t
  /\ seq (execute CREATE_IF_NOT_EXISTS t) = seq t
  /\ healthy n (execute CREATE_IF_NOT_EXISTS t).
Proof.
  intros H. simpl. unfold sql_create_if_not_exists.
  destruct (next_fault_healthy H) as (F & R & S & Hn). auto.
Qed.

(** A statement that meets an error, and an INSERT of a NaN expiry,
    leave the rows as they are. *)
Lemma execute_rows (s : statement) (t : store) :
  rows (execute s t) = rows t
  \/ (exists url date data created_at e,
        s = INSERT_OR_REPLACE url date data created_at (Some e)
        /\ rows (execute s t)
           = filter (fun r => negb (same_key url date r)) (rows t)
             ++ [mkRow (seq t + 1) (sql_text url) (sql_text date) data created_at e])
  \/ (exists url date,
        s = DELETE url date
        /\ rows (execute s t) = filter (fun r => negb (same_key url date r)) (rows t))
  \/ (exists now,
        s = DELETE_EXPIRED now
        /\ rows (execute s t)
           = filter (fun r => negb (row_expires_at r <? now)) (rows t)).
Proof.
  pose proof (next_fault_rows t) as R. pose proof (next_fault_seq t) as S.
  destruct s as [|url date data created_at [e|]|url date|now]; simpl;
    unfold sql_create_if_not_exists, sql_insert_or_replace, sql_delete, sql_delete_expired;
    destruct (next_fault t) as [[err|] t']; simpl in *; rewrite ?R, ?S; auto.
  - right; left. exists url, date, data, created_at, e. auto.
  - right; right; left. exists url, date. auto.
  - right; right; right. exists now. auto.
Qed.

(** What a lookup answers depends on the rows and the error its SELECT
    meets alone. *)
Lemma get_answer (k : list nat) (now : Z) (url date : jsstring) (d : db) :
  fst (get k now url date d)
  = match sql_select url date (sqlite_runs k d) with
    | (inl _, _) | (inr None, _) => VNull
    | (inr (Some r), _) =>
      if now >=? row_expires_at r then VNull
      else match JSON.parse (row_data r) with Some menu => menu | None => VNull end
    end.
Proof.
  unfold get.
  destruct (sql_select url date (sqlite_runs k d)) as [[err|[r|]] t1]; try reflexivity.
  destruct (now >=? row_expires_at r); [reflexivity|].
  destruct (JSON.parse (row_data r)); reflexivity.
Qed.




(** A lookup whose SELECT finds an expired row. *)
Lemma get_expired (k : list nat) (now : Z) (d : db) (r : row) (url date : jsstring) :
  find (same_key url date) (rows (sqlite_runs k d)) = Some r ->
  row_expires_at r <= now ->
  fst (get k now url date d) = VNull.
Proof.
  intros Hfind Hexp.
  assert (Hge : (now >=? row_expires_at r) = true) by (apply Z.geb_le; lia).
  unfold get, sql_select.
  pose proof (next_fault_rows (sqlite_runs k d)) as R.
  destruct (next_fault (sqlite_runs k d)) as [[err|] t1]; simpl in *; [reflexivity|].
  rewrite R, Hfind, Hge. reflexivity.
Qed.

(** C5.  A row whose [expires_at] has passed when SQLite executes the
    SELECT of a lookup is never returned: [get] answers [null] whatever
    SQLite does, no sweep being needed.  The DELETE of the row is handed
    to SQLite as part of the read (when the SELECT is executed without
    error), and when SQLite executes it the row is gone. *)
Theorem get_expired_row_is_absent (k : list nat) (now : Z) (d : db) (r : row)
    (url date : jsstring) :
  unique_keys (sqlite_runs k d) -> In r (rows (sqlite_runs k d)) ->
  row_url r = sql_text url -> row_date r = sql_text date ->
  row_expires_at r <= now ->
  fst (get k now url date d) = VNull
  /\ (healthy 2 (sqlite_runs k d) ->
      inflight (snd (get k now url date d))
      = inflight (sqlite_runs k d) ++ [DELETE url date]
      /\ rows_for url date
           (sqlite_runs [List.length (inflight (sqlite_runs k d))]
              (snd (get k now url date d))) = []).
Proof.
  intros Huniq Hin Hu Hd Hexp.
  assert (Hfind : find (same_key url date) (rows (sqlite_runs k d)) = Some r)
    by (apply unique_find; assumption).
  split; [eapply get_expired; eassumption|].
  intros H.
  assert (Hge : (now >=? row_expires_at r) = true) by (apply Z.geb_le; lia).
  unfold get, sql_select.
  destruct (next_fault_healthy H) as (F1 & R1 & S1 & H1).
  destruct (next_fault (sqlite_runs k d)) as [f t1]; simpl in *; subst f.
  rewrite R1, Hfind, Hge. cbn [fst snd].
  unfold delete, db_run. cbn [inflight store_of].
  split; [reflexivity|].
  unfold run_nth. cbn [inflight store_of].
  rewrite nth_error_app2 by lia. rewrite Nat.sub_diag. cbn [nth_error].
  cbn [store_of].
  destruct (delete_healthy url date H1) as (R2 & _).
  unfold rows_for. rewrite R2. apply rows_for_after_delete.
Qed.



End CacheClaims.

Section CacheWitnesses.
Import CacheService Reference.
Local Open Scope Z_scope.

Lemma stored_unique : unique_keys stored.
Proof. unfold unique_keys; vm_compute. constructor; [intros []|constructor]. Qed.

Lemma get_expired_row_is_absent_witness :
  unique_keys (sqlite_runs [] stored) /\ In stored_row (rows (sqlite_runs [] stored))
  /\ row_url stored_row = sql_text url /\ row_date stored_row = sql_text day
  /\ row_expires_at stored_row <= next_day
  /\ healthy 2 (sqlite_runs [] stored)
  /\ fst (get [] next_day url day stored) = VNull
  /\ inflight (snd (get [] next_day url day stored))
     = inflight (sqlite_runs [] stored) ++ [DELETE url day]
  /\ rows_for url day
       (sqlite_runs [List.length (inflight (sqlite_runs [] stored))]
          (snd (get [] next_day url day stored))) = [].
Proof.
  assert (I : In stored_row (rows (sqlite_runs [] stored)))
    by (vm_compute; left; reflexivity).
  assert (L : row_expires_at stored_row <= next_day) by (vm_compute; discriminate).
  assert (K1 : row_url stored_row = sql_text url) by (vm_compute; reflexivity).
  assert (K2 : row_date stored_row = sql_text day) by (vm_compute; reflexivity).
  assert (H : healthy 2 (sqlite_runs [] stored)) by (vm_compute; constructor).
  pose proof (@get_expired_row_is_absent [] next_day stored stored_row url day
                stored_unique I K1 K2 L) as (A & B).
  exact (conj stored_unique (conj I (conj K1 (conj K2 (conj L (conj H
          (conj A (B H)))))))).
Defined.




(** The expiry that [set] computes for 2025-10-22 in a process on
    Central European Summer Time is 2025-10-23 00:00:00 local time. *)
Lemma expiry_is_the_next_local_midnight :
  option_map (fun e => JSDate.toISOString (JSDate.LocalTime (platform CEST) e))
             (getExpirationTimestamp (platform CEST) day)
  = Some (js "2025-10-23T00:00:00.000Z").
Proof. vm_compute; reflexivity. Qed.

(** A menu with an item whose price is Infinity (what [JSON.parse]
    makes of a price [1e999] in the answer of the language model) is
    written with [null] for that price: read back before its expiry,
    after the INSERT, it is not the payload that was set. *)
Lemma set_then_get_loses_infinite_price :
  getExpirationTimestamp (platform CEST) day = Some 1761170400000
  /\ noon + 1 < 1761170400000
  /\ fst (get [0%nat] (noon + 1) url day
            (set (platform CEST) noon url day (menu (S754_infinity false)) empty))
     <> MenuSummary_value (menu (S754_infinity false)).
Proof.
  split; [vm_compute; reflexivity|]. split; [vm_compute; reflexivity|].
  vm_compute. intros H. discriminate H.
Qed.


End CacheWitnesses.

Section CacheErrors.
Import CacheService Reference.
Local Open Scope Z_scope.

Lemma get_malformed_row (k : list nat) (now : Z) (d : db) (r : row) (url date s : jsstring) :
  unique_keys (sqlite_runs k d) -> In r (rows (sqlite_runs k d)) ->
  row_url r = sql_text url -> row_date r = sql_text date ->
  row_data r = JSON.Malformed s ->
  fst (get k now url date d) = VNull.
Proof.
  intros Huniq Hin Hu Hd Hdata.
  assert (Hfind : find (same_key url date) (rows (sqlite_runs k d)) = Some r)
    by (apply unique_find; assumption).
  unfold get, sql_select, next_fault.
  destruct (faults (sqlite_runs k d)) as [|[err|] fs]; simpl; try reflexivity;
    rewrite Hfind; destruct (now >=? row_expires_at r); try reflexivity;
    rewrite Hdata; reflexivity.
Qed.

Lemma get_read_error (k : list nat) (now : Z) (d : db) (url date err : jsstring)
    (fs : list (option jsstring)) :
  faults (sqlite_runs k d) = Some err :: fs ->
  fst (get k now url date d) = VNull.
Proof.
  intros H. unfold get, sql_select, next_fault. rewrite H. reflexivity.
Qed.

(** X12.  The life of an entry: written by [set] for a date, it is
    absent for every [get] from the midnight that
    [getExpirationTimestamp] computes for that date, whether SQLite
    executes the INSERT before the SELECT of the lookup or not (in which
    case what the key held before, if anything, has expired as well). *)
Lemma entry_is_absent_from_its_expiry (P : Platform) (d : db) (k : list nat)
    (now now' : Z) (url date : jsstring) (p : MenuSummary) (e : Z) :
  getExpirationTimestamp P date = Some e -> e <= now' ->
  healthy 1 d -> inflight d = [] ->
  (~ In 0%nat k -> forall r, In r (rows_for url date d) -> row_expires_at r <= now') ->
  fst (get k now' url date (set P now url date p d)) = VNull.
Proof.
  intros He Hle H Hq Hold.
  unfold set. rewrite He.
  destruct (@sqlite_runs_one k
              (INSERT_OR_REPLACE url date (JSON.stringify (MenuSummary_value p)) now
                                 (Some e)) d Hq) as [A B].
  destruct (in_dec Nat.eq_dec 0%nat k) as [Hin|Hnot].
  - apply get_expired
      with (r := mkRow (seq d + 1) (sql_text url) (sql_text date)
                       (JSON.stringify (MenuSummary_value p)) now e);
      [|exact Hle].
    rewrite (A Hin). cbn [store_of].
    destruct (insert_healthy url date (JSON.stringify (MenuSummary_value p)) now e H)
      as (R1 & _).
    rewrite R1. rewrite find_app_none by apply find_filter_none. cbn [find].
    replace (same_key url date _) with true
      by (symmetry; apply same_key_spec; simpl; auto).
    reflexivity.
  - specialize (Hold Hnot).
    destruct (find (same_key url date) (rows d)) as [r|] eqn:F.
    + apply get_expired with (r := r).
      * rewrite (B Hnot). exact F.
      * apply Hold. apply find_some in F as [Hin K].
        apply filter_In. auto.
    + unfold get, sql_select. rewrite (B Hnot). cbn [db_run store_of inflight].
      pose proof (next_fault_rows d) as R.
      destruct (next_fault d) as [[err|] t1]; simpl in *; [reflexivity|].
      rewrite R, F. reflexivity.
Qed.

(** C10.  When the row of the key, as the SELECT finds it, holds text
    that [JSON.parse] rejects, and when SQLite reports an error for the
    SELECT, awaiting [get] yields [null]: a normal return, nothing is
    thrown. *)
Theorem get_answers_null_on_bad_text_and_read_errors
    (E : Env) (w : world) (url date : jsstring) :
  (exists r s, unique_keys (sqlite_runs (sqlite_order E (trace w)) (cache w))
               /\ In r (rows (sqlite_runs (sqlite_order E (trace w)) (cache w)))
               /\ row_url r = sql_text url /\ row_date r = sql_text date
               /\ row_data r = JSON.Malformed s)
  \/ (exists err fs,
        faults (sqlite_runs (sqlite_order E (trace w)) (cache w)) = Some err :: fs) ->
  fst (MenuService.cache_get E url date w) = inr VNull.
Proof.
  intros H. unfold MenuService.cache_get.
  assert (N : fst (get (sqlite_order E (trace w)) (clock E (trace w)) url date (cache w))
              = VNull).
  { destruct H as [(r & s & Hu & Hin & H1 & H2 & Hd)|(err & fs & Hf)].
    - eapply get_malformed_row; eassumption.
    - eapply get_read_error; eassumption. }
  destruct (get (sqlite_order E (trace w)) (clock E (trace w)) url date (cache w))
    as [v d']; simpl in *.
  rewrite N; reflexivity.
Qed.

Lemma get_answers_null_on_bad_text_and_read_errors_witness :
  ((exists r s, unique_keys (sqlite_runs (sqlite_order quiet (trace (mkWorld [] corrupted)))
                               (cache (mkWorld [] corrupted)))
                /\ In r (rows (sqlite_runs (sqlite_order quiet (trace (mkWorld [] corrupted)))
                                 (cache (mkWorld [] corrupted))))
                /\ row_url r = sql_text url /\ row_date r = sql_text day
                /\ row_data r = JSON.Malformed s)
   /\ fst (MenuService.cache_get quiet url day (mkWorld [] corrupted)) = inr VNull)
  /\ ((exists err fs,
         faults (sqlite_runs (sqlite_order quiet (trace (mkWorld [] failing)))
                   (cache (mkWorld [] failing))) = Some err :: fs)
      /\ fst (MenuService.cache_get quiet url day (mkWorld [] failing)) = inr VNull).
Proof.
  assert (A : exists r s,
             unique_keys (sqlite_runs (sqlite_order quiet (trace (mkWorld [] corrupted)))
                            (cache (mkWorld [] corrupted)))
             /\ In r (rows (sqlite_runs (sqlite_order quiet (trace (mkWorld [] corrupted)))
                              (cache (mkWorld [] corrupted))))
             /\ row_url r = sql_text url /\ row_date r = sql_text day
             /\ row_data r = JSON.Malformed s).
  { eexists; eexists. split; [|split; [left; reflexivity|]].
    - unfold unique_keys; vm_compute. constructor; [intros []|constructor].
    - split; [vm_compute; reflexivity|]. split; [vm_compute; reflexivity|]. reflexivity. }
  assert (B : exists err fs,
             faults (sqlite_runs (sqlite_order quiet (trace (mkWorld [] failing)))
                       (cache (mkWorld [] failing))) = Some err :: fs).
  { eexists; eexists; reflexivity. }
  split.
  - split; [exact A|].
    exact (@get_answers_null_on_bad_text_and_read_errors quiet (mkWorld [] corrupted)
             url day (or_introl A)).
  - split; [exact B|].
    exact (@get_answers_null_on_bad_text_and_read_errors quiet (mkWorld [] failing)
             url day (or_intror B)).
Defined.

End CacheErrors.

(** ** The fetch strategy *)

Section ScraperFacts.
Import ScraperService.
Variable P : Platform.
Variable E : Env.

(** The static fetch makes one request, for the URL without its
    fragment, and nothing else. *)
Lemma fetchPageContent_world (url : jsstring) (w : world) :
  snd (fetchPageContent P E url w)
  = mkWorld (trace w ++ [AxiosGet (removeHashFromUrl P url)]) (cache w).
Proof.
  unfold fetchPageContent, try_catch, bind, call, ret, throw; simpl.
  destruct (axios_get E (trace w) (removeHashFromUrl P url)) as [e|[status data]]; simpl.
  - destruct e as [code response request m|m|]; simpl; try reflexivity.
    destruct (match code with Some c => JS.eqb c (js "ECONNABORTED") | None => false end);
      [reflexivity|].
    destruct response as [[status statusText]|]; [reflexivity|].
    destruct request; reflexivity.
  - destruct (status =? 200)%Z; reflexivity.
Qed.

(** How the static fetch classifies what axios rejects with. *)
Lemma fetchPageContent_timeout (url : jsstring) (w : world)
    (response : option (Z * jsstring)) (request : bool) (m : jsstring) :
  axios_get E (trace w) (removeHashFromUrl P url)
    = inl (AxiosError (Some (js "ECONNABORTED")) response request m) ->
  fst (fetchPageContent P E url w)
  = inl (Error (js "Request timeout: The server took too long to respond")).
Proof.
  intros H. unfold fetchPageContent, try_catch, bind, call; simpl. rewrite H; simpl.
  rewrite ?eqb_refl. reflexivity.
Qed.

Lemma fetchPageContent_http_error (url : jsstring) (w : world)
    (code : option jsstring) (status : Z) (statusText : jsstring) (request : bool)
    (m : jsstring) :
  code <> Some (js "ECONNABORTED") ->
  axios_get E (trace w) (removeHashFromUrl P url)
    = inl (AxiosError code (Some (status, statusText)) request m) ->
  fst (fetchPageContent P E url w)
  = inl (Error (js "HTTP " ++ number_to_string status ++ js ": " ++ statusText)).
Proof.
  intros Hc H. unfold fetchPageContent, try_catch, bind, call; simpl. rewrite H; simpl.
  destruct code as [c|]; [|reflexivity].
  destruct (JS.eqb c (js "ECONNABORTED")) eqn:K; [|reflexivity].
  apply eqb_eq in K; congruence.
Qed.

Lemma fetchPageContent_network_error (url : jsstring) (w : world)
    (code : option jsstring) (m : jsstring) :
  code <> Some (js "ECONNABORTED") ->
  axios_get E (trace w) (removeHashFromUrl P url) = inl (AxiosError code None true m) ->
  fst (fetchPageContent P E url w)
  = inl (Error (js "Network error: Could not reach the server")).
Proof.
  intros Hc H. unfold fetchPageContent, try_catch, bind, call; simpl. rewrite H; simpl.
  destruct code as [c|]; [|reflexivity].
  destruct (JS.eqb c (js "ECONNABORTED")) eqn:K; [|reflexivity].
  apply eqb_eq in K; congruence.
Qed.

(** One attempt with the browser: one session on the URL as given, and
    the text and images of what it rendered. *)
Lemma rendered_attempt_run (url : jsstring) (w : world) :
  rendered_attempt P E url w
  = (match puppeteer_session E (trace w) url with
     | inl e => inl (Error (js "Failed to fetch page with Puppeteer: " ++ message_of e))
     | inr html =>
       match findMenuImages P html url with
       | inl e => inl e
       | inr images => inr (extractTextContent P html, images)
       end
     end,
     mkWorld (trace w ++ [Puppeteer url]) (cache w)).
Proof.
  unfold rendered_attempt, fetchPageContentWithPuppeteer, try_catch, bind, call, lift,
    ret, throw; simpl.
  destruct (puppeteer_session E (trace w) url) as [e|html]; simpl; [reflexivity|].
  destruct (findMenuImages P html url) as [e|images]; reflexivity.
Qed.


(** The part of C2 that the program keeps: static markup without menu
    content, a browser session that renders, images that resolve.  The
    browser runs once and what it rendered is returned as it is. *)
Lemma escalation_returns_rendered_output (url : jsstring) (w w1 : world)
    (html html' : jsstring) (images images' : list jsstring) :
  fetchPageContent P E url w = (inr html, w1) ->
  findMenuImages P html url = inr images ->
  hasMenuContent P (extractTextContent P html) images = false ->
  puppeteer_session E (trace w1) url = inr html' ->
  findMenuImages P html' url = inr images' ->
  scrapeMenuPageWithImages P E url w
  = (inr (extractTextContent P html', images'),
     mkWorld (trace w1 ++ [Puppeteer url]) (cache w1)).
Proof.
  intros Hs Hi Hc Hr Hi'.
  unfold scrapeMenuPageWithImages, try_catch at 1, bind at 1. rewrite Hs.
  unfold bind, lift. rewrite Hi. rewrite Hc, orb_true_r.
  rewrite rendered_attempt_run, Hr, Hi'. reflexivity.
Qed.

(** The part of C2 that the program breaks: when the attempt with the
    browser throws, the [catch] written for the static fetch receives
    the error and runs the browser a second time. *)
Lemma failed_escalation_runs_browser_again (url : jsstring) (w w1 : world)
    (html : jsstring) (images : list jsstring) (e : thrown) :
  fetchPageContent P E url w = (inr html, w1) ->
  findMenuImages P html url = inr images ->
  hasMenuContent P (extractTextContent P html) images = false ->
  fst (rendered_attempt P E url w1) = inl e ->
  trace (snd (scrapeMenuPageWithImages P E url w))
  = trace w1 ++ [Puppeteer url; Puppeteer url].
Proof.
  intros Hs Hi Hc Hr.
  unfold scrapeMenuPageWithImages, try_catch at 1, bind at 1. rewrite Hs.
  unfold bind, lift. rewrite Hi. rewrite Hc, orb_true_r.
  destruct (rendered_attempt P E url w1) as [[e1|r] w2] eqn:R1; simpl in Hr; [|discriminate].
  pose proof (rendered_attempt_run url w1) as R; rewrite R1 in R.
  injection R as _ ->.
  unfold try_catch. rewrite rendered_attempt_run; simpl.
  destruct (match puppeteer_session E _ url with inl _ => _ | inr _ => _ end); simpl;
    rewrite <- app_assoc; reflexivity.
Qed.

End ScraperFacts.

Section ScraperClaims.
Import ScraperService.
Variable P : Platform.
Variable E : Env.


(** C4.  When the static fetch throws, the browser is run, once, on
    the URL; if it renders and the images resolve, their text and images
    are returned; the scrape throws only if that attempt with the
    browser threw too (the session, or the resolution of an image URL
    of the rendered markup), and then with the message of the static
    failure. *)
Theorem static_failure_escalates (url : jsstring) (w w1 : world) (e : thrown) :
  fetchPageContent P E url w = (inl e, w1) ->
  snd (scrapeMenuPageWithImages P E url w)
    = mkWorld (trace w1 ++ [Puppeteer url]) (cache w1)
  /\ (forall html' images',
        puppeteer_session E (trace w1) url = inr html' ->
        findMenuImages P html' url = inr images' ->
        fst (scrapeMenuPageWithImages P E url w)
        = inr (extractTextContent P html', images'))
  /\ (forall e', fst (scrapeMenuPageWithImages P E url w) = inl e' ->
        e' = Error (js "Failed to fetch page: " ++ message_of e)
        /\ exists e'', fst (rendered_attempt P E url w1) = inl e'').
Proof.
  intros Hs.
  assert (R : scrapeMenuPageWithImages P E url w
              = try_catch (rendered_attempt P E url)
                  (fun _ => throw (Error (js "Failed to fetch page: " ++ message_of e))) w1).
  { unfold scrapeMenuPageWithImages, try_catch at 1, bind at 1. rewrite Hs. reflexivity. }
  rewrite R. unfold try_catch, throw. rewrite rendered_attempt_run.
  repeat split.
  - destruct (match puppeteer_session E _ url with inl _ => _ | inr _ => _ end); reflexivity.
  - intros html' images' Hr Hi. rewrite Hr, Hi. reflexivity.
  - destruct (match puppeteer_session E _ url with inl _ => _ | inr _ => _ end);
      simpl in *; congruence.
  - destruct (match puppeteer_session E _ url with inl _ => _ | inr _ => _ end) as [e1|r];
      simpl in *; [eauto | discriminate].
Qed.

(** C9.  The scrape is, run for run, the simplified function in which
    the browser is tried exactly when [hasMenuContent] is false and the
    value [mentionsMenuButNoItems] does not exist; and one of the first
    two guards always holds, so that the return that follows them is
    never reached. *)
Theorem mentionsMenuButNoItems_is_dead (url : jsstring) (w : world) :
  scrapeMenuPageWithImages P E url w = scrapeMenuPageWithImages_simplified P E url w
  /\ (forall text images,
        hasMenuContent P text images
        || (mentionsMenuButNoItems P text images || negb (hasMenuContent P text images))
        = true).
Proof.
  split.
  - unfold scrapeMenuPageWithImages, scrapeMenuPageWithImages_simplified,
      try_catch at 1 3, bind at 1 3.
    destruct (fetchPageContent P E url w) as [[e|html] w1]; [reflexivity|].
    unfold bind, lift.
    destruct (findMenuImages P html url) as [e|images]; [reflexivity|].
    destruct (hasMenuContent P (extractTextContent P html) images); simpl;
      [reflexivity|].
    rewrite orb_true_r. reflexivity.
  - intros text images.
    destruct (hasMenuContent P text images); simpl; [reflexivity|apply orb_true_r].
Qed.

End ScraperClaims.

Section ScraperWitnesses.
Import ScraperService Reference.


Lemma static_failure_escalates_witness :
  fetchPageContent (platform CEST) slow url start
    = (inl (Error (js "Request timeout: The server took too long to respond")),
       mkWorld [AxiosGet url] CacheService.empty)
  /\ puppeteer_session slow (trace (mkWorld [AxiosGet url] CacheService.empty)) url
     = inr (js "Soup 45 Kc")
  /\ findMenuImages (platform CEST) (js "Soup 45 Kc") url = inr []
  /\ snd (scrapeMenuPageWithImages (platform CEST) slow url start)
     = mkWorld (trace (mkWorld [AxiosGet url] CacheService.empty) ++ [Puppeteer url])
               (cache (mkWorld [AxiosGet url] CacheService.empty))
  /\ fst (scrapeMenuPageWithImages (platform CEST) slow url start)
     = inr (extractTextContent (platform CEST) (js "Soup 45 Kc"), []).
Proof.
  assert (H1 : fetchPageContent (platform CEST) slow url start
               = (inl (Error (js "Request timeout: The server took too long to respond")),
                  mkWorld [AxiosGet url] CacheService.empty))
    by (vm_compute; reflexivity).
  assert (H2 : puppeteer_session slow
                 (trace (mkWorld [AxiosGet url] CacheService.empty)) url
               = inr (js "Soup 45 Kc"))
    by (vm_compute; reflexivity).
  assert (H3 : findMenuImages (platform CEST) (js "Soup 45 Kc") url = inr [])
    by (vm_compute; reflexivity).
  pose proof (@static_failure_escalates (platform CEST) slow url start
                (mkWorld [AxiosGet url] CacheService.empty) _ H1) as (A & B & _).
  exact (conj H1 (conj H2 (conj H3 (conj A (B (js "Soup 45 Kc") [] H2 H3))))).
Defined.


(** C2, at the failing input.  The static markup has no menu content
    and the browser times out: the browser is run twice, not once, and
    the scrape ends with the error of the first session under the
    prefix meant for the static fetch. *)
Theorem failed_escalation_is_retried :
  fetchPageContent (platform CEST) unrenderable url start
    = (inr (js "Welcome to our restaurant"), mkWorld [AxiosGet url] CacheService.empty)
  /\ findMenuImages (platform CEST) (js "Welcome to our restaurant") url = inr []
  /\ hasMenuContent (platform CEST)
       (extractTextContent (platform CEST) (js "Welcome to our restaurant")) [] = false
  /\ trace (snd (scrapeMenuPageWithImages (platform CEST) unrenderable url start))
     = [AxiosGet url; Puppeteer url; Puppeteer url]
  /\ puppeteer_calls
       (trace (snd (scrapeMenuPageWithImages (platform CEST) unrenderable url start))) = 2%nat
  /\ fst (scrapeMenuPageWithImages (platform CEST) unrenderable url start)
     = inl (Error (js "Failed to fetch page: Failed to fetch page with Puppeteer: Navigation timeout of 20000 ms exceeded")).
Proof.
  split; [vm_compute; reflexivity|].
  split; [vm_compute; reflexivity|].
  split; [vm_compute; reflexivity|].
  split; [vm_compute; reflexivity|].
  split; vm_compute; reflexivity.
Qed.

End ScraperWitnesses.

(** ** The orchestrator *)

Section ServiceFacts.
Import ScraperService MenuService.
Variable P : Platform.
Variable E : Env.

Lemma cache_keys_app (t t' : list event) :
  cache_keys (t ++ t') = cache_keys t ++ cache_keys t'.
Proof.
  induction t as [|[] t IH]; simpl; rewrite ?IH; reflexivity.
Qed.




End ServiceFacts.

Section ServiceClaims.
Import ScraperService MenuService Reference.




(** C8, at the failing input.  Half an hour after midnight of
    2025-10-23 in a process on Central European Summer Time, a request
    without a date reads and writes the cache under 2025-10-22, asks the
    language model for 2025-10-22 and returns a menu dated 2025-10-22:
    the UTC date, not the local one. *)
Theorem default_date_is_the_UTC_date :
  local_calendar_date (platform CEST) after_midnight = js "2025-10-23"
  /\ getCurrentDate after_midnight = js "2025-10-22"
  /\ cache_keys (trace (snd (summarizeMenu (platform CEST) served_after_midnight
                               url None start)))
     = [(url, js "2025-10-22"); (url, js "2025-10-22")]
  /\ extraction_dates (trace (snd (summarizeMenu (platform CEST) served_after_midnight
                                     url None start)))
     = [js "2025-10-22"]
  /\ fst (summarizeMenu (platform CEST) served_after_midnight url None start)
     = inr (MenuSummary_value
              (mkMenuSummary (js "Test Restaurant") (js "2025-10-22") (Some (js "středa"))
                             [soup forty_five] true url)).
Proof.
  split; [vm_compute; reflexivity|].
  split; [vm_compute; reflexivity|].
  split; [vm_compute; reflexivity|].
  split; vm_compute; reflexivity.
Qed.

End ServiceClaims.

(** ** Dates *)

Section CalendarFacts.
Import JSDate.
Local Open Scope Z_scope.

Lemma all_from_spec (f : Z -> bool) (n : nat) :
  forall a, all_from f a n = true ->
  forall z, a <= z < a + Z.of_nat n -> f z = true.
Proof.
  induction n as [|k IH]; simpl; intros a H z Hz; [lia|].
  apply andb_prop in H as [Ha Hk].
  destruct (Z.eq_dec z a) as [->|Hne]; [exact Ha|].
  apply (IH (a + 1) Hk). lia.
Qed.

(** The 146097 days of an era, one by one. *)
Lemma every_era_day_round_trips (doe : Z) :
  0 <= doe < 146097 -> era_day_round_trips doe = true.
Proof.
  intros H.
  assert (A : all_from era_day_round_trips 0 (Z.to_nat 146097) = true)
    by (vm_compute; reflexivity).
  apply all_from_spec with (1 := A). rewrite Z2Nat.id; lia.
Qed.

Lemma days_from_civil_linear (y m d : Z) :
  days_from_civil y m d = days_from_civil y m 1 + d - 1.
Proof. unfold days_from_civil. lia. Qed.

(** The calendar date of a day number is a date of the calendar, and
    its day number is the one it was read from. *)
Lemma civil_round_trip (D : Z) :
  days_from_civil (fst (fst (civil_from_days D))) (snd (fst (civil_from_days D)))
                  (snd (civil_from_days D)) = D
  /\ 1 <= snd (fst (civil_from_days D)) <= 12
  /\ 1 <= snd (civil_from_days D) <= 31.
Proof.
  unfold civil_from_days. cbv zeta.
  set (z := D + 719468). set (era := z / 146097). set (doe := z - era * 146097).
  assert (Hdoe : 0 <= doe < 146097).
  { subst doe era. pose proof (Z.div_mod z 146097 ltac:(lia)).
    pose proof (Z.mod_pos_bound z 146097 ltac:(lia)). lia. }
  pose proof (every_era_day_round_trips Hdoe) as C.
  unfold era_day_round_trips in C. cbv zeta in C.
  set (yoe := (doe - doe / 1460 + doe / 36524 - doe / 146096) / 365) in *.
  set (doy := doe - (365 * yoe + yoe / 4 - yoe / 100)) in *.
  set (mp := (5 * doy + 2) / 153) in *.
  set (d := doy - (153 * mp + 2) / 5 + 1) in *.
  set (m := if mp <? 10 then mp + 3 else mp - 9) in *.
  repeat (apply andb_prop in C; destruct C as [C ?]).
  repeat match goal with
         | H : (_ <=? _) = true |- _ => apply Z.leb_le in H
         | H : (_ =? _) = true |- _ => apply Z.eqb_eq in H
         end.
  simpl fst; simpl snd. split; [|lia].
  unfold days_from_civil. cbv zeta.
  assert (Y : (if m <=? 2
               then (if m <=? 2 then yoe + era * 400 + 1 else yoe + era * 400) - 1
               else (if m <=? 2 then yoe + era * 400 + 1 else yoe + era * 400))
              = yoe + era * 400).
  { destruct (m <=? 2); lia. }
  rewrite Y.
  assert (Q : (yoe + era * 400) / 400 = era).
  { rewrite Z.div_add by lia. rewrite Z.div_small by lia. lia. }
  rewrite Q.
  replace (yoe + era * 400 - era * 400) with yoe by lia.
  subst doe z. lia.
Qed.

End CalendarFacts.

Section DateProperties.
Import JSDate.
Local Open Scope Z_scope.

(** X1.  In a time zone whose offset never changes, the expiry that the
    cache computes for a date is exactly one day (86400000 ms) after the
    instant the platform parses [date + 'T00:00:00'] to, as long as that
    is a time value a Date can hold: [setDate(getDate() + 1)] moves to
    the next calendar day and keeps the time of day. *)
Theorem expiry_is_one_day_after_the_start_of_the_date
    (P : Platform) (off t : Z) (date : jsstring) :
  (forall x b, LocalTZA P x b = off) ->
  Date_parse P (date ++ js "T00:00:00") = Some t ->
  Z.abs (t + 86400000) <= 8640000000000000 ->
  CacheService.getExpirationTimestamp P date = Some (t + 86400000).
Proof.
  intros Htz Hparse Hrange.
  unfold CacheService.getExpirationTimestamp. rewrite Hparse.
  unfold getDate, setDate, option_map, LocalTime, UTC. rewrite !Htz.
  set (lt := t + off).
  unfold YearFromTime, MonthFromTime, DateFromTime.
  destruct (civil_round_trip (Day lt)) as (R & Hm & Hd).
  destruct (civil_from_days (Day lt)) as [[y m] d]; simpl in *.
  unfold MakeDay.
  replace ((m - 1) / 12) with 0 by (symmetry; apply Z.div_small; lia).
  replace ((m - 1) mod 12 + 1) with m by (rewrite Z.mod_small; lia).
  rewrite Z.add_0_r.
  replace (days_from_civil y m 1 + (d + 1) - 1) with (Day lt + 1)
    by (rewrite <- R at 1; rewrite (days_from_civil_linear y m d); lia).
  unfold MakeDate, TimeWithinDay, Day, msPerDay.
  pose proof (Z.div_mod lt 86400000 ltac:(lia)) as DM.
  replace ((lt / 86400000 + 1) * 86400000 + lt mod 86400000 - off)
    with (t + 86400000) by (subst lt; lia).
  unfold TimeClip.
  replace (8640000000000000 <? Z.abs (t + 86400000)) with false
    by (symmetry; apply Z.ltb_ge; lia).
  reflexivity.
Qed.

Lemma expiry_is_one_day_after_the_start_of_the_date_witness :
  (forall x b, LocalTZA (Reference.platform Reference.CEST) x b = Reference.CEST)
  /\ Date_parse (Reference.platform Reference.CEST) (Reference.day ++ js "T00:00:00") = Some 1761084000000
  /\ Z.abs (1761084000000 + 86400000) <= 8640000000000000
  /\ CacheService.getExpirationTimestamp (Reference.platform Reference.CEST) Reference.day
     = Some (1761084000000 + 86400000).
Proof.
  assert (H1 : forall x b, LocalTZA (Reference.platform Reference.CEST) x b = Reference.CEST)
    by (intros; reflexivity).
  assert (H2 : Date_parse (Reference.platform Reference.CEST) (Reference.day ++ js "T00:00:00") = Some 1761084000000)
    by (vm_compute; reflexivity).
  assert (H3 : Z.abs (1761084000000 + 86400000) <= 8640000000000000)
    by (vm_compute; discriminate).
  exact (conj H1 (conj H2 (conj H3
           (@expiry_is_one_day_after_the_start_of_the_date (Reference.platform Reference.CEST) Reference.CEST
              1761084000000 Reference.day H1 H2 H3)))).
Defined.

(** X2.  [getDayOfWeek] answers one of the seven day names exactly when
    the platform can parse [date + 'T00:00:00'], and then the name at
    the index [getDay()] gives, which is never out of the array; for a
    date it cannot parse the answer is [undefined]. *)
Theorem getDayOfWeek_is_a_day_name_iff_the_date_parses (P : Platform) (date : jsstring) :
  (forall t, Date_parse P (date ++ js "T00:00:00") = Some t ->
             exists name,
               MenuService.getDayOfWeek P date = Some name
               /\ nth_error MenuService.days (Z.to_nat (WeekDay (LocalTime P t))) = Some name
               /\ In name MenuService.days)
  /\ (Date_parse P (date ++ js "T00:00:00") = None ->
      MenuService.getDayOfWeek P date = None)
  /\ ((exists name, MenuService.getDayOfWeek P date = Some name)
      <-> (exists t, Date_parse P (date ++ js "T00:00:00") = Some t)).
Proof.
  assert (A : forall t, Date_parse P (date ++ js "T00:00:00") = Some t ->
                        exists name,
                          MenuService.getDayOfWeek P date = Some name
                          /\ nth_error MenuService.days (Z.to_nat (WeekDay (LocalTime P t)))
                             = Some name
                          /\ In name MenuService.days).
  { intros t Ht. unfold MenuService.getDayOfWeek. rewrite Ht. unfold getDay, WeekDay.
    set (n := (Day (LocalTime P t) + 4) mod 7).
    assert (Hn : 0 <= n < 7) by (apply Z.mod_pos_bound; lia).
    destruct (nth_error MenuService.days (Z.to_nat n)) as [name|] eqn:N.
    - exists name. repeat split. eapply nth_error_In; eassumption.
    - apply nth_error_None in N. simpl in N. lia. }
  assert (B : Date_parse P (date ++ js "T00:00:00") = None ->
              MenuService.getDayOfWeek P date = None).
  { intros Hn. unfold MenuService.getDayOfWeek. rewrite Hn. reflexivity. }
  split; [exact A|]. split; [exact B|]. split.
  - intros (name & H).
    destruct (Date_parse P (date ++ js "T00:00:00")) as [t|]; [eauto|].
    rewrite B in H by reflexivity. discriminate H.
  - intros (t & Ht). destruct (A t Ht) as (name & H & _). eauto.
Qed.

Lemma digit_code (z : Z) :
  isDigit (Z.to_N (48 + z mod 10)) = true
  /\ (Z.to_N (48 + z mod 10) =? 84)%N = false.
Proof.
  pose proof (Z.mod_pos_bound z 10 ltac:(lia)) as B.
  unfold isDigit. split.
  - apply andb_true_iff; split; apply N.leb_le; lia.
  - apply N.eqb_neq; lia.
Qed.

(** X3.  For an instant whose UTC year is between 0 and 9999, the date
    that [getCurrentDate] produces has the form YYYY-MM-DD: it passes
    the test of the date pattern that the route applies to the dates of
    its requests. *)
Theorem getCurrentDate_has_the_form_the_route_accepts (t : Z) :
  0 <= YearFromTime t <= 9999 ->
  MenuRoutes.dateRegex_test (MenuService.getCurrentDate t) = true.
Proof.
  intros Hy. unfold MenuService.getCurrentDate, toISOString.
  replace ((0 <=? YearFromTime t) && (YearFromTime t <=? 9999)) with true
    by (symmetry; apply andb_true_iff; split; apply Z.leb_le; lia).
  unfold pad at 1 2 3. unfold digits_rev.
  change (js "-") with [45%N]. change (js "T") with [84%N].
  cbn [rev app].
  repeat match goal with
         | |- context [Z.to_N (48 + ?z mod 10)] =>
           let c := fresh "c" in
           let D := fresh "D" in
           let T := fresh "T" in
           destruct (digit_code z) as [D T];
           set (c := Z.to_N (48 + z mod 10)) in *; clearbody c
         end.
  cbn [split_head N.eqb Pos.eqb].
  repeat match goal with
         | H : (?c =? 84)%N = false |- _ => rewrite H; clear H
         end.
  cbn [N.eqb Pos.eqb]. cbn [split_head N.eqb Pos.eqb].
  unfold MenuRoutes.dateRegex_test.
  repeat match goal with
         | H : isDigit ?c = true |- _ => rewrite H; clear H
         end.
  reflexivity.
Qed.

Lemma getCurrentDate_has_the_form_the_route_accepts_witness :
  0 <= YearFromTime Reference.after_midnight <= 9999
  /\ MenuRoutes.dateRegex_test (MenuService.getCurrentDate Reference.after_midnight) = true.
Proof.
  assert (H : 0 <= YearFromTime Reference.after_midnight <= 9999)
    by (vm_compute; split; discriminate).
  exact (conj H (@getCurrentDate_has_the_form_the_route_accepts Reference.after_midnight H)).
Defined.

End DateProperties.

(** ** More of the cache *)

Section CacheProperties.
Import CacheService.
Local Open Scope Z_scope.

Lemma find_of_filter_nil {A} (p : A -> bool) (l : list A) :
  filter p l = [] -> find p l = None.
Proof.
  induction l as [|x l IH]; simpl; [reflexivity|].
  destruct (p x); [discriminate|exact IH].
Qed.

Lemma find_filter_kept {A} (p q : A -> bool) (l : list A) (r : A) :
  find p l = Some r -> q r = true -> find p (filter q l) = Some r.
Proof.
  induction l as [|x l IH]; simpl; [discriminate|].
  destruct (p x) eqn:Px.
  - intros H Hq; injection H as ->. rewrite Hq; simpl. rewrite Px; reflexivity.
  - intros H Hq. destruct (q x); simpl; [rewrite Px|]; auto.
Qed.

Lemma find_filter_still_none {A} (p q : A -> bool) (l : list A) :
  find p l = None -> find p (filter q l) = None.
Proof.
  induction l as [|x l IH]; simpl; [reflexivity|].
  destruct (p x) eqn:Px; [discriminate|].
  intros H. destruct (q x); simpl; [rewrite Px|]; auto.
Qed.

Lemma find_same_key (url date : jsstring) (l : list row) (r : row) :
  find (same_key url date) l = Some r ->
  In r l /\ row_url r = sql_text url /\ row_date r = sql_text date.
Proof.
  intros H. apply find_some in H as [Hin K].
  apply same_key_spec in K. tauto.
Qed.

(** Under UNIQUE(url, date), once the row of a key is filtered out no
    row of that key is left. *)
Lemma find_filter_dropped (url date : jsstring) (q : row -> bool) (l : list row) (r : row) :
  NoDup (map (fun r => (row_url r, row_date r)) l) ->
  find (same_key url date) l = Some r -> q r = false ->
  find (same_key url date) (filter q l) = None.
Proof.
  intros Hnd Hfind Hq.
  destruct (find (same_key url date) (filter q l)) as [r'|] eqn:F; [|reflexivity].
  exfalso. apply find_some in F as [Hin' K'].
  apply filter_In in Hin' as [Hin' Hq'].
  apply same_key_spec in K' as [K1 K2].
  assert (F' : find (same_key url date) l = Some r')
    by (apply unique_find; assumption).
  rewrite Hfind in F'. injection F' as ->. congruence.
Qed.

(** X4.  A lookup of a key that has no row when SQLite executes the
    SELECT answers [null], leaves the table exactly as it was then and
    hands no statement to SQLite, whatever SQLite reports. *)
Theorem get_of_a_missing_key (k : list nat) (now : Z) (url date : jsstring) (d : db) :
  rows_for url date (sqlite_runs k d) = [] ->
  fst (get k now url date d) = VNull
  /\ rows (snd (get k now url date d)) = rows (sqlite_runs k d)
  /\ inflight (snd (get k now url date d)) = inflight (sqlite_runs k d).
Proof.
  unfold rows_for. intros H. apply find_of_filter_nil in H.
  unfold get, sql_select.
  pose proof (next_fault_rows (sqlite_runs k d)) as R.
  destruct (next_fault (sqlite_runs k d)) as [[err|] t1]; simpl in *; [auto|].
  rewrite R, H. auto.
Qed.

Lemma get_of_a_missing_key_witness :
  rows_for Reference.url (js "2025-10-23") (sqlite_runs [] Reference.stored) = []
  /\ fst (get [] Reference.noon Reference.url (js "2025-10-23") Reference.stored) = VNull
  /\ rows (snd (get [] Reference.noon Reference.url (js "2025-10-23") Reference.stored))
     = rows (sqlite_runs [] Reference.stored)
  /\ inflight (snd (get [] Reference.noon Reference.url (js "2025-10-23") Reference.stored))
     = inflight (sqlite_runs [] Reference.stored).
Proof.
  assert (H : rows_for Reference.url (js "2025-10-23") (sqlite_runs [] Reference.stored) = [])
    by (vm_compute; reflexivity).
  exact (conj H (@get_of_a_missing_key [] Reference.noon Reference.url (js "2025-10-23")
                   Reference.stored H)).
Defined.

(** X5.  A lookup whose SELECT, executed without error, finds the row
    of its key before its expiry answers the value the stored text
    denotes, leaves the table exactly as it was then and hands no
    statement to SQLite: a hit writes nothing. *)
Theorem get_of_a_fresh_row (k : list nat) (now : Z) (url date : jsstring) (d : db)
    (r : row) (v : jsvalue) :
  unique_keys (sqlite_runs k d) -> In r (rows (sqlite_runs k d)) ->
  row_url r = sql_text url -> row_date r = sql_text date ->
  now < row_expires_at r -> row_data r = JSON.Denotes v -> healthy 1 (sqlite_runs k d) ->
  fst (get k now url date d) = v
  /\ rows (snd (get k now url date d)) = rows (sqlite_runs k d)
  /\ inflight (snd (get k now url date d)) = inflight (sqlite_runs k d).
Proof.
  intros Huniq Hin Hu Hd Hlt Hdata H.
  assert (Hfind : find (same_key url date) (rows (sqlite_runs k d)) = Some r)
    by (apply unique_find; assumption).
  unfold get, sql_select.
  destruct (next_fault_healthy H) as (F1 & R1 & _ & _).
  destruct (next_fault (sqlite_runs k d)) as [f t1]; simpl in *; subst f.
  rewrite R1, Hfind.
  replace (now >=? row_expires_at r) with false
    by (symmetry; rewrite Z.geb_leb; apply Z.leb_gt; lia).
  rewrite Hdata; simpl. auto.
Qed.

Lemma get_of_a_fresh_row_witness :
  unique_keys (sqlite_runs [] Reference.stored)
  /\ In Reference.stored_row (rows (sqlite_runs [] Reference.stored))
  /\ row_url Reference.stored_row = sql_text Reference.url
  /\ row_date Reference.stored_row = sql_text Reference.day
  /\ Reference.noon < row_expires_at Reference.stored_row
  /\ row_data Reference.stored_row
     = JSON.Denotes (MenuSummary_value (Reference.menu Reference.forty_five))
  /\ healthy 1 (sqlite_runs [] Reference.stored)
  /\ fst (get [] Reference.noon Reference.url Reference.day Reference.stored)
     = MenuSummary_value (Reference.menu Reference.forty_five)
  /\ rows (snd (get [] Reference.noon Reference.url Reference.day Reference.stored))
     = rows (sqlite_runs [] Reference.stored)
  /\ inflight (snd (get [] Reference.noon Reference.url Reference.day Reference.stored))
     = inflight (sqlite_runs [] Reference.stored).
Proof.
  assert (I : In Reference.stored_row (rows (sqlite_runs [] Reference.stored)))
    by (vm_compute; left; reflexivity).
  assert (K1 : row_url Reference.stored_row = sql_text Reference.url)
    by (vm_compute; reflexivity).
  assert (K2 : row_date Reference.stored_row = sql_text Reference.day)
    by (vm_compute; reflexivity).
  assert (L : Reference.noon < row_expires_at Reference.stored_row)
    by (vm_compute; reflexivity).
  assert (D : row_data Reference.stored_row
              = JSON.Denotes (MenuSummary_value (Reference.menu Reference.forty_five)))
    by (vm_compute; reflexivity).
  assert (H : healthy 1 (sqlite_runs [] Reference.stored)) by (vm_compute; constructor).
  exact (conj stored_unique (conj I (conj K1 (conj K2 (conj L (conj D (conj H
           (@get_of_a_fresh_row [] Reference.noon Reference.url Reference.day
              Reference.stored Reference.stored_row _ stored_unique I K1 K2 L D H)))))))).
Defined.

(** X6.  A lookup never disturbs the rows of a key that SQLite tells
    from its own (the UTF-8 text of the URL or of the date differs):
    with nothing else in flight when the SELECT is executed, whatever
    the lookup finds and whether or not SQLite then executes the DELETE
    it may have handed over, the rows stored under the other key are the
    same afterwards. *)
Theorem get_leaves_other_keys_alone (k k' : list nat) (now : Z)
    (url date url' date' : jsstring) (d : db) :
  (sql_text url', sql_text date') <> (sql_text url, sql_text date) ->
  inflight (sqlite_runs k d) = [] ->
  rows_for url' date' (sqlite_runs k' (snd (get k now url date d)))
  = rows_for url' date' (sqlite_runs k d).
Proof.
  intros Hne Hq. unfold get, sql_select, rows_for.
  pose proof (next_fault_rows (sqlite_runs k d)) as R.
  rewrite Hq.
  destruct (next_fault (sqlite_runs k d)) as [[err|] t1]; cbn [fst snd] in *.
  - rewrite sqlite_runs_nothing by reflexivity. cbn [store_of]. rewrite R; reflexivity.
  - destruct (find (same_key url date) (rows t1)) as [r|]; cbn [fst snd].
    + destruct (now >=? row_expires_at r); cbn [fst snd].
      * unfold delete.
        destruct (@sqlite_runs_one k' (DELETE url date) (mkDb t1 []) eq_refl) as [A B].
        destruct (in_dec Nat.eq_dec 0%nat k') as [Hin|Hnot];
          [rewrite (A Hin)|rewrite (B Hnot); cbn [db_run store_of]; rewrite R; reflexivity].
        cbn [store_of].
        destruct (execute_rows (DELETE url date) t1)
          as [->|[(u & dt & da & c & e & Hs & _)|[(u & dt & Hs & ->)|(n & Hs & _)]]];
          try discriminate Hs; [rewrite R; reflexivity|].
        injection Hs as <- <-.
        rewrite rows_for_other_key by exact Hne. rewrite R; reflexivity.
      * destruct (JSON.parse (row_data r)); cbn [fst snd];
          rewrite sqlite_runs_nothing by reflexivity; cbn [store_of]; rewrite R; reflexivity.
    + rewrite sqlite_runs_nothing by reflexivity. cbn [store_of]. rewrite R; reflexivity.
Qed.

Lemma get_leaves_other_keys_alone_witness :
  (sql_text Reference.url, sql_text (js "2025-10-21"))
    <> (sql_text Reference.url, sql_text Reference.day)
  /\ inflight (sqlite_runs [] Reference.stored) = []
  /\ rows_for Reference.url (js "2025-10-21")
       (sqlite_runs [0%nat]
          (snd (get [] Reference.next_day Reference.url Reference.day Reference.stored)))
     = rows_for Reference.url (js "2025-10-21") (sqlite_runs [] Reference.stored).
Proof.
  assert (H : (sql_text Reference.url, sql_text (js "2025-10-21"))
              <> (sql_text Reference.url, sql_text Reference.day))
    by (vm_compute; intros H; discriminate H).
  assert (Q : inflight (sqlite_runs [] Reference.stored) = []) by (vm_compute; reflexivity).
  exact (conj H (conj Q
           (@get_leaves_other_keys_alone [] [0%nat] Reference.next_day Reference.url
              Reference.day Reference.url (js "2025-10-21") Reference.stored H Q))).
Defined.

(** X7.  A sweep made at the instant of a lookup never changes what the
    lookup answers, whether SQLite executes it before the SELECT or
    not: with UNIQUE(url, date), nothing else in flight and SQLite
    executing the statements without error, [get] after
    [cleanupExpiredEntries] answers what [get] alone answers. *)
Theorem sweep_does_not_change_a_lookup (k : list nat) (now : Z) (url date : jsstring)
    (d : db) :
  unique_keys d -> healthy 2 d -> inflight d = [] ->
  fst (get k now url date (cleanupExpiredEntries now d)) = fst (get k now url date d).
Proof.
  intros Huniq H Hq.
  assert (H1 : healthy 1 d) by (apply healthy_less; exact H).
  rewrite !get_answer. unfold cleanupExpiredEntries.
  rewrite (@sqlite_runs_nothing k d Hq).
  destruct (@sqlite_runs_one k (DELETE_EXPIRED now) d Hq) as [A B].
  destruct (in_dec Nat.eq_dec 0%nat k) as [Hin|Hnot];
    [rewrite (A Hin)|rewrite (B Hnot); reflexivity].
  cbn [store_of].
  destruct (sweep_healthy now H) as (R1 & _ & H').
  unfold sql_select.
  destruct (next_fault_healthy H') as (F2 & R2 & _ & _).
  destruct (next_fault_healthy H1) as (F3 & R3 & _ & _).
  destruct (next_fault (execute (DELETE_EXPIRED now) d)) as [f t2];
    cbn [fst snd] in F2, R2; subst f.
  destruct (next_fault d) as [f t3]; cbn [fst snd] in F3, R3; subst f.
  rewrite R2, R1, R3.
  destruct (find (same_key url date) (rows d)) as [r|] eqn:F.
  - destruct (row_expires_at r <? now) eqn:X.
    + rewrite (@find_filter_dropped url date (fun r => negb (row_expires_at r <? now))
                 _ _ Huniq F) by (rewrite X; reflexivity).
      replace (now >=? row_expires_at r) with true
        by (symmetry; apply Z.geb_le; apply Z.ltb_lt in X; lia).
      reflexivity.
    + rewrite (@find_filter_kept _ _ (fun r => negb (row_expires_at r <? now)) _ _ F)
        by (rewrite X; reflexivity).
      reflexivity.
  - rewrite find_filter_still_none by exact F. reflexivity.
Qed.

Lemma sweep_does_not_change_a_lookup_witness :
  unique_keys Reference.stored /\ healthy 2 Reference.stored
  /\ inflight Reference.stored = []
  /\ fst (get [0%nat] Reference.next_day Reference.url Reference.day
            (cleanupExpiredEntries Reference.next_day Reference.stored))
     = fst (get [0%nat] Reference.next_day Reference.url Reference.day Reference.stored).
Proof.
  assert (H : healthy 2 Reference.stored) by (vm_compute; constructor).
  assert (Q : inflight Reference.stored = []) by (vm_compute; reflexivity).
  exact (conj stored_unique (conj H (conj Q
           (@sweep_does_not_change_a_lookup [0%nat] Reference.next_day Reference.url
              Reference.day Reference.stored stored_unique H Q)))).
Defined.

End CacheProperties.

Section CacheLifecycle.
Import CacheService.
Local Open Scope Z_scope.

Lemma remove_nth_app_l {A} (i : nat) (l l' : list A) :
  (i < List.length l)%nat -> remove_nth i (l ++ l') = remove_nth i l ++ l'.
Proof.
  revert i. induction l as [|x l IH]; intros i Hi; simpl in *; [lia|].
  destruct i; [reflexivity|]. simpl. rewrite IH by lia. reflexivity.
Qed.

Lemma remove_nth_last {A} (l : list A) (x : A) :
  remove_nth (List.length l) (l ++ [x]) = l.
Proof.
  induction l as [|y l IH]; simpl; [reflexivity|]. rewrite IH. reflexivity.
Qed.

Lemma remove_nth_length {A} (i : nat) (l : list A) :
  (i < List.length l)%nat -> S (List.length (remove_nth i l)) = List.length l.
Proof.
  revert i. induction l as [|x l IH]; intros i Hi; simpl in *; [lia|].
  destruct i; [reflexivity|]. simpl. rewrite IH by lia. reflexivity.
Qed.

Lemma remove_nth_Forall {A} (p : A -> Prop) (i : nat) (l : list A) :
  Forall p l -> Forall p (remove_nth i l).
Proof.
  revert i. induction l as [|x l IH]; intros i H; simpl; [constructor|].
  inversion H; subst. destruct i; [assumption|]. constructor; auto.
Qed.

(** While the statements of the constructor are in flight: the sweep
    has been executed or it has not, and SQLite has yet to execute what
    is left without error. *)
Lemma opening_step (now : Z) (l : list row) (i : nat) (d : db) :
  healthy (List.length (inflight d)) d ->
  (exists cs, inflight d = cs ++ [DELETE_EXPIRED now]
              /\ Forall (fun s => s = CREATE_IF_NOT_EXISTS) cs /\ rows d = l)
  \/ (Forall (fun s => s = CREATE_IF_NOT_EXISTS) (inflight d)
      /\ rows d = filter (fun r => negb (row_expires_at r <? now)) l) ->
  healthy (List.length (inflight (run_nth i d))) (run_nth i d)
  /\ ((exists cs, inflight (run_nth i d) = cs ++ [DELETE_EXPIRED now]
                  /\ Forall (fun s => s = CREATE_IF_NOT_EXISTS) cs
                  /\ rows (run_nth i d) = l)
      \/ (Forall (fun s => s = CREATE_IF_NOT_EXISTS) (inflight (run_nth i d))
          /\ rows (run_nth i d) = filter (fun r => negb (row_expires_at r <? now)) l)).
Proof.
  intros H Inv. unfold run_nth.
  destruct (nth_error (inflight d) i) as [s|] eqn:N; [|auto].
  assert (Hi : (i < List.length (inflight d))%nat)
    by (apply nth_error_Some; congruence).
  pose proof (remove_nth_length _ Hi) as L.
  rewrite <- L in H. clear L. cbn [inflight store_of].
  destruct Inv as [(cs & Hf & Hc & Hr)|(Hc & Hr)].
  - rewrite Hf in *. rewrite length_app in Hi. cbn [List.length] in Hi.
    destruct (Nat.eq_dec i (List.length cs)) as [->|Hne].
    + rewrite nth_error_app2 in N by lia. rewrite Nat.sub_diag in N.
      injection N as <-.
      destruct (sweep_healthy now H) as (R & _ & H').
      split; [exact H'|]. right. rewrite remove_nth_last.
      split; [exact Hc|]. rewrite R, Hr. reflexivity.
    + rewrite nth_error_app1 in N by lia.
      assert (s = CREATE_IF_NOT_EXISTS).
      { apply nth_error_In in N. rewrite Forall_forall in Hc. auto. }
      subst s.
      destruct (create_healthy H) as (R & _ & H').
      split; [exact H'|]. left. exists (remove_nth i cs).
      rewrite remove_nth_app_l by lia.
      split; [reflexivity|]. split; [apply remove_nth_Forall; exact Hc|].
      rewrite R. exact Hr.
  - assert (s = CREATE_IF_NOT_EXISTS).
    { apply nth_error_In in N. rewrite Forall_forall in Hc. auto. }
    subst s.
    destruct (create_healthy H) as (R & _ & H').
    split; [exact H'|]. right.
    split; [apply remove_nth_Forall; exact Hc|].
    rewrite R. exact Hr.
Qed.

(** X8.  Opening the cache on a database file with nothing in flight:
    once SQLite has executed, in whatever order and without error, the
    three schema statements and the sweep, the table holds exactly the
    rows of the file whose [expires_at] is not before the instant of the
    opening, unchanged and in their order. *)
Theorem opening_keeps_exactly_the_unexpired_rows (now : Z) (file : db) (k : list nat) :
  healthy 4 file -> inflight file = [] ->
  inflight (sqlite_runs k (constructor now file)) = [] ->
  rows (sqlite_runs k (constructor now file))
  = filter (fun r => now <=? row_expires_at r) (rows file).
Proof.
  intros H Hq Hdone.
  assert (Inv : forall k d,
             healthy (List.length (inflight d)) d ->
             (exists cs, inflight d = cs ++ [DELETE_EXPIRED now]
                         /\ Forall (fun s => s = CREATE_IF_NOT_EXISTS) cs
                         /\ rows d = rows file)
             \/ (Forall (fun s => s = CREATE_IF_NOT_EXISTS) (inflight d)
                 /\ rows d = filter (fun r => negb (row_expires_at r <? now)) (rows file)) ->
             (exists cs, inflight (sqlite_runs k d) = cs ++ [DELETE_EXPIRED now])
             \/ rows (sqlite_runs k d)
                = filter (fun r => negb (row_expires_at r <? now)) (rows file)).
  { induction k0 as [|i k0 IH]; intros d Hh I; simpl.
    - destruct I as [(cs & Hf & _)|(_ & Hr)]; [left; eauto|right; exact Hr].
    - destruct (@opening_step now (rows file) i d Hh I) as (Hh' & I').
      apply IH; assumption. }
  destruct (Inv k (constructor now file)) as [(cs & Hf)|R].
  - unfold constructor, cleanupExpiredEntries, initializeDatabase, db_run.
    cbn [inflight store_of]. rewrite Hq. exact H.
  - left. exists [CREATE_IF_NOT_EXISTS; CREATE_IF_NOT_EXISTS; CREATE_IF_NOT_EXISTS].
    unfold constructor, cleanupExpiredEntries, initializeDatabase, db_run.
    cbn [inflight store_of]. rewrite Hq.
    split; [reflexivity|]. split; [repeat constructor|reflexivity].
  - rewrite Hf in Hdone. destruct cs; discriminate Hdone.
  - rewrite R. apply filter_ext. intros r. symmetry. apply Z.leb_antisym.
Qed.

Lemma opening_keeps_exactly_the_unexpired_rows_witness :
  healthy 4 Reference.stored /\ inflight Reference.stored = []
  /\ inflight (sqlite_runs [3; 1; 0; 0]%nat (constructor Reference.next_day Reference.stored))
     = []
  /\ rows (sqlite_runs [3; 1; 0; 0]%nat (constructor Reference.next_day Reference.stored))
     = filter (fun r => Reference.next_day <=? row_expires_at r) (rows Reference.stored).
Proof.
  assert (H : healthy 4 Reference.stored) by (vm_compute; constructor).
  assert (Q : inflight Reference.stored = []) by (vm_compute; reflexivity).
  assert (D : inflight (sqlite_runs [3; 1; 0; 0]%nat
                          (constructor Reference.next_day Reference.stored)) = [])
    by (vm_compute; reflexivity).
  exact (conj H (conj Q (conj D
           (@opening_keeps_exactly_the_unexpired_rows Reference.next_day
              Reference.stored [3; 1; 0; 0]%nat H Q D)))).
Defined.

(** X9.  The sweep and the lookup draw the line differently: a row
    whose [expires_at] is exactly the present instant survives
    [cleanupExpiredEntries] (which deletes [expires_at < now]) and is
    nevertheless absent for [get] (which expires [now >= expires_at]),
    whether the sweep is executed before the SELECT or not. *)
Theorem a_row_expiring_now_survives_the_sweep_and_is_absent
    (k : list nat) (now : Z) (url date : jsstring) (d : db) (r : row) :
  unique_keys d -> In r (rows d) ->
  row_url r = sql_text url -> row_date r = sql_text date ->
  row_expires_at r = now -> healthy 2 d -> inflight d = [] ->
  In r (rows (sqlite_runs [0%nat] (cleanupExpiredEntries now d)))
  /\ fst (get k now url date (cleanupExpiredEntries now d)) = VNull.
Proof.
  intros Huniq Hin Hu Hd Hexp H Hq.
  assert (Hfind : find (same_key url date) (rows d) = Some r)
    by (apply unique_find; assumption).
  destruct (sweep_healthy now H) as (R1 & _ & H').
  unfold cleanupExpiredEntries.
  destruct (@sqlite_runs_one [0%nat] (DELETE_EXPIRED now) d Hq) as [A0 _].
  destruct (@sqlite_runs_one k (DELETE_EXPIRED now) d Hq) as [A B].
  split.
  - rewrite A0 by (left; reflexivity). cbn [store_of]. rewrite R1.
    apply filter_In. split; [assumption|].
    apply negb_true_iff, Z.ltb_ge. lia.
  - apply get_expired with (r := r); [|lia].
    destruct (in_dec Nat.eq_dec 0%nat k) as [Hk|Hk];
      [rewrite (A Hk)|rewrite (B Hk); exact Hfind].
    cbn [store_of]. rewrite R1.
    apply find_filter_kept; [exact Hfind|].
    apply negb_true_iff, Z.ltb_ge. lia.
Qed.

Lemma a_row_expiring_now_survives_the_sweep_and_is_absent_witness :
  unique_keys Reference.stored /\ In Reference.stored_row (rows Reference.stored)
  /\ row_url Reference.stored_row = sql_text Reference.url
  /\ row_date Reference.stored_row = sql_text Reference.day
  /\ row_expires_at Reference.stored_row = 1761170400000
  /\ healthy 2 Reference.stored
  /\ inflight Reference.stored = []
  /\ In Reference.stored_row
        (rows (sqlite_runs [0%nat] (cleanupExpiredEntries 1761170400000 Reference.stored)))
  /\ fst (get [0%nat] 1761170400000 Reference.url Reference.day
            (cleanupExpiredEntries 1761170400000 Reference.stored)) = VNull.
Proof.
  assert (I : In Reference.stored_row (rows Reference.stored))
    by (vm_compute; left; reflexivity).
  assert (K1 : row_url Reference.stored_row = sql_text Reference.url)
    by (vm_compute; reflexivity).
  assert (K2 : row_date Reference.stored_row = sql_text Reference.day)
    by (vm_compute; reflexivity).
  assert (X : row_expires_at Reference.stored_row = 1761170400000)
    by (vm_compute; reflexivity).
  assert (H : healthy 2 Reference.stored) by (vm_compute; constructor).
  assert (Q : inflight Reference.stored = []) by (vm_compute; reflexivity).
  exact (conj stored_unique (conj I (conj K1 (conj K2 (conj X (conj H (conj Q
           (@a_row_expiring_now_survives_the_sweep_and_is_absent [0%nat] 1761170400000
              Reference.url Reference.day Reference.stored Reference.stored_row
              stored_unique I K1 K2 X H Q)))))))).
Defined.

(** X10.  A payload set for a date the platform cannot parse is never
    stored: the expiry is NaN, SQLite refuses the row whenever it
    executes the INSERT, [set] returns normally and, with nothing else
    in flight, the table is exactly as it was. *)
Theorem set_stores_nothing_for_a_date_that_does_not_parse
    (P : Platform) (k : list nat) (now : Z) (url date : jsstring) (p : MenuSummary)
    (d : db) :
  Date_parse P (date ++ js "T00:00:00") = None -> inflight d = [] ->
  rows (sqlite_runs k (set P now url date p d)) = rows d.
Proof.
  intros H Hq. unfold set, getExpirationTimestamp. rewrite H. simpl.
  destruct (@sqlite_runs_one k
              (INSERT_OR_REPLACE url date (JSON.stringify (MenuSummary_value p)) now None)
              d Hq) as [A B].
  destruct (in_dec Nat.eq_dec 0%nat k) as [Hk|Hk];
    [rewrite (A Hk)|rewrite (B Hk); reflexivity].
  cbn [store_of execute]. unfold sql_insert_or_replace.
  pose proof (next_fault_rows d) as R.
  destruct (next_fault d) as [[err|] t']; simpl in *; exact R.
Qed.

Lemma set_stores_nothing_for_a_date_that_does_not_parse_witness :
  Date_parse (Reference.platform Reference.CEST) (js "2025-13-45" ++ js "T00:00:00") = None
  /\ inflight Reference.stored = []
  /\ rows (sqlite_runs [0%nat]
             (set (Reference.platform Reference.CEST) Reference.noon Reference.url
                  (js "2025-13-45") (Reference.menu Reference.forty_five) Reference.stored))
     = rows Reference.stored.
Proof.
  assert (H : Date_parse (Reference.platform Reference.CEST)
                (js "2025-13-45" ++ js "T00:00:00") = None)
    by (vm_compute; reflexivity).
  assert (Q : inflight Reference.stored = []) by (vm_compute; reflexivity).
  exact (conj H (conj Q (@set_stores_nothing_for_a_date_that_does_not_parse
                   (Reference.platform Reference.CEST) [0%nat] Reference.noon Reference.url
                   (js "2025-13-45") (Reference.menu Reference.forty_five)
                   Reference.stored H Q))).
Defined.

Lemma entry_is_absent_from_its_expiry_witness :
  getExpirationTimestamp (Reference.platform Reference.CEST) Reference.day
    = Some 1761170400000
  /\ 1761170400000 <= Reference.next_day
  /\ healthy 1 Reference.stored
  /\ inflight Reference.stored = []
  /\ (~ In 0%nat [] ->
      forall r, In r (rows_for Reference.url Reference.day Reference.stored) ->
                row_expires_at r <= Reference.next_day)
  /\ fst (get [] Reference.next_day Reference.url Reference.day
            (set (Reference.platform Reference.CEST) Reference.next_day Reference.url
                 Reference.day (Reference.menu Reference.forty_five) Reference.stored))
     = VNull.
Proof.
  assert (H1 : getExpirationTimestamp (Reference.platform Reference.CEST) Reference.day
               = Some 1761170400000)
    by (vm_compute; reflexivity).
  assert (H2 : 1761170400000 <= Reference.next_day) by (vm_compute; discriminate).
  assert (H3 : healthy 1 Reference.stored) by (vm_compute; constructor).
  assert (Q : inflight Reference.stored = []) by (vm_compute; reflexivity).
  assert (O : ~ In 0%nat [] ->
              forall r, In r (rows_for Reference.url Reference.day Reference.stored) ->
                        row_expires_at r <= Reference.next_day).
  { intros _ r Hr. vm_compute in Hr. destruct Hr as [<-|[]]. vm_compute. discriminate. }
  exact (conj H1 (conj H2 (conj H3 (conj Q (conj O
           (@entry_is_absent_from_its_expiry (Reference.platform Reference.CEST)
              Reference.stored [] Reference.next_day Reference.next_day Reference.url
              Reference.day (Reference.menu Reference.forty_five) 1761170400000
              H1 H2 H3 Q O)))))).
Defined.

End CacheLifecycle.

(** ** More of the scraper *)

Section ScraperProperties.
Import ScraperService.
Variable P : Platform.
Variable E : Env.

(** X11.  The static fetch, whatever axios answers: it makes exactly
    one request, for the URL without its fragment, and never retries;
    it returns a body exactly when axios resolves with status 200, and
    then that body; and what it throws is always a plain [Error] with a
    message, never the axios rejection itself. *)
Theorem static_fetch_contract (url : jsstring) (w : world) :
  snd (fetchPageContent P E url w)
    = mkWorld (trace w ++ [AxiosGet (removeHashFromUrl P url)]) (cache w)
  /\ (forall html, fst (fetchPageContent P E url w) = inr html
                   <-> axios_get E (trace w) (removeHashFromUrl P url) = inr (200%Z, html))
  /\ (forall e, fst (fetchPageContent P E url w) = inl e -> exists m, e = Error m).
Proof.
  split; [apply fetchPageContent_world|].
  unfold fetchPageContent, try_catch, bind, call, ret, throw; simpl.
  destruct (axios_get E (trace w) (removeHashFromUrl P url)) as [e|[status data]]; simpl.
  - split.
    + intros html. split; [|discriminate].
      destruct e as [code response request m|m|]; simpl; try discriminate.
      destruct (match code with Some c => JS.eqb c (js "ECONNABORTED") | None => false end);
        [discriminate|].
      destruct response as [[status statusText]|]; [discriminate|].
      destruct request; discriminate.
    + intros e'. destruct e as [code response request m|m|]; simpl.
      * destruct (match code with Some c => JS.eqb c (js "ECONNABORTED") | None => false end);
          [intros H; injection H as <-; eauto|].
        destruct response as [[status statusText]|]; [intros H; injection H as <-; eauto|].
        destruct request; intros H; injection H as <-; eauto.
      * intros H; injection H as <-; eauto.
      * intros H; injection H as <-; eauto.
  - destruct (status =? 200)%Z eqn:S; simpl.
    + apply Z.eqb_eq in S; subst status. split.
      * intros html. split; intros H; injection H as ->; reflexivity.
      * intros e H; discriminate H.
    + split.
      * intros html. split; [discriminate|].
        intros H; injection H as -> _. rewrite Z.eqb_refl in S; discriminate.
      * intros e H; injection H as <-; eauto.
Qed.

(** X13.  A response that axios accepts but whose status is not 200 (a
    201 or a 204, say) is refused, and the error thrown for it inside
    the [try] is caught by the [catch] of the same function and wrapped
    once more: its message carries the prefix twice. *)
Theorem static_fetch_refuses_other_statuses (url : jsstring) (w : world)
    (status : Z) (data : jsstring) :
  status <> 200%Z ->
  axios_get E (trace w) (removeHashFromUrl P url) = inr (status, data) ->
  fst (fetchPageContent P E url w)
  = inl (Error (js "Failed to fetch page: " ++ js "Failed to fetch page: HTTP "
                ++ number_to_string status)).
Proof.
  intros Hs H. unfold fetchPageContent, try_catch, bind, call, ret, throw; simpl.
  rewrite H; simpl.
  replace (status =? 200)%Z with false by (symmetry; apply Z.eqb_neq; exact Hs).
  reflexivity.
Qed.

Lemma scrape_events (url : jsstring) (w : world) :
  exists t,
    snd (scrapeMenuPageWithImages P E url w) = mkWorld (trace w ++ t) (cache w)
    /\ static_targets t = [removeHashFromUrl P url]
    /\ (rendered_targets t = [] \/ rendered_targets t = [url]
        \/ rendered_targets t = [url; url])
    /\ cache_keys t = [] /\ extraction_dates t = [].
Proof.
  unfold scrapeMenuPageWithImages, try_catch at 1, bind at 1.
  pose proof (fetchPageContent_world P E url w) as W.
  destruct (fetchPageContent P E url w) as [[e|html] w1]; simpl in W; subst w1.
  - unfold try_catch, throw. rewrite rendered_attempt_run; simpl.
    exists [AxiosGet (removeHashFromUrl P url); Puppeteer url].
    destruct (match puppeteer_session E _ url with inl _ => _ | inr _ => _ end);
      simpl; rewrite <- app_assoc; auto 10.
  - unfold bind, lift.
    destruct (findMenuImages P html url) as [e|images].
    + unfold try_catch, throw. rewrite rendered_attempt_run; simpl.
      exists [AxiosGet (removeHashFromUrl P url); Puppeteer url].
      destruct (match puppeteer_session E _ url with inl _ => _ | inr _ => _ end);
        simpl; rewrite <- app_assoc; auto 10.
    + destruct (hasMenuContent P (extractTextContent P html) images); simpl.
      * exists [AxiosGet (removeHashFromUrl P url)]; auto 10.
      * rewrite orb_true_r. rewrite rendered_attempt_run; simpl.
        destruct (match puppeteer_session E _ url with inl _ => _ | inr _ => _ end)
          as [e1|r]; simpl.
        -- unfold try_catch, throw. rewrite rendered_attempt_run; simpl.
           exists [AxiosGet (removeHashFromUrl P url); Puppeteer url; Puppeteer url].
           destruct (match puppeteer_session E _ url with inl _ => _ | inr _ => _ end);
             simpl; rewrite <- !app_assoc; auto 10.
        -- exists [AxiosGet (removeHashFromUrl P url); Puppeteer url].
           rewrite <- app_assoc; auto 10.
Qed.

(** X14.  One scrape costs one HTTP request, for the URL without its
    fragment, and at most two browser sessions, each on the URL as
    given; it never calls the language model and never touches the
    cache. *)
Theorem scrape_call_budget (url : jsstring) (w : world) :
  exists t,
    snd (scrapeMenuPageWithImages P E url w) = mkWorld (trace w ++ t) (cache w)
    /\ static_targets t = [removeHashFromUrl P url]
    /\ (rendered_targets t = [] \/ rendered_targets t = [url]
        \/ rendered_targets t = [url; url])
    /\ cache_keys t = [] /\ extraction_dates t = [].
Proof. apply scrape_events. Qed.

(** X15.  A scrape gives up only after the browser has been tried, and
    what it then throws is always an [Error] whose message starts with
    "Failed to fetch page: ". *)
Theorem scrape_fails_only_after_the_browser (url : jsstring) (w : world) (e : thrown) :
  fst (scrapeMenuPageWithImages P E url w) = inl e ->
  (exists m, e = Error (js "Failed to fetch page: " ++ m))
  /\ In url (rendered_targets (trace (snd (scrapeMenuPageWithImages P E url w)))).
Proof.
  assert (A : forall t, In url (rendered_targets (t ++ [Puppeteer url]))).
  { induction t as [|[] t IH]; simpl; auto. }
  destruct (scrapeMenuPageWithImages P E url w) as [r w'] eqn:S; simpl.
  intros ->. revert S.
  unfold scrapeMenuPageWithImages, try_catch at 1, bind at 1.
  destruct (fetchPageContent P E url w) as [[e0|html] w1].
  - unfold try_catch, throw. rewrite rendered_attempt_run; simpl.
    destruct (match puppeteer_session E _ url with inl _ => _ | inr _ => _ end);
      simpl; [|discriminate].
    intros H; injection H as <- <-. split; [eauto|apply A].
  - unfold bind, lift.
    destruct (findMenuImages P html url) as [e0|images].
    + unfold try_catch, throw. rewrite rendered_attempt_run; simpl.
      destruct (match puppeteer_session E _ url with inl _ => _ | inr _ => _ end);
        simpl; [|discriminate].
      intros H; injection H as <- <-. split; [eauto|apply A].
    + destruct (hasMenuContent P (extractTextContent P html) images); simpl;
        [discriminate|].
      rewrite orb_true_r. rewrite rendered_attempt_run; simpl.
      destruct (match puppeteer_session E _ url with inl _ => _ | inr _ => _ end)
        as [e1|r]; simpl; [|discriminate].
      unfold try_catch, throw. rewrite rendered_attempt_run; simpl.
      destruct (match puppeteer_session E _ url with inl _ => _ | inr _ => _ end);
        simpl; [|discriminate].
      intros H; injection H as <- <-. split; [eauto|apply A].
Qed.

End ScraperProperties.

Section ScraperPropertiesWitnesses.
Import ScraperService Reference.


Lemma static_fetch_refuses_other_statuses_witness :
  204%Z <> 200%Z
  /\ axios_get no_content (trace start) (removeHashFromUrl (platform CEST) url)
     = inr (204%Z, [])
  /\ fst (fetchPageContent (platform CEST) no_content url start)
     = inl (Error (js "Failed to fetch page: " ++ js "Failed to fetch page: HTTP "
                   ++ number_to_string 204)).
Proof.
  assert (H1 : 204%Z <> 200%Z) by discriminate.
  assert (H2 : axios_get no_content (trace start) (removeHashFromUrl (platform CEST) url)
               = inr (204%Z, []))
    by (vm_compute; reflexivity).
  exact (conj H1 (conj H2 (@static_fetch_refuses_other_statuses (platform CEST) no_content
                             url start 204%Z [] H1 H2))).
Defined.

Lemma scrape_fails_only_after_the_browser_witness :
  fst (scrapeMenuPageWithImages (platform CEST) unrenderable url start)
    = inl (Error (js "Failed to fetch page: Failed to fetch page with Puppeteer: Navigation timeout of 20000 ms exceeded"))
  /\ (exists m, Error (js "Failed to fetch page: Failed to fetch page with Puppeteer: Navigation timeout of 20000 ms exceeded")
                = Error (js "Failed to fetch page: " ++ m))
  /\ In url (rendered_targets
               (trace (snd (scrapeMenuPageWithImages (platform CEST) unrenderable url start)))).
Proof.
  assert (H : fst (scrapeMenuPageWithImages (platform CEST) unrenderable url start)
              = inl (Error (js "Failed to fetch page: Failed to fetch page with Puppeteer: Navigation timeout of 20000 ms exceeded")))
    by (vm_compute; reflexivity).
  exact (conj H (@scrape_fails_only_after_the_browser (platform CEST) unrenderable url
                   start _ H)).
Defined.

End ScraperPropertiesWitnesses.

Section Classifier.
Import ScraperService.

Lemma skip_split (p : N -> bool) (s : jsstring) :
  exists a, s = a ++ skip p s /\ forallb p a = true.
Proof.
  induction s as [|c s (a & H & F)]; simpl.
  - exists []. auto.
  - destruct (p c) eqn:Pc.
    + exists (c :: a). simpl. rewrite Pc, F. split; [f_equal; exact H|reflexivity].
    + exists []. auto.
Qed.

Lemma skip_all (p : N -> bool) (a b : jsstring) :
  forallb p a = true -> skip p (a ++ b) = skip p b.
Proof.
  induction a as [|c a IH]; simpl; [reflexivity|].
  intros H. apply andb_prop in H as [-> H]. auto.
Qed.

Lemma skip_stops (p : N -> bool) (c : N) (s : jsstring) :
  p c = false -> skip p (c :: s) = c :: s.
Proof. intros H; simpl; rewrite H; reflexivity. Qed.

Lemma white_space_is_no_digit (c : N) : isWhiteSpace c = true -> isDigit c = false.
Proof.
  intros W. destruct (isDigit c) eqn:D; [|reflexivity]. exfalso.
  unfold isDigit in D. apply andb_prop in D as [D1 D2].
  apply N.leb_le in D1, D2.
  unfold isWhiteSpace in W.
  repeat (apply orb_prop in W; destruct W as [W|W]);
    repeat match goal with
           | H : (_ && _) = true |- _ => apply andb_prop in H; destruct H
           | H : (_ <=? _)%N = true |- _ => apply N.leb_le in H
           | H : (_ =? _)%N = true |- _ => apply N.eqb_eq in H
           end; lia.
Qed.

Lemma price_suffix_head (c1 c2 : N) (post : jsstring) :
  price_suffix (c1 :: c2 :: post) = true ->
  isDigit c1 = false /\ isWhiteSpace c1 = false.
Proof.
  unfold price_suffix. intros H.
  assert (C : c1 = 107%N \/ c1 = 75%N \/ c1 = 44%N).
  { repeat (apply orb_prop in H; destruct H as [H|H]);
      apply andb_prop in H as [H _];
      try (apply orb_prop in H; destruct H as [H|H]);
      apply N.eqb_eq in H; auto. }
  destruct C as [-> | [-> | ->]]; split; reflexivity.
Qed.

(** X16.  The price pattern of the classifier, [/\d+\s*(kč|kc|,-)/i],
    finds a match in a text exactly when the text contains a run of one
    or more digits, then any white space, then [kč], [kc] or [,-] in
    either case. *)
Theorem price_match_finds_digits_then_currency (text : jsstring) :
  price_match text = true
  <-> exists pre ds ws c1 c2 post,
        text = pre ++ ds ++ ws ++ c1 :: c2 :: post
        /\ ds <> [] /\ forallb isDigit ds = true /\ forallb isWhiteSpace ws = true
        /\ price_suffix [c1; c2] = true.
Proof.
  split.
  - induction text as [|c r IH]; [discriminate|].
    intros H. simpl in H. apply orb_prop in H as [H|H].
    + apply andb_prop in H as [Dc H].
      destruct (skip_split isDigit r) as (ds & Hr & Fd).
      destruct (skip_split isWhiteSpace (skip isDigit r)) as (ws & Hs & Fw).
      destruct (skip isWhiteSpace (skip isDigit r)) as [|c1 [|c2 post]];
        try discriminate H.
      exists [], (c :: ds), ws, c1, c2, post.
      repeat split; simpl.
      * rewrite Hr at 1. rewrite Hs. reflexivity.
      * discriminate.
      * rewrite Dc, Fd; reflexivity.
      * exact Fw.
      * exact H.
    + destruct (IH H) as (pre & ds & ws & c1 & c2 & post & E & R).
      exists (c :: pre), ds, ws, c1, c2, post. split; [simpl; f_equal; exact E|exact R].
  - intros (pre & ds & ws & c1 & c2 & post & -> & Hne & Fd & Fw & S).
    induction pre as [|x pre IH]; simpl.
    + destruct ds as [|d ds]; [congruence|simpl in *].
      apply andb_prop in Fd as [Dd Fd].
      assert (S' : price_suffix (c1 :: c2 :: post) = true) by exact S.
      destruct (price_suffix_head c1 c2 post S') as [N1 N2].
      apply orb_true_iff; left. rewrite Dd; simpl.
      rewrite (skip_all isDigit ds _ Fd).
      assert (K : skip isDigit (ws ++ c1 :: c2 :: post) = ws ++ c1 :: c2 :: post).
      { destruct ws as [|x ws]; simpl.
        - rewrite N1; reflexivity.
        - simpl in Fw. apply andb_prop in Fw as [Wx _].
          rewrite (white_space_is_no_digit x Wx); reflexivity. }
      rewrite K, (skip_all isWhiteSpace ws _ Fw), (skip_stops isWhiteSpace _ _ N2).
      exact S'.
    + apply orb_true_iff; right. destruct (pre ++ ds ++ ws ++ c1 :: c2 :: post) eqn:X.
      * destruct pre, ds; simpl in X; try discriminate; congruence.
      * exact IH.
Qed.

End Classifier.

Section TextNormalForm.
Import ScraperService.

Lemma collapse_head (s : jsstring) :
  match s with
  | [] => collapse_whitespace s = []
  | c :: _ => exists r, collapse_whitespace s = (if isWhiteSpace c then 32%N else c) :: r
  end.
Proof.
  induction s as [|c s IH]; [reflexivity|].
  change (collapse_whitespace (c :: s))
    with (if isWhiteSpace c
          then match s with
               | [] => [32%N]
               | d :: _ => if isWhiteSpace d then collapse_whitespace s
                           else 32%N :: collapse_whitespace s
               end
          else c :: collapse_whitespace s).
  destruct (isWhiteSpace c) eqn:Wc; [|eauto].
  destruct s as [|d s']; [eauto|].
  destruct (isWhiteSpace d) eqn:Wd; [|eauto].
  exact IH.
Qed.

Lemma collapse_is_single_spaced (s : jsstring) :
  single_spaced (collapse_whitespace s) = true.
Proof.
  induction s as [|c s IH]; [reflexivity|].
  change (collapse_whitespace (c :: s))
    with (if isWhiteSpace c
          then match s with
               | [] => [32%N]
               | d :: _ => if isWhiteSpace d then collapse_whitespace s
                           else 32%N :: collapse_whitespace s
               end
          else c :: collapse_whitespace s).
  destruct (isWhiteSpace c) eqn:Wc.
  - destruct s as [|d s']; [reflexivity|].
    destruct (isWhiteSpace d) eqn:Wd; [exact IH|].
    pose proof (collapse_head (d :: s')) as (r & Hr). rewrite Wd in Hr.
    rewrite Hr in *. cbn [single_spaced] in *. rewrite Wd in *.
    rewrite IH. reflexivity.
  - cbn [single_spaced]. rewrite Wc, IH. reflexivity.
Qed.

Lemma single_spaced_app (a b : jsstring) :
  single_spaced (a ++ b) = true -> single_spaced a = true /\ single_spaced b = true.
Proof.
  induction a as [|c a IH]; simpl; [auto|].
  intros H. apply andb_prop in H as [H H3]. apply andb_prop in H as [H1 H2].
  destruct (IH H3) as [Ha Hb]. split; [|exact Hb].
  rewrite H1, Ha. destruct a as [|x a]; simpl in *.
  - destruct (isWhiteSpace c); reflexivity.
  - rewrite H2. reflexivity.
Qed.

Lemma single_spaced_has_no_line_feed (s : jsstring) :
  single_spaced s = true -> forallb (fun c => negb (c =? 10)%N) s = true.
Proof.
  induction s as [|c s IH]; simpl; [reflexivity|].
  intros H. apply andb_prop in H as [H H3]. apply andb_prop in H as [H1 _].
  rewrite (IH H3), andb_true_r.
  destruct (c =? 10)%N eqn:X; [|reflexivity].
  apply N.eqb_eq in X; subst c. discriminate H1.
Qed.

Lemma replace_blank_lines_without_line_feed (fuel : nat) (s : jsstring) :
  forallb (fun c => negb (c =? 10)%N) s = true ->
  replace_blank_lines_fuel fuel s = s.
Proof.
  revert s; induction fuel as [|fuel IH]; intros [|c s]; simpl; try reflexivity.
  intros H. apply andb_prop in H as [H1 H2].
  apply negb_true_iff in H1. rewrite H1, (IH s H2). reflexivity.
Qed.

Lemma skip_head (p : N -> bool) (s : jsstring) (c : N) (r : jsstring) :
  skip p s = c :: r -> p c = false.
Proof.
  induction s as [|x s IH]; simpl; [discriminate|].
  destruct (p x) eqn:Px; [exact IH|].
  intros H; injection H as -> _. exact Px.
Qed.

Lemma trim_is_a_middle (s : jsstring) :
  exists a b, s = a ++ trim s ++ b /\ trimStart s = trim s ++ b.
Proof.
  unfold trim, trimStart.
  destruct (skip_split isWhiteSpace s) as (a & Hs & _).
  destruct (skip_split isWhiteSpace (rev (skip isWhiteSpace s))) as (b & Hr & _).
  exists a, (rev b).
  assert (E : skip isWhiteSpace s
              = rev (skip isWhiteSpace (rev (skip isWhiteSpace s))) ++ rev b).
  { rewrite <- rev_app_distr, <- Hr, rev_involutive. reflexivity. }
  split; [|exact E]. rewrite <- E. exact Hs.
Qed.

Lemma trim_is_trimmed (s : jsstring) : trimmed (trim s) = true.
Proof.
  destruct (trim_is_a_middle s) as (a & b & _ & E).
  unfold trim, trimStart in *.
  set (s1 := skip isWhiteSpace s) in *.
  destruct (skip isWhiteSpace (rev s1)) as [|x X] eqn:K; [reflexivity|].
  pose proof (skip_head _ _ K) as Wx.
  simpl rev in *. unfold trimmed.
  destruct (rev X ++ [x]) as [|c t] eqn:T; [reflexivity|].
  assert (L : last (c :: t) c = x).
  { rewrite <- T. apply last_last. }
  rewrite L, Wx.
  assert (Wc : isWhiteSpace c = false).
  { simpl in E. subst s1. eapply skip_head; exact E. }
  rewrite Wc. reflexivity.
Qed.

(** X17.  The text that [extractTextContent] returns is normalized: the
    only white space in it is the space U+0020, never two in a row, and
    none at its start or end.  (No line feed survives the first
    replacement, so the second, of blank lines, changes nothing.) *)
Theorem extracted_text_is_normalized (P : Platform) (html : jsstring) :
  single_spaced (extractTextContent P html) = true
  /\ trimmed (extractTextContent P html) = true.
Proof.
  unfold extractTextContent.
  match goal with |- context [collapse_whitespace ?x] => set (combined := x) end.
  assert (S : single_spaced (collapse_whitespace combined) = true)
    by apply collapse_is_single_spaced.
  unfold replace_blank_lines.
  rewrite replace_blank_lines_without_line_feed
    by (apply single_spaced_has_no_line_feed; exact S).
  split; [|apply trim_is_trimmed].
  destruct (trim_is_a_middle (collapse_whitespace combined)) as (a & b & E & _).
  rewrite E in S. apply single_spaced_app in S as [_ S].
  apply single_spaced_app in S as [S _]. exact S.
Qed.

End TextNormalForm.

Section Images.
Import ScraperService.

Lemma menu_image_found (P : Platform) (baseUrl : jsstring) (elem : img) (u : jsstring) :
  menu_image P baseUrl elem = inr (Some u) ->
  exists src, or_else (attr_src elem) (attr_data_src elem) = Some src /\ src <> []
              /\ (if startsWith (js "http") src then u = src
                  else URL_resolve P src baseUrl = Some u).
Proof.
  unfold menu_image.
  destruct (or_else (attr_src elem) (attr_data_src elem)) as [[|c s]|]; try discriminate.
  match goal with |- context [if ?b then _ else inr None] => destruct b end;
    [|discriminate].
  intros H. exists (c :: s). split; [reflexivity|]. split; [discriminate|].
  destruct (startsWith (js "http") (c :: s)).
  - injection H as ->; reflexivity.
  - destruct (URL_resolve P (c :: s) baseUrl); [injection H as ->; reflexivity|discriminate].
Qed.

Lemma collected_images (P : Platform) (baseUrl : jsstring) (elems : list img) :
  forall images, collect_menu_images P baseUrl elems = inr images ->
  (List.length images <= List.length elems)%nat
  /\ Forall (fun u => exists elem src,
               In elem elems
               /\ or_else (attr_src elem) (attr_data_src elem) = Some src /\ src <> []
               /\ (if startsWith (js "http") src then u = src
                   else URL_resolve P src baseUrl = Some u)) images.
Proof.
  induction elems as [|elem rest IH]; simpl; intros images H.
  - injection H as <-. split; [simpl; lia|constructor].
  - destruct (menu_image P baseUrl elem) as [e|found] eqn:M; [discriminate|].
    destruct (collect_menu_images P baseUrl rest) as [e|l]; [discriminate|].
    destruct (IH l eq_refl) as [L F].
    assert (F' : Forall (fun u => exists elem0 src,
                   (elem = elem0 \/ In elem0 rest)
                   /\ or_else (attr_src elem0) (attr_data_src elem0) = Some src /\ src <> []
                   /\ (if startsWith (js "http") src then u = src
                       else URL_resolve P src baseUrl = Some u)) l).
    { eapply Forall_impl; [|exact F].
      intros u (elem0 & src & Hin & R). exists elem0, src. tauto. }
    injection H as <-. destruct found as [u|]; simpl.
    + split; [simpl; lia|]. constructor; [|exact F'].
      destruct (menu_image_found P baseUrl elem M) as (src & R).
      exists elem, src. tauto.
    + split; [simpl; lia|exact F'].
Qed.

(** X18.  When [findMenuImages] returns, it returns no more URLs than
    the page has [img] elements, and each of them comes from an element
    with a non-empty [src] (or, failing that, [data-src]): that value
    as it is when it starts with [http], and otherwise what resolving it
    against the base URL gives. *)
Theorem found_images_come_from_the_page (P : Platform) (html baseUrl : jsstring)
    (images : list jsstring) :
  findMenuImages P html baseUrl = inr images ->
  (List.length images <= List.length (cheerio_imgs P html))%nat
  /\ Forall (fun u => exists elem src,
               In elem (cheerio_imgs P html)
               /\ or_else (attr_src elem) (attr_data_src elem) = Some src /\ src <> []
               /\ (if startsWith (js "http") src then u = src
                   else URL_resolve P src baseUrl = Some u)) images.
Proof. unfold findMenuImages. apply collected_images. Qed.

Lemma found_images_come_from_the_page_witness :
  findMenuImages Reference.gallery [] Reference.url
    = inr [js "https://example.com/img/denni-listek.jpg"]
  /\ (List.length [js "https://example.com/img/denni-listek.jpg"]
      <= List.length (cheerio_imgs Reference.gallery []))%nat
  /\ Forall (fun u => exists elem src,
               In elem (cheerio_imgs Reference.gallery [])
               /\ or_else (attr_src elem) (attr_data_src elem) = Some src /\ src <> []
               /\ (if startsWith (js "http") src then u = src
                   else URL_resolve Reference.gallery src Reference.url = Some u))
            [js "https://example.com/img/denni-listek.jpg"].
Proof.
  assert (H : findMenuImages Reference.gallery [] Reference.url
              = inr [js "https://example.com/img/denni-listek.jpg"])
    by (vm_compute; reflexivity).
  exact (conj H (@found_images_come_from_the_page Reference.gallery [] Reference.url
                   [js "https://example.com/img/denni-listek.jpg"] H)).
Defined.

End Images.

(** ** More of the orchestrator *)

Section ServiceRuns.
Import ScraperService MenuService.
Variable P : Platform.
Variable E : Env.

(** A request, step by step. *)
Lemma summarizeMenu_run (url : jsstring) (date : option jsstring) (w : world) :
  summarizeMenu P E url date w
  = let td := targetDate date (clock E (trace w)) in
    let g := CacheService.get (sqlite_order E (trace w)) (clock E (trace w)) url td (cache w) in
    let w1 := mkWorld (trace w ++ [CacheGet url td]) (snd g) in
    if truthy (fst g) then (inr (fst g), w1)
    else
      match scrapeMenuPageWithImages P E url w1 with
      | (inl e, w2) => (inl e, w2)
      | (inr (pageContent, menuImages), w2) =>
        match trim pageContent with
        | [] => (inl (Error (js "No content extracted from the page")), w2)
        | _ :: _ =>
          let images := match menuImages with [] => None | _ :: _ => Some menuImages end in
          let dayOfWeek := getDayOfWeek P td in
          let w3 := mkWorld (trace w2
                             ++ [LLMExtract pageContent url td dayOfWeek images])
                            (cache w2) in
          match openai E (trace w2) pageContent url td dayOfWeek images with
          | inl e => (inl e, w3)
          | inr menuData =>
            let menuSummary :=
              mkMenuSummary (reply_restaurant_name menuData) td dayOfWeek
                            (reply_menu_items menuData) (reply_daily_menu menuData) url in
            (inr (MenuSummary_value menuSummary),
             mkWorld (trace w3 ++ [CacheSet url td menuSummary])
                     (CacheService.set P (clock E (trace w3)) url td menuSummary
                                       (cache w3)))
          end
        end
      end.
Proof.
  unfold summarizeMenu.
  assert (T : forall k : jsstring -> M jsvalue,
            bind (match date with
                  | Some (c :: d) => ret (c :: d)
                  | _ => bind (now E) (fun t => ret (getCurrentDate t))
                  end) k w = k (targetDate date (clock E (trace w))) w).
  { intros k. unfold targetDate. destruct date as [[|c d]|]; reflexivity. }
  rewrite T. cbv zeta. set (td := targetDate date (clock E (trace w))).
  unfold bind at 1, cache_get.
  destruct (CacheService.get (sqlite_order E (trace w)) (clock E (trace w)) url td (cache w)) as [cached d1].
  simpl fst; simpl snd.
  destruct (truthy cached); [reflexivity|].
  unfold bind at 1.
  destruct (scrapeMenuPageWithImages P E url _) as [[e|[pageContent menuImages]] w2];
    [reflexivity|].
  destruct (trim pageContent) as [|c r]; [reflexivity|].
  unfold LLMService.extractMenu, bind, call, ret, cache_set; simpl.
  destruct (openai E _ _ _ _ _ _) as [e|menuData]; reflexivity.
Qed.

(** A lookup on a handle with nothing in flight and no error to come
    leaves what SQLite holds as it is, and at most the DELETE of an
    expired row in flight. *)
Lemma get_on_quiet (k : list nat) (now : Z) (url date : jsstring) (d : CacheService.db) :
  CacheService.faults d = [] -> CacheService.inflight d = [] ->
  CacheService.store_of (snd (CacheService.get k now url date d)) = CacheService.store_of d
  /\ (CacheService.inflight (snd (CacheService.get k now url date d)) = []
      \/ CacheService.inflight (snd (CacheService.get k now url date d))
         = [CacheService.DELETE url date]).
Proof.
  intros Hf Hq. unfold CacheService.get.
  rewrite (@sqlite_runs_nothing k d Hq).
  unfold CacheService.sql_select, CacheService.next_fault. rewrite Hf, Hq.
  destruct (find _ _) as [r|]; cbn [fst snd CacheService.store_of CacheService.inflight];
    [|auto].
  destruct (Z.geb now (CacheService.row_expires_at r)); cbn [fst snd]; [auto|].
  destruct (JSON.parse _); cbn [fst snd CacheService.store_of CacheService.inflight]; auto.
Qed.

(** What [set] wrote is what a [get] reads, while it is fresh, once
    SQLite has executed, in the order they were handed over and without
    error, the DELETE of an expired row, if one was in flight, and the
    INSERT. *)
Lemma get_after_set (now now' e : Z) (url date : jsstring) (p : MenuSummary)
    (d : CacheService.db) :
  CacheService.faults d = [] ->
  CacheService.inflight d = [] \/ CacheService.inflight d = [CacheService.DELETE url date] ->
  CacheService.getExpirationTimestamp P date = Some e -> (now' < e)%Z ->
  CacheService.get
    (repeat 0%nat (List.length (CacheService.inflight (CacheService.set P now url date p d))))
    now' url date (CacheService.set P now url date p d)
  = (JSON.written (MenuSummary_value p),
     CacheService.sqlite_runs
       (repeat 0%nat (List.length (CacheService.inflight (CacheService.set P now url date p d))))
       (CacheService.set P now url date p d))
  /\ CacheService.inflight
       (CacheService.sqlite_runs
          (repeat 0%nat
             (List.length (CacheService.inflight (CacheService.set P now url date p d))))
          (CacheService.set P now url date p d)) = [].
Proof.
  intros Hf Hq He Hlt.
  destruct d as [[rs n fs] fl]. cbn [CacheService.faults CacheService.inflight
                                       CacheService.store_of] in Hf, Hq. subst fs.
  assert (G : Z.geb now' e = false)
    by (rewrite Z.geb_leb; apply Z.leb_gt; lia).
  assert (K : forall i dat c x,
             CacheService.same_key url date
               (CacheService.mkRow i (CacheService.sql_text url) (CacheService.sql_text date)
                                   dat c x) = true).
  { intros; apply same_key_spec; simpl; auto. }
  unfold CacheService.get, CacheService.set. rewrite He.
  destruct Hq as [-> | ->];
    cbn [CacheService.db_run CacheService.inflight CacheService.store_of app List.length
         repeat CacheService.sqlite_runs fold_left CacheService.run_nth nth_error
         CacheService.remove_nth CacheService.execute CacheService.sql_insert_or_replace
         CacheService.sql_delete CacheService.sql_select CacheService.next_fault
         CacheService.faults CacheService.rows CacheService.seq fst snd];
    rewrite find_app_none by apply find_filter_none; cbn [find];
    rewrite K; cbn [CacheService.row_expires_at CacheService.row_data];
    rewrite G; split; reflexivity.
Qed.

(** A lookup that answers a value hands no statement to SQLite and
    leaves the rows as its SELECT found them. *)
Lemma a_hit_writes_nothing (k : list nat) (now : Z) (url date : jsstring)
    (d : CacheService.db) :
  truthy (fst (CacheService.get k now url date d)) = true ->
  CacheService.rows (snd (CacheService.get k now url date d))
  = CacheService.rows (CacheService.sqlite_runs k d)
  /\ CacheService.inflight (snd (CacheService.get k now url date d))
     = CacheService.inflight (CacheService.sqlite_runs k d).
Proof.
  unfold CacheService.get, CacheService.sql_select.
  pose proof (next_fault_rows (CacheService.sqlite_runs k d)) as R.
  destruct (CacheService.next_fault (CacheService.sqlite_runs k d)) as [[err|] t1];
    cbn [fst snd] in *; [discriminate|].
  destruct (find _ _) as [r|]; cbn [fst snd]; [|discriminate].
  destruct (Z.geb now (CacheService.row_expires_at r)); cbn [fst snd]; [discriminate|].
  destruct (JSON.parse _); cbn [fst snd]; [|discriminate].
  intros _. cbn [CacheService.store_of CacheService.inflight]. auto.
Qed.

(** X19.  A cache hit ends the request at once: the cached value is
    returned as it is, the only call made is the cache lookup, and
    neither the network, nor the browser, nor the language model is
    reached, nor is anything written to the cache: no statement is
    handed to SQLite and the rows are as the SELECT found them. *)
Theorem a_cache_hit_makes_no_other_call (url : jsstring) (date : option jsstring) (w : world) :
  truthy (fst (CacheService.get (sqlite_order E (trace w)) (clock E (trace w)) url
                 (targetDate date (clock E (trace w))) (cache w))) = true ->
  summarizeMenu P E url date w
  = (inr (fst (CacheService.get (sqlite_order E (trace w)) (clock E (trace w)) url
                 (targetDate date (clock E (trace w))) (cache w))),
     mkWorld (trace w ++ [CacheGet url (targetDate date (clock E (trace w)))])
             (snd (CacheService.get (sqlite_order E (trace w)) (clock E (trace w)) url
                     (targetDate date (clock E (trace w))) (cache w))))
  /\ CacheService.rows (cache (snd (summarizeMenu P E url date w)))
     = CacheService.rows (CacheService.sqlite_runs (sqlite_order E (trace w)) (cache w))
  /\ CacheService.inflight (cache (snd (summarizeMenu P E url date w)))
     = CacheService.inflight
         (CacheService.sqlite_runs (sqlite_order E (trace w)) (cache w)).
Proof.
  intros H. rewrite summarizeMenu_run. cbv zeta. rewrite H.
  split; [reflexivity|]. cbn [snd cache].
  apply a_hit_writes_nothing. exact H.
Qed.

(** X20.  When the scrape succeeds but its text is empty or only white
    space, the request fails with "No content extracted from the page"
    right after the scrape: the language model is not called and
    nothing is written to the cache. *)
Theorem empty_content_is_an_error (url : jsstring) (date : option jsstring) (w w2 : world)
    (pageContent : jsstring) (menuImages : list jsstring) :
  truthy (fst (CacheService.get (sqlite_order E (trace w)) (clock E (trace w)) url
                 (targetDate date (clock E (trace w))) (cache w))) = false ->
  scrapeMenuPageWithImages P E url
    (mkWorld (trace w ++ [CacheGet url (targetDate date (clock E (trace w)))])
             (snd (CacheService.get (sqlite_order E (trace w)) (clock E (trace w)) url
                     (targetDate date (clock E (trace w))) (cache w))))
  = (inr (pageContent, menuImages), w2) ->
  trim pageContent = [] ->
  summarizeMenu P E url date w
    = (inl (Error (js "No content extracted from the page")), w2)
  /\ extraction_dates (trace w2) = extraction_dates (trace w)
  /\ cache_keys (trace w2)
     = cache_keys (trace w) ++ [(url, targetDate date (clock E (trace w)))].
Proof.
  intros Hm Hs Ht. split.
  - rewrite summarizeMenu_run. cbv zeta. rewrite Hm, Hs, Ht. reflexivity.
  - destruct (scrape_events P E url
                (mkWorld (trace w ++ [CacheGet url (targetDate date (clock E (trace w)))])
                   (snd (CacheService.get (sqlite_order E (trace w)) (clock E (trace w)) url
                           (targetDate date (clock E (trace w))) (cache w)))))
      as (t & W & _ & _ & K & X).
    rewrite Hs in W; simpl in W; subst w2. simpl.
    assert (XA : forall a b, extraction_dates (a ++ b)
                             = extraction_dates a ++ extraction_dates b).
    { induction a as [|[] a IH]; simpl; intros; rewrite ?IH; reflexivity. }
    rewrite !XA, !cache_keys_app, K, X; simpl. rewrite !app_nil_r. auto.
Qed.

(** X21.  When the language model fails, the request fails with the
    very error it threw, and the cache is as the lookup left it: no menu
    is stored for the key. *)
Theorem a_failed_extraction_stores_nothing (url : jsstring) (date : option jsstring)
    (w w2 : world) (pageContent : jsstring) (menuImages : list jsstring) (e : thrown) :
  truthy (fst (CacheService.get (sqlite_order E (trace w)) (clock E (trace w)) url
                 (targetDate date (clock E (trace w))) (cache w))) = false ->
  scrapeMenuPageWithImages P E url
    (mkWorld (trace w ++ [CacheGet url (targetDate date (clock E (trace w)))])
             (snd (CacheService.get (sqlite_order E (trace w)) (clock E (trace w)) url
                     (targetDate date (clock E (trace w))) (cache w))))
  = (inr (pageContent, menuImages), w2) ->
  trim pageContent <> [] ->
  openai E (trace w2) pageContent url (targetDate date (clock E (trace w)))
         (getDayOfWeek P (targetDate date (clock E (trace w))))
         (match menuImages with [] => None | _ :: _ => Some menuImages end) = inl e ->
  fst (summarizeMenu P E url date w) = inl e
  /\ cache (snd (summarizeMenu P E url date w))
     = snd (CacheService.get (sqlite_order E (trace w)) (clock E (trace w)) url
              (targetDate date (clock E (trace w))) (cache w)).
Proof.
  intros Hm Hs Ht Ho.
  rewrite summarizeMenu_run. cbv zeta. rewrite Hm, Hs.
  destruct (trim pageContent) as [|c r]; [congruence|].
  rewrite Ho. simpl. split; [reflexivity|].
  destruct (scrape_events P E url
              (mkWorld (trace w ++ [CacheGet url (targetDate date (clock E (trace w)))])
                 (snd (CacheService.get (sqlite_order E (trace w)) (clock E (trace w)) url
                         (targetDate date (clock E (trace w))) (cache w)))))
    as (t & W & _).
  rewrite Hs in W; simpl in W; subst w2. reflexivity.
Qed.

(** X22.  A request that missed the cache and succeeded makes the same
    request a hit once SQLite has executed what the first request left
    in flight (the DELETE of an expired row, if there was one, then the
    INSERT), in that order: asked again for the same URL and date before
    the expiry of the date, with nothing in flight at the start, SQLite
    executing every statement without error and a summary that JSON
    writes as it is, the orchestrator returns the same value, makes no
    call but the cache lookup, and leaves nothing in flight. *)
Theorem a_second_request_is_served_from_the_cache (url date : jsstring) (w : world)
    (v : jsvalue) (e : Z) :
  date <> [] ->
  CacheService.faults (cache w) = [] ->
  CacheService.inflight (cache w) = [] ->
  truthy (fst (CacheService.get (sqlite_order E (trace w)) (clock E (trace w)) url date
                 (cache w))) = false ->
  fst (summarizeMenu P E url (Some date) w) = inr v ->
  JSON.written v = v ->
  CacheService.getExpirationTimestamp P date = Some e ->
  (clock E (trace (snd (summarizeMenu P E url (Some date) w))) < e)%Z ->
  sqlite_order E (trace (snd (summarizeMenu P E url (Some date) w)))
  = repeat 0%nat
      (List.length (CacheService.inflight (cache (snd (summarizeMenu P E url (Some date) w))))) ->
  summarizeMenu P E url (Some date) (snd (summarizeMenu P E url (Some date) w))
  = (inr v,
     mkWorld (trace (snd (summarizeMenu P E url (Some date) w)) ++ [CacheGet url date])
             (CacheService.sqlite_runs
                (sqlite_order E (trace (snd (summarizeMenu P E url (Some date) w))))
                (cache (snd (summarizeMenu P E url (Some date) w)))))
  /\ CacheService.inflight
       (CacheService.sqlite_runs
          (sqlite_order E (trace (snd (summarizeMenu P E url (Some date) w))))
          (cache (snd (summarizeMenu P E url (Some date) w)))) = [].
Proof.
  intros Hd Hf Hq Hm Hv Hw He Hlt Ho.
  assert (TD : forall t, targetDate (Some date) t = date).
  { intros t. destruct date; [congruence|reflexivity]. }
  revert Hv Hlt Ho. rewrite (summarizeMenu_run url (Some date) w). cbv zeta.
  rewrite !TD, Hm.
  destruct (@get_on_quiet (sqlite_order E (trace w)) (clock E (trace w)) url date
              (cache w) Hf Hq) as (Gs & Gi).
  set (g := CacheService.get (sqlite_order E (trace w)) (clock E (trace w)) url date
              (cache w)) in *.
  destruct (scrape_events P E url (mkWorld (trace w ++ [CacheGet url date]) (snd g)))
    as (t & W & _).
  destruct (scrapeMenuPageWithImages P E url _) as [[e0|[pageContent menuImages]] w2];
    [discriminate|].
  simpl in W; subst w2.
  destruct (trim pageContent) as [|c r]; [discriminate|].
  destruct (openai E _ _ _ _ _ _) as [e0|menuData]; [discriminate|].
  cbn [fst snd trace cache]. intros Hv Hlt Ho. injection Hv as Hv.
  rewrite summarizeMenu_run. cbv zeta. rewrite !TD. cbn [trace cache].
  assert (G : CacheService.faults (snd g) = []).
  { change (CacheService.faults (CacheService.store_of (snd g)) = []).
    rewrite Gs. exact Hf. }
  rewrite Ho.
  match goal with
  | |- context [CacheService.get _ ?n url date (CacheService.set P ?m url date ?p (snd g))] =>
    assert (X : (n < e)%Z) by exact Hlt;
    destruct (@get_after_set m n e url date p (snd g) G Gi He X) as (A & B)
  end.
  rewrite A. cbn [fst snd].
  rewrite Hv, Hw.
  assert (TV : truthy v = true) by (rewrite <- Hv; reflexivity).
  rewrite TV. split; [reflexivity|exact B].
Qed.

End ServiceRuns.

Section ServiceRunsWitnesses.
Import ScraperService MenuService.

Lemma a_cache_hit_makes_no_other_call_witness :
  truthy (fst (CacheService.get (sqlite_order Reference.quiet (trace (mkWorld [] Reference.stored)))
          (clock Reference.quiet (trace (mkWorld [] Reference.stored))) Reference.url
          (targetDate (Some Reference.day)
             (clock Reference.quiet (trace (mkWorld [] Reference.stored))))
          (cache (mkWorld [] Reference.stored)))) = true
  /\ (summarizeMenu (Reference.platform Reference.CEST) Reference.quiet Reference.url
          (Some Reference.day) (mkWorld [] Reference.stored)
      = (inr (fst (CacheService.get (sqlite_order Reference.quiet (trace (mkWorld [] Reference.stored)))
          (clock Reference.quiet (trace (mkWorld [] Reference.stored))) Reference.url
          (targetDate (Some Reference.day)
             (clock Reference.quiet (trace (mkWorld [] Reference.stored))))
          (cache (mkWorld [] Reference.stored)))),
         mkWorld (trace (mkWorld [] Reference.stored)
                  ++ [CacheGet Reference.url
                        (targetDate (Some Reference.day)
                           (clock Reference.quiet (trace (mkWorld [] Reference.stored))))])
                 (snd (CacheService.get (sqlite_order Reference.quiet (trace (mkWorld [] Reference.stored)))
          (clock Reference.quiet (trace (mkWorld [] Reference.stored))) Reference.url
          (targetDate (Some Reference.day)
             (clock Reference.quiet (trace (mkWorld [] Reference.stored))))
          (cache (mkWorld [] Reference.stored)))))
      /\ CacheService.rows (cache (snd (summarizeMenu (Reference.platform Reference.CEST) Reference.quiet Reference.url
          (Some Reference.day) (mkWorld [] Reference.stored))))
         = CacheService.rows
             (CacheService.sqlite_runs
                (sqlite_order Reference.quiet (trace (mkWorld [] Reference.stored)))
                (cache (mkWorld [] Reference.stored)))
      /\ CacheService.inflight (cache (snd (summarizeMenu (Reference.platform Reference.CEST) Reference.quiet Reference.url
          (Some Reference.day) (mkWorld [] Reference.stored))))
         = CacheService.inflight
             (CacheService.sqlite_runs
                (sqlite_order Reference.quiet (trace (mkWorld [] Reference.stored)))
                (cache (mkWorld [] Reference.stored)))).
Proof.
  assert (H : truthy (fst (CacheService.get (sqlite_order Reference.quiet (trace (mkWorld [] Reference.stored)))
          (clock Reference.quiet (trace (mkWorld [] Reference.stored))) Reference.url
          (targetDate (Some Reference.day)
             (clock Reference.quiet (trace (mkWorld [] Reference.stored))))
          (cache (mkWorld [] Reference.stored)))) = true)
    by (vm_compute; reflexivity).
  exact (conj H (@a_cache_hit_makes_no_other_call (Reference.platform Reference.CEST)
                   Reference.quiet Reference.url (Some Reference.day)
                   (mkWorld [] Reference.stored) H)).
Defined.

Lemma empty_content_is_an_error_witness :
  truthy (fst (CacheService.get (sqlite_order Reference.blank (trace Reference.start)) (clock Reference.blank (trace Reference.start)) Reference.url
       (targetDate (Some Reference.day) (clock Reference.blank (trace Reference.start)))
       (cache Reference.start))) = false
  /\ scrapeMenuPageWithImages (Reference.platform Reference.CEST) Reference.blank Reference.url
      (mkWorld (trace Reference.start ++ [CacheGet Reference.url (targetDate (Some Reference.day) (clock Reference.blank (trace Reference.start)))])
       (snd (CacheService.get (sqlite_order Reference.blank (trace Reference.start)) (clock Reference.blank (trace Reference.start)) Reference.url
       (targetDate (Some Reference.day) (clock Reference.blank (trace Reference.start)))
       (cache Reference.start))))
    = (inr ([], []), (mkWorld [CacheGet Reference.url Reference.day; AxiosGet Reference.url;
             Puppeteer Reference.url] CacheService.empty))
  /\ trim (@nil N) = []
  /\ (summarizeMenu (Reference.platform Reference.CEST) Reference.blank Reference.url (Some Reference.day) Reference.start
      = (inl (Error (js "No content extracted from the page")), (mkWorld [CacheGet Reference.url Reference.day; AxiosGet Reference.url;
             Puppeteer Reference.url] CacheService.empty))
     /\ extraction_dates (trace (mkWorld [CacheGet Reference.url Reference.day; AxiosGet Reference.url;
             Puppeteer Reference.url] CacheService.empty)) = extraction_dates (trace Reference.start)
     /\ cache_keys (trace (mkWorld [CacheGet Reference.url Reference.day; AxiosGet Reference.url;
             Puppeteer Reference.url] CacheService.empty))
        = cache_keys (trace Reference.start) ++ [(Reference.url, (targetDate (Some Reference.day) (clock Reference.blank (trace Reference.start))))]).
Proof.
  assert (H1 : truthy (fst (CacheService.get (sqlite_order Reference.blank (trace Reference.start)) (clock Reference.blank (trace Reference.start)) Reference.url
       (targetDate (Some Reference.day) (clock Reference.blank (trace Reference.start)))
       (cache Reference.start))) = false)
    by (vm_compute; reflexivity).
  assert (H2 : scrapeMenuPageWithImages (Reference.platform Reference.CEST) Reference.blank Reference.url
      (mkWorld (trace Reference.start ++ [CacheGet Reference.url (targetDate (Some Reference.day) (clock Reference.blank (trace Reference.start)))])
       (snd (CacheService.get (sqlite_order Reference.blank (trace Reference.start)) (clock Reference.blank (trace Reference.start)) Reference.url
       (targetDate (Some Reference.day) (clock Reference.blank (trace Reference.start)))
       (cache Reference.start))))
    = (inr ([], []), (mkWorld [CacheGet Reference.url Reference.day; AxiosGet Reference.url;
             Puppeteer Reference.url] CacheService.empty)))
    by (vm_compute; reflexivity).
  assert (H3 : trim (@nil N) = []) by reflexivity.
  exact (conj H1 (conj H2 (conj H3
           (@empty_content_is_an_error (Reference.platform Reference.CEST) Reference.blank Reference.url (Some Reference.day)
              Reference.start (mkWorld [CacheGet Reference.url Reference.day; AxiosGet Reference.url;
             Puppeteer Reference.url] CacheService.empty) [] [] H1 H2 H3)))).
Defined.

Lemma a_failed_extraction_stores_nothing_witness :
  truthy (fst (CacheService.get (sqlite_order Reference.rate_limited (trace Reference.start)) (clock Reference.rate_limited (trace Reference.start)) Reference.url
       (targetDate (Some Reference.day) (clock Reference.rate_limited (trace Reference.start)))
       (cache Reference.start))) = false
  /\ scrapeMenuPageWithImages (Reference.platform Reference.CEST) Reference.rate_limited Reference.url
      (mkWorld (trace Reference.start ++ [CacheGet Reference.url (targetDate (Some Reference.day) (clock Reference.rate_limited (trace Reference.start)))])
       (snd (CacheService.get (sqlite_order Reference.rate_limited (trace Reference.start)) (clock Reference.rate_limited (trace Reference.start)) Reference.url
       (targetDate (Some Reference.day) (clock Reference.rate_limited (trace Reference.start)))
       (cache Reference.start))))
    = (inr (js "Soup 45 Kc", []), (mkWorld [CacheGet Reference.url Reference.day; AxiosGet Reference.url] CacheService.empty))
  /\ trim (js "Soup 45 Kc") <> []
  /\ openai Reference.rate_limited (trace (mkWorld [CacheGet Reference.url Reference.day; AxiosGet Reference.url] CacheService.empty)) (js "Soup 45 Kc") Reference.url (targetDate (Some Reference.day) (clock Reference.rate_limited (trace Reference.start)))
      (getDayOfWeek (Reference.platform Reference.CEST) (targetDate (Some Reference.day) (clock Reference.rate_limited (trace Reference.start))))
      (match @nil jsstring with [] => None | _ :: _ => Some [] end)
    = inl (Error (js "OpenAI API error: 429 Too Many Requests"))
  /\ (fst (summarizeMenu (Reference.platform Reference.CEST) Reference.rate_limited Reference.url (Some Reference.day) Reference.start)
      = inl (Error (js "OpenAI API error: 429 Too Many Requests"))
     /\ cache (snd (summarizeMenu (Reference.platform Reference.CEST) Reference.rate_limited Reference.url (Some Reference.day)
                      Reference.start))
        = snd (CacheService.get (sqlite_order Reference.rate_limited (trace Reference.start)) (clock Reference.rate_limited (trace Reference.start)) Reference.url
       (targetDate (Some Reference.day) (clock Reference.rate_limited (trace Reference.start)))
       (cache Reference.start))).
Proof.
  assert (H1 : truthy (fst (CacheService.get (sqlite_order Reference.rate_limited (trace Reference.start)) (clock Reference.rate_limited (trace Reference.start)) Reference.url
       (targetDate (Some Reference.day) (clock Reference.rate_limited (trace Reference.start)))
       (cache Reference.start))) = false)
    by (vm_compute; reflexivity).
  assert (H2 : scrapeMenuPageWithImages (Reference.platform Reference.CEST) Reference.rate_limited Reference.url
      (mkWorld (trace Reference.start ++ [CacheGet Reference.url (targetDate (Some Reference.day) (clock Reference.rate_limited (trace Reference.start)))])
       (snd (CacheService.get (sqlite_order Reference.rate_limited (trace Reference.start)) (clock Reference.rate_limited (trace Reference.start)) Reference.url
       (targetDate (Some Reference.day) (clock Reference.rate_limited (trace Reference.start)))
       (cache Reference.start))))
    = (inr (js "Soup 45 Kc", []), (mkWorld [CacheGet Reference.url Reference.day; AxiosGet Reference.url] CacheService.empty)))
    by (vm_compute; reflexivity).
  assert (H3 : trim (js "Soup 45 Kc") <> []) by (vm_compute; discriminate).
  assert (H4 : openai Reference.rate_limited (trace (mkWorld [CacheGet Reference.url Reference.day; AxiosGet Reference.url] CacheService.empty)) (js "Soup 45 Kc") Reference.url (targetDate (Some Reference.day) (clock Reference.rate_limited (trace Reference.start)))
      (getDayOfWeek (Reference.platform Reference.CEST) (targetDate (Some Reference.day) (clock Reference.rate_limited (trace Reference.start))))
      (match @nil jsstring with [] => None | _ :: _ => Some [] end)
    = inl (Error (js "OpenAI API error: 429 Too Many Requests")))
    by (vm_compute; reflexivity).
  exact (conj H1 (conj H2 (conj H3 (conj H4
           (@a_failed_extraction_stores_nothing (Reference.platform Reference.CEST) Reference.rate_limited Reference.url
              (Some Reference.day) Reference.start (mkWorld [CacheGet Reference.url Reference.day; AxiosGet Reference.url] CacheService.empty) (js "Soup 45 Kc") []
              (Error (js "OpenAI API error: 429 Too Many Requests")) H1 H2 H3 H4))))).
Defined.

Lemma a_second_request_is_served_from_the_cache_witness :
  Reference.day <> []
  /\ CacheService.faults (cache Reference.start) = []
  /\ CacheService.inflight (cache Reference.start) = []
  /\ truthy (fst (CacheService.get (sqlite_order Reference.served (trace Reference.start))
                    (clock Reference.served (trace Reference.start)) Reference.url Reference.day
                    (cache Reference.start))) = false
  /\ fst (summarizeMenu (Reference.platform Reference.CEST) Reference.served Reference.url (Some Reference.day) Reference.start)
     = inr (MenuSummary_value (Reference.menu Reference.forty_five))
  /\ JSON.written (MenuSummary_value (Reference.menu Reference.forty_five))
     = (MenuSummary_value (Reference.menu Reference.forty_five))
  /\ CacheService.getExpirationTimestamp (Reference.platform Reference.CEST) Reference.day
     = Some 1761170400000%Z
  /\ (clock Reference.served
       (trace (snd (summarizeMenu (Reference.platform Reference.CEST) Reference.served Reference.url (Some Reference.day) Reference.start)))
     < 1761170400000)%Z
  /\ sqlite_order Reference.served
       (trace (snd (summarizeMenu (Reference.platform Reference.CEST) Reference.served Reference.url (Some Reference.day) Reference.start)))
     = repeat 0%nat
         (List.length
            (CacheService.inflight
               (cache (snd (summarizeMenu (Reference.platform Reference.CEST) Reference.served Reference.url (Some Reference.day) Reference.start)))))
  /\ (summarizeMenu (Reference.platform Reference.CEST) Reference.served Reference.url (Some Reference.day)
        (snd (summarizeMenu (Reference.platform Reference.CEST) Reference.served Reference.url (Some Reference.day) Reference.start))
      = (inr (MenuSummary_value (Reference.menu Reference.forty_five)),
         mkWorld (trace (snd (summarizeMenu (Reference.platform Reference.CEST) Reference.served Reference.url (Some Reference.day) Reference.start))
                  ++ [CacheGet Reference.url Reference.day])
                 (CacheService.sqlite_runs
                    (sqlite_order Reference.served
                       (trace (snd (summarizeMenu (Reference.platform Reference.CEST) Reference.served Reference.url (Some Reference.day) Reference.start))))
                    (cache (snd (summarizeMenu (Reference.platform Reference.CEST) Reference.served Reference.url (Some Reference.day) Reference.start)))))
      /\ CacheService.inflight
           (CacheService.sqlite_runs
              (sqlite_order Reference.served
                 (trace (snd (summarizeMenu (Reference.platform Reference.CEST) Reference.served Reference.url (Some Reference.day) Reference.start))))
              (cache (snd (summarizeMenu (Reference.platform Reference.CEST) Reference.served Reference.url (Some Reference.day) Reference.start)))) = []).
Proof.
  assert (H1 : Reference.day <> [])
    by (vm_compute; discriminate).
  assert (H2 : CacheService.faults (cache Reference.start) = [])
    by (reflexivity).
  assert (H3 : CacheService.inflight (cache Reference.start) = [])
    by (reflexivity).
  assert (H4 : truthy (fst (CacheService.get (sqlite_order Reference.served (trace Reference.start))
                    (clock Reference.served (trace Reference.start)) Reference.url Reference.day
                    (cache Reference.start))) = false)
    by (vm_compute; reflexivity).
  assert (H5 : fst (summarizeMenu (Reference.platform Reference.CEST) Reference.served Reference.url (Some Reference.day) Reference.start)
     = inr (MenuSummary_value (Reference.menu Reference.forty_five)))
    by (vm_compute; reflexivity).
  assert (H6 : JSON.written (MenuSummary_value (Reference.menu Reference.forty_five))
     = (MenuSummary_value (Reference.menu Reference.forty_five)))
    by (vm_compute; reflexivity).
  assert (H7 : CacheService.getExpirationTimestamp (Reference.platform Reference.CEST) Reference.day
     = Some 1761170400000%Z)
    by (vm_compute; reflexivity).
  assert (H8 : (clock Reference.served
       (trace (snd (summarizeMenu (Reference.platform Reference.CEST) Reference.served Reference.url (Some Reference.day) Reference.start)))
     < 1761170400000)%Z)
    by (vm_compute; reflexivity).
  assert (H9 : sqlite_order Reference.served
       (trace (snd (summarizeMenu (Reference.platform Reference.CEST) Reference.served Reference.url (Some Reference.day) Reference.start)))
     = repeat 0%nat
         (List.length
            (CacheService.inflight
               (cache (snd (summarizeMenu (Reference.platform Reference.CEST) Reference.served Reference.url (Some Reference.day) Reference.start))))))
    by (vm_compute; reflexivity).
  exact (conj H1 (conj H2 (conj H3 (conj H4 (conj H5 (conj H6 (conj H7 (conj H8 (conj H9 
           (@a_second_request_is_served_from_the_cache (Reference.platform Reference.CEST) Reference.served
              Reference.url Reference.day Reference.start (MenuSummary_value (Reference.menu Reference.forty_five))
              1761170400000%Z H1 H2 H3 H4 H5 H6 H7 H8 H9)))))))))).
Defined.

(** The same request made at once, before SQLite has executed the
    INSERT of the first: the lookup misses and the page is fetched and
    sent to the language model a second time. *)
Lemma a_second_request_made_at_once_can_miss :
  fst (summarizeMenu (Reference.platform Reference.CEST) Reference.racing Reference.url (Some Reference.day) Reference.start)
  = inr (MenuSummary_value (Reference.menu Reference.forty_five))
  /\ trace (snd (summarizeMenu (Reference.platform Reference.CEST) Reference.racing Reference.url (Some Reference.day)
                   (snd (summarizeMenu (Reference.platform Reference.CEST) Reference.racing Reference.url (Some Reference.day) Reference.start))))
     = [CacheGet Reference.url Reference.day; AxiosGet Reference.url;
        LLMExtract (js "Soup 45 Kc") Reference.url Reference.day (Some (js "středa")) None;
        CacheSet Reference.url Reference.day (Reference.menu Reference.forty_five);
        CacheGet Reference.url Reference.day; AxiosGet Reference.url;
        LLMExtract (js "Soup 45 Kc") Reference.url Reference.day (Some (js "středa")) None;
        CacheSet Reference.url Reference.day (Reference.menu Reference.forty_five)].
Proof.
  split; vm_compute; reflexivity.
Qed.

End ServiceRunsWitnesses.

(** ** The route *)

Section Route.
Import ScraperService MenuService MenuRoutes.
Local Open Scope Z_scope.
Variable P : Platform.
Variable E : Env.

Lemma error_response_status (e : thrown) :
  In (status (error_response e)) [404; 500; 502; 504].
Proof.
  unfold error_response.
  destruct e as [code response request m|m|]; simpl;
    repeat match goal with
           | |- context [if ?b then _ else _] => destruct b; simpl
           end; auto 10.
Qed.

Lemma valid_request_run (c : N) (r : jsstring) (date : option jsstring)
    (w : world) (u : URL) :
  URL_parse P (c :: r) = Some u ->
  match date with Some (d :: ate) => dateRegex_test (d :: ate) = true | _ => True end ->
  post_summarize P E true (Some (VString (c :: r))) date w
  = match summarizeMenu P E (c :: r) date w with
    | (inr menuSummary, w') => (mkResponse 200 menuSummary, w')
    | (inl error, w') => (error_response error, w')
    end.
Proof.
  intros U D. unfold post_summarize. cbn [negb]. rewrite U.
  destruct date as [[|d ate]|]; try reflexivity.
  rewrite D. reflexivity.
Qed.

Lemma valid_request_not_400 (c : N) (r : jsstring) (date : option jsstring)
    (w : world) (u : URL) :
  URL_parse P (c :: r) = Some u ->
  match date with Some (d :: ate) => dateRegex_test (d :: ate) = true | _ => True end ->
  status (fst (post_summarize P E true (Some (VString (c :: r))) date w)) <> 400.
Proof.
  intros U D. rewrite (@valid_request_run c r date w u U D).
  destruct (summarizeMenu P E (c :: r) date w) as [[e|v] w']; cbn [fst status].
  - pose proof (error_response_status e) as S. intros H. rewrite H in S.
    simpl in S. intuition discriminate.
  - discriminate.
Qed.

(** X23.  With the service initialized, the route answers 400 exactly
    to the requests it finds invalid: a [url] that is absent, not a
    string or empty, a [url] the platform cannot parse, or a non-empty
    [date] that is not of the form YYYY-MM-DD.  And a 400 never costs a
    call: the cache, the network, the browser and the language model are
    all left alone. *)
Theorem bad_requests_are_refused_before_any_call
    (url : option jsvalue) (date : option jsstring) (w : world) :
  (status (fst (post_summarize P E true url date w)) = 400
   <-> ((forall c r, url <> Some (VString (c :: r)))
        \/ (exists s, url = Some (VString s) /\ URL_parse P s = None)
        \/ (exists d, date = Some d /\ d <> [] /\ dateRegex_test d = false)))
  /\ (status (fst (post_summarize P E true url date w)) = 400 ->
      snd (post_summarize P E true url date w) = w).
Proof.
  assert (V : forall c r u,
             url = Some (VString (c :: r)) -> URL_parse P (c :: r) = Some u ->
             match date with
             | Some (d :: ate) => dateRegex_test (d :: ate) = true
             | _ => True
             end ->
             ~ ((forall c r, url <> Some (VString (c :: r)))
                \/ (exists s, url = Some (VString s) /\ URL_parse P s = None)
                \/ (exists d, date = Some d /\ d <> [] /\ dateRegex_test d = false))).
  { intros c r u -> U D [H|[(s & H & N)|(d & -> & Hd & T)]].
    - apply (H c r). reflexivity.
    - injection H as <-. congruence.
    - destruct d as [|d ate]; [congruence|]. rewrite T in D. discriminate D. }
  destruct url as [[| | |[|c r]| |]|];
    try (split; [split; [intros _; left; intros c r H; discriminate H|reflexivity]
                |reflexivity]).
  destruct (URL_parse P (c :: r)) as [u|] eqn:U.
  - destruct (match date with
              | Some (d :: ate) => dateRegex_test (d :: ate)
              | _ => true
              end) eqn:D.
    + assert (D' : match date with
                   | Some (d :: ate) => dateRegex_test (d :: ate) = true
                   | _ => True
                   end) by (destruct date as [[|d ate]|]; auto).
      pose proof (@valid_request_not_400 c r date w u U D') as N.
      split; [split|]; try (intros H; contradiction).
      intros H. exfalso. exact (V c r u eq_refl U D' H).
    + destruct date as [[|d ate]|]; try discriminate D.
      unfold post_summarize. cbn [negb]. rewrite U, D. cbn [negb fst snd status].
      split; [split|]; try reflexivity.
      intros _. right; right. exists (d :: ate). repeat split; [discriminate|exact D].
  - unfold post_summarize. cbn [negb]. rewrite U. cbn [fst snd status].
    split; [split|]; try reflexivity.
    intros _. right; left. exists (c :: r). auto.
Qed.

(** X24.  Whatever the request (a body whose [date] is a string or
    falsy), initialized or not, and whatever happens while it is served,
    the status of the answer is one of 200, 400, 404, 500, 502 and
    504. *)
Theorem the_route_answers_with_six_statuses
    (menuService : bool) (url : option jsvalue) (date : option jsstring) (w : world) :
  In (status (fst (post_summarize P E menuService url date w)))
     [200; 400; 404; 500; 502; 504].
Proof.
  unfold post_summarize.
  destruct menuService; cbn [negb]; [|simpl; auto 10].
  destruct url as [[| | |[|c r]| |]|]; try (simpl; auto 10).
  destruct (URL_parse P (c :: r)); [|simpl; auto 10].
  match goal with |- context [if ?b then _ else _] => destruct b end; [simpl; auto 10|].
  destruct (summarizeMenu P E (c :: r) date w) as [[e|v] w']; cbn [fst]; [|simpl; auto 10].
  pose proof (error_response_status e) as S. simpl in *. intuition.
Qed.

(** X25.  When the static fetch times out and the browser session
    fails too, a valid request that missed the cache is answered 504
    Gateway timeout, with the message of the static timeout as
    details. *)
Theorem a_double_fetch_failure_is_a_gateway_timeout
    (c : N) (r : jsstring) (date : option jsstring) (w : world) (u : URL)
    (response : option (Z * jsstring)) (request : bool) (m : jsstring) (e : thrown) :
  URL_parse P (c :: r) = Some u ->
  match date with Some (d :: ate) => dateRegex_test (d :: ate) = true | _ => True end ->
  truthy (fst (CacheService.get (sqlite_order E (trace w)) (clock E (trace w)) (c :: r)
                 (targetDate date (clock E (trace w))) (cache w))) = false ->
  axios_get E (trace w ++ [CacheGet (c :: r) (targetDate date (clock E (trace w)))])
            (removeHashFromUrl P (c :: r))
    = inl (AxiosError (Some (js "ECONNABORTED")) response request m) ->
  puppeteer_session E
    (trace w ++ [CacheGet (c :: r) (targetDate date (clock E (trace w)))]
     ++ [AxiosGet (removeHashFromUrl P (c :: r))]) (c :: r) = inl e ->
  fst (post_summarize P E true (Some (VString (c :: r))) date w)
  = mkResponse 504
      (error_details (js "Gateway timeout: Could not fetch the menu page")
         (js "Failed to fetch page: Request timeout: The server took too long to respond")).
Proof.
  intros U D Hm Ha Hp.
  rewrite (@valid_request_run c r date w u U D).
  rewrite summarizeMenu_run. cbv zeta. rewrite Hm.
  set (td := targetDate date (clock E (trace w))) in *.
  set (w1 := mkWorld (trace w ++ [CacheGet (c :: r) td]) _).
  assert (F : fetchPageContent P E (c :: r) w1
              = (inl (Error (js "Request timeout: The server took too long to respond")),
                 mkWorld (trace w1 ++ [AxiosGet (removeHashFromUrl P (c :: r))]) (cache w1))).
  { rewrite (surjective_pairing (fetchPageContent P E (c :: r) w1)).
    rewrite fetchPageContent_world.
    rewrite (@fetchPageContent_timeout P E (c :: r) w1 response request m Ha).
    reflexivity. }
  assert (S : scrapeMenuPageWithImages P E (c :: r) w1
              = (inl (Error (js "Failed to fetch page: "
                             ++ js "Request timeout: The server took too long to respond")),
                 mkWorld ((trace w1 ++ [AxiosGet (removeHashFromUrl P (c :: r))])
                          ++ [Puppeteer (c :: r)]) (cache w1))).
  { unfold scrapeMenuPageWithImages, try_catch at 1, bind at 1. rewrite F.
    unfold try_catch, throw. rewrite rendered_attempt_run. cbn [trace cache].
    subst w1. cbn [trace]. rewrite <- app_assoc. rewrite Hp. reflexivity. }
  rewrite S. cbn [fst].
  vm_compute. reflexivity.
Qed.

End Route.

Section RouteWitnesses.
Import ScraperService MenuService MenuRoutes.
Local Open Scope Z_scope.

Lemma a_double_fetch_failure_is_a_gateway_timeout_witness :
  URL_parse (Reference.platform Reference.CEST) (104%N :: js "ttps://example.com/menu")
    = Some (mkURL (js "https") (Some (js "example.com")) (js "/menu") None None)
  /\ match Some Reference.day with
     | Some (d :: ate) => dateRegex_test (d :: ate) = true
     | _ => True
     end
  /\ truthy (fst (CacheService.get (sqlite_order Reference.unreachable (trace Reference.start)) (clock Reference.unreachable (trace Reference.start))
                    (104%N :: js "ttps://example.com/menu")
                    (targetDate (Some Reference.day) (clock Reference.unreachable (trace Reference.start)))
                    (cache Reference.start))) = false
  /\ axios_get Reference.unreachable
       (trace Reference.start
        ++ [CacheGet (104%N :: js "ttps://example.com/menu")
              (targetDate (Some Reference.day) (clock Reference.unreachable (trace Reference.start)))])
       (removeHashFromUrl (Reference.platform Reference.CEST) (104%N :: js "ttps://example.com/menu"))
     = inl (AxiosError (Some (js "ECONNABORTED")) None true
                       (js "timeout of 10000ms exceeded"))
  /\ puppeteer_session Reference.unreachable
       (trace Reference.start
        ++ [CacheGet (104%N :: js "ttps://example.com/menu")
              (targetDate (Some Reference.day) (clock Reference.unreachable (trace Reference.start)))]
        ++ [AxiosGet (removeHashFromUrl (Reference.platform Reference.CEST) (104%N :: js "ttps://example.com/menu"))])
       (104%N :: js "ttps://example.com/menu") = inl Reference.timeout
  /\ fst (post_summarize (Reference.platform Reference.CEST) Reference.unreachable true
            (Some (VString (104%N :: js "ttps://example.com/menu"))) (Some Reference.day) Reference.start)
     = mkResponse 504
         (error_details (js "Gateway timeout: Could not fetch the menu page")
            (js "Failed to fetch page: Request timeout: The server took too long to respond")).
Proof.
  assert (H1 : URL_parse (Reference.platform Reference.CEST) (104%N :: js "ttps://example.com/menu")
    = Some (mkURL (js "https") (Some (js "example.com")) (js "/menu") None None))
    by (vm_compute; reflexivity).
  assert (H2 : match Some Reference.day with
     | Some (d :: ate) => dateRegex_test (d :: ate) = true
     | _ => True
     end)
    by (vm_compute; reflexivity).
  assert (H3 : truthy (fst (CacheService.get (sqlite_order Reference.unreachable (trace Reference.start)) (clock Reference.unreachable (trace Reference.start))
                    (104%N :: js "ttps://example.com/menu")
                    (targetDate (Some Reference.day) (clock Reference.unreachable (trace Reference.start)))
                    (cache Reference.start))) = false)
    by (vm_compute; reflexivity).
  assert (H4 : axios_get Reference.unreachable
       (trace Reference.start
        ++ [CacheGet (104%N :: js "ttps://example.com/menu")
              (targetDate (Some Reference.day) (clock Reference.unreachable (trace Reference.start)))])
       (removeHashFromUrl (Reference.platform Reference.CEST) (104%N :: js "ttps://example.com/menu"))
     = inl (AxiosError (Some (js "ECONNABORTED")) None true
                       (js "timeout of 10000ms exceeded")))
    by (vm_compute; reflexivity).
  assert (H5 : puppeteer_session Reference.unreachable
       (trace Reference.start
        ++ [CacheGet (104%N :: js "ttps://example.com/menu")
              (targetDate (Some Reference.day) (clock Reference.unreachable (trace Reference.start)))]
        ++ [AxiosGet (removeHashFromUrl (Reference.platform Reference.CEST) (104%N :: js "ttps://example.com/menu"))])
       (104%N :: js "ttps://example.com/menu") = inl Reference.timeout)
    by (vm_compute; reflexivity).
  exact (conj H1 (conj H2 (conj H3 (conj H4 (conj H5
           (@a_double_fetch_failure_is_a_gateway_timeout
              (Reference.platform Reference.CEST) Reference.unreachable 104%N
              (js "ttps://example.com/menu") (Some Reference.day) Reference.start
              (mkURL (js "https") (Some (js "example.com")) (js "/menu") None None)
              None true (js "timeout of 10000ms exceeded") Reference.timeout
              H1 H2 H3 H4 H5)))))).
Defined.

End RouteWitnesses.
